(** * Shopify -> ikas converter: a shallow embedding of [converter.py]

    The development follows [shopify_to_ikas_converter] line by line.
    A pandas row is a finite map from column labels to Python scalars, the
    frame is its column index plus its rows in order, Python dictionaries
    that are iterated in insertion order are association lists, and the
    exceptions the function can raise are the [Raised] branch of a small
    result monad.  Python's string and number built-ins ([str.upper],
    [str.strip], [float], [int] on text, [str] on a float) are not part of
    the repository: they are the fields of the class [Builtins], and every
    theorem holds for any implementation of them (a few need the laws of
    [BuiltinLaws], which Python's own functions satisfy). *)

From Stdlib Require Import Ascii String QArith Qcanon DecimalString.
From stdpp Require Import gmap strings list fin_maps numbers sorting.

Open Scope string_scope.

(** ** Python scalars *)

(** A Python [float].  Finite values are kept as exact rationals (no rounding
    is modelled; the converter performs no arithmetic on them, it only
    parses, compares with zero and truncates), the two infinities and NaN are
    explicit because [int] treats them differently. *)
Inductive pyfloat : Type :=
| Finite (q : Qc)
| Infinity (negative : bool)
| NaN.

(** The cell values pandas hands out: [None], text, integers, floats and
    booleans. *)
Inductive value : Type :=
| PyNone
| Str (s : string)
| Int (z : Z)
| Float (x : pyfloat)
| Bool (b : bool).

#[global] Instance pyfloat_eq_dec : EqDecision pyfloat.
Proof. solve_decision. Defined.

#[global] Instance value_eq_dec : EqDecision value.
Proof. solve_decision. Defined.

(** ** Exceptions and the result monad *)

Inductive exception : Type :=
| FileNotFoundError
| ValueError (msg : string)
| OverflowError
| KeyError
| IndexError.

Inductive result (A : Type) : Type :=
| Returned (a : A)
| Raised (e : exception).

Arguments Returned {A} a.
Arguments Raised {A} e.

#[global] Instance result_ret : MRet result := @Returned.

#[global] Instance result_bind : MBind result := λ A B k m,
  match m with
  | Returned a => k a
  | Raised e => Raised e
  end.

(** A [for] loop whose body may raise: the state is threaded through the
    elements in order and the first exception ends the loop. *)
Fixpoint for_each {S A : Type} (body : S → A → result S) (s : S) (l : list A)
  : result S :=
  match l with
  | [] => Returned s
  | x :: l' => s' ← body s x; for_each body s' l'
  end.

(** ** Built-ins of Python that the converter calls *)

Class Builtins : Type := {
  upper : string → string;                   (* str.upper *)
  strip : string → string;                   (* str.strip *)
  float_of_str : string → option pyfloat;    (* float(s); None is ValueError *)
  int_of_str : string → option Z;            (* int(s); None is ValueError *)
  str_of_float : pyfloat → string            (* str(x) of a float *)
}.

(** Facts about [str.strip] and [str.upper] used by some of the theorems. *)
Class BuiltinLaws (B : Builtins) : Prop := {
  strip_idemp : ∀ s, strip (strip s) = strip s;
  strip_upper_strip : ∀ s, strip (upper (strip s)) = upper (strip s);
  strip_empty : strip "" = "";
  upper_empty : upper "" = ""
}.

Definition string_of_Z (z : Z) : string := NilZero.string_of_int (Z.to_int z).

Definition Qc_of_Z (z : Z) : Qc := Q2Qc (inject_Z z).

Section Python.
Context {B : Builtins}.

(** [str(v)] *)
Definition py_str (v : value) : string :=
  match v with
  | PyNone => "None"
  | Str s => s
  | Int z => string_of_Z z
  | Float x => str_of_float x
  | Bool b => if b then "True" else "False"
  end.

(** [pd.notna(v)] *)
Definition notna (v : value) : bool :=
  match v with
  | PyNone | Float NaN => false
  | _ => true
  end.

(** [v != ""] *)
Definition ne_empty (v : value) : bool :=
  match v with
  | Str s => negb (String.eqb s "")
  | _ => true
  end.

(** Truth value of a string: [not s] is [negb (nonempty s)]. *)
Definition nonempty (s : string) : bool := negb (String.eqb s "").

(** [x == 0.0] on floats. *)
Definition float_is_zero (x : pyfloat) : bool :=
  match x with
  | Finite q => bool_decide (q = 0%Qc)
  | _ => false
  end.

(** [float(v)] under [try ... except (ValueError, TypeError): pass]:
    [None] when the exception is caught.  [float] raises nothing else on
    these values. *)
Definition py_float (v : value) : option pyfloat :=
  match v with
  | PyNone => None
  | Str s => float_of_str s
  | Int z => Some (Finite (Qc_of_Z z))
  | Float x => Some x
  | Bool b => Some (Finite (Qc_of_Z (if b then 1 else 0)))
  end.

(** [int(v)] under [try ... except (ValueError, TypeError): pass]:
    [Returned None] when the exception is caught.  [int] of an infinite
    float raises [OverflowError], which that handler does not catch. *)
Definition py_int (v : value) : result (option Z) :=
  match v with
  | PyNone => Returned None
  | Str s => Returned (int_of_str s)
  | Int z => Returned (Some z)
  | Float (Finite q) => Returned (Some (Z.quot (Qnum q) (Zpos (Qden q))))
  | Float (Infinity _) => Raised OverflowError
  | Float NaN => Returned None
  | Bool b => Returned (Some (if b then 1 else 0)%Z)
  end.

End Python.

(** ** Frames and rows *)

(** A row ([pd.Series] indexed by column label). *)
Abbreviation Series := (gmap string value).

Record DataFrame : Type := mkDataFrame {
  columns : list string;
  rows : list Series
}.

(** What the loading phase (lines 118-128) leaves behind. *)
Inductive source : Type :=
| Missing                        (* [path.exists()] is false *)
| UnsupportedSuffix              (* neither .csv nor .xlsx/.xls *)
| Loaded (source_df : DataFrame).

(** [row[col]] of a frame's row; a label the row lacks reads as missing. *)
Definition cell (row : Series) (col : string) : value :=
  default PyNone (row !! col).

Section Access.
Context {B : Builtins}.

(** ["col" in row and pd.notna(row["col"])], with the cell when it holds;
    also [row.get("col", None)] followed by the [None]/[isna] test. *)
Definition present (row : Series) (col : string) : option value :=
  match row !! col with
  | Some v => if notna v then Some v else None
  | None => None
  end.

(** [series.ffill()]: a missing cell takes the last value seen above it. *)
Fixpoint ffill (last : option value) (col : list value) : list value :=
  match col with
  | [] => []
  | v :: col' =>
      if notna v then v :: ffill (Some v) col'
      else default v last :: ffill last col'
  end.

(** [source_df["Handle"] = source_df["Handle"].ffill()] *)
Definition fill_handles (rs : list Series) : list Series :=
  zip_with (λ v row, <["Handle" := v]> row)
           (ffill None ((λ row, cell row "Handle") <$> rs)) rs.

(** Keys in order of first appearance. *)
Fixpoint first_occurrences {A : Type} `{EqDecision A} (l : list A) : list A :=
  match l with
  | [] => []
  | x :: l' => x :: filter (λ y, y ≠ x) (first_occurrences l')
  end.

(** [df.groupby("Handle", sort=False)]: one group per key that is not
    missing, in order of first appearance, each with its rows in order. *)
Definition groupby (rs : list Series) : list (value * list Series) :=
  (λ handle, (handle, filter (λ row, cell row "Handle" = handle) rs))
    <$> first_occurrences
          (filter (λ v, notna v = true) ((λ row, cell row "Handle") <$> rs)).

(** [group_df[col].dropna()] *)
Definition dropna (group_df : list Series) (col : string) : list value :=
  filter (λ v, notna v = true) ((λ row, cell row col) <$> group_df).

(** [group_df[col].dropna().iloc[0]] guarded by
    ["col" in group_df.columns and not group_df[col].dropna().empty]. *)
Definition first_valid (cols : list string) (group_df : list Series)
    (col : string) : option value :=
  if bool_decide (col ∈ cols) then head (dropna group_df col) else None.

End Access.

(** ** First loop: what is shared by all rows of a handle (lines 146-218) *)

Record CommonInfo : Type := mkCommonInfo {
  Title : value;
  Body_HTML : value;
  Category : value;
  Tags : value;
  Vendor : value;
  SEO_Title : value;
  SEO_Description : value;
  Google_Category : value;
  Type_ : value;
  Created_At : value
}.

(** The order [sorted] puts strings in. *)
Definition str_le (a b : string) : Prop := String.leb a b = true.

#[global] Instance str_le_dec : RelDecision str_le :=
  λ a b, decide (String.leb a b = true).

Section Aggregation.
Context {B : Builtins}.

(** [group_df[col].dropna().iloc[0] if "col" in group_df.columns and not
    group_df[col].dropna().empty else ""] *)
Definition first_or_blank (cols : list string) (group_df : list Series)
    (col : string) : value :=
  default (Str "") (first_valid cols group_df col).

(** Lines 149-153: the column the category is read from. *)
Definition category_col (cols : list string) (group_df : list Series)
  : option string :=
  if is_Some_dec (first_valid cols group_df "Product Category")
  then Some "Product Category"
  else if is_Some_dec (first_valid cols group_df "Type") then Some "Type"
  else None.

(** Lines 164-168. *)
Definition google_category (cols : list string) (group_df : list Series)
  : value :=
  match first_valid cols group_df "Google Shopping / Google Product Category" with
  | Some v => v
  | None => first_or_blank cols group_df "Google Product Category"
  end.

(** Lines 193-204. *)
Definition group_common_info (cols : list string) (group_df : list Series)
  : CommonInfo :=
  {| Title := first_or_blank cols group_df "Title";
     Body_HTML := first_or_blank cols group_df "Body (HTML)";
     Category := match category_col cols group_df with
                 | Some c => first_or_blank cols group_df c
                 | None => Str ""
                 end;
     Tags := first_or_blank cols group_df "Tags";
     Vendor := first_or_blank cols group_df "Vendor";
     SEO_Title := first_or_blank cols group_df "SEO Title";
     SEO_Description := first_or_blank cols group_df "SEO Description";
     Google_Category := google_category cols group_df;
     Type_ := first_or_blank cols group_df "Type";
     Created_At := first_or_blank cols group_df "Created At" |}.

(** Lines 181-189: [status_value]. *)
Definition status_value (cols : list string) (group_df : list Series)
  : option string :=
  match first_valid cols group_df "Status" with
  | Some v => Some (upper (strip (py_str v)))
  | None =>
      match first_valid cols group_df "Published" with
      | Some v =>
          let published := upper (strip (py_str v)) in
          if bool_decide (published ∈ ["TRUE"; "1"; "YES"])
          then Some "ACTIVE" else None
      | None => None
      end
  end.

(** Line 191: [status_value == "ACTIVE" if status_value else False]. *)
Definition group_handle_status (cols : list string) (group_df : list Series) : bool :=
  match status_value cols group_df with
  | Some s => if nonempty s then bool_decide (s = "ACTIVE") else false
  | None => false
  end.

(** Lines 209-215: the non-empty texts of one image column. *)
Definition image_column (cols : list string) (group_df : list Series)
    (col : string) : list string :=
  if bool_decide (col ∈ cols)
  then filter (λ s, s ≠ "") (py_str <$> dropna group_df col)
  else [].

(** Lines 207-218: the set of image addresses, sorted and joined by [;]. *)
Definition group_image_urls (cols : list string) (group_df : list Series) : string :=
  let image_urls_set : gset string :=
    list_to_set (image_column cols group_df "Image Src")
    ∪ list_to_set (image_column cols group_df "Variant Image") in
  String.concat ";"
    (merge_sort str_le (elements image_urls_set)).

(** A dictionary keyed by handle: [d[k] = v] and [d[k]]. *)
Definition dict_set {V : Type} (k : value) (v : V) (d : list (value * V))
  : list (value * V) :=
  (k, v) :: filter (λ kv, kv.1 ≠ k) d.

Fixpoint dict_get {V : Type} (d : list (value * V)) (k : value) : result V :=
  match d with
  | [] => Raised KeyError
  | (k', v) :: d' => if decide (k' = k) then Returned v else dict_get d' k
  end.

(** The three dictionaries the first loop fills. *)
Record Aggregates : Type := mkAggregates {
  common_info : list (value * CommonInfo);
  image_urls : list (value * string);
  handle_status : list (value * bool)
}.

(** Lines 146-218: one iteration of the first loop. *)
Definition aggregate_group (cols : list string) (a : Aggregates)
    (hg : value * list Series) : Aggregates :=
  let '(handle, group_df) := hg in
  {| handle_status :=
       dict_set handle (group_handle_status cols group_df) (handle_status a);
     common_info :=
       dict_set handle (group_common_info cols group_df) (common_info a);
     image_urls :=
       dict_set handle (group_image_urls cols group_df) (image_urls a) |}.

Definition aggregate (cols : list string)
    (handle_groups : list (value * list Series)) : Aggregates :=
  foldl (aggregate_group cols) (mkAggregates [] [] []) handle_groups.

End Aggregation.

(** ** Second loop: merging the fields of a set of rows *)

(** The five locals [variant_sku], [barcode], [sale_price],
    [discounted_price], [stock_qty] of a merge loop. *)
Record Merged : Type := mkMerged {
  variant_sku : string;
  barcode : string;
  sale_price : pyfloat;
  discounted_price : pyfloat;
  stock_qty : Z
}.

Definition merge_init : Merged :=
  {| variant_sku := ""; barcode := "";
     sale_price := Finite 0; discounted_price := Finite 0; stock_qty := 0 |}.

Section Merge.
Context {B : Builtins}.

(** Lines 256-260 (also 454-458 and 547-551). *)
Definition take_barcode (row : Series) (barcode : string) : string :=
  if nonempty barcode then barcode
  else match present row "Variant Barcode" with
       | Some v => py_str v
       | None =>
           match present row "Barcode" with
           | Some v => py_str v
           | None => barcode
           end
       end.

(** Lines 262-267 (also 459-464 and 554-559). *)
Definition take_sale_price (row : Series) (sale_price : pyfloat) : pyfloat :=
  if float_is_zero sale_price
  then match present row "Variant Price" with
       | Some v => default sale_price (py_float v)
       | None => sale_price
       end
  else sale_price.

(** Lines 270-272: [compare_price]. *)
Definition compare_price (row : Series) : option value :=
  match present row "Compare At Price" with
  | Some v => Some v
  | None => present row "Variant Compare At Price"
  end.

(** Lines 269-277 (also 465-473 and 562-570). *)
Definition take_discounted_price (row : Series) (discounted_price : pyfloat)
  : pyfloat :=
  if float_is_zero discounted_price
  then match compare_price row with
       | Some v => default discounted_price (py_float v)
       | None => discounted_price
       end
  else discounted_price.

(** Lines 279-284 (also 474-479 and 573-578). *)
Definition take_stock_qty (row : Series) (stock_qty : Z) : result Z :=
  if bool_decide (stock_qty = 0%Z)
  then match present row "Variant Inventory Qty" with
       | Some v => o ← py_int v; mret (default stock_qty o)
       | None => mret stock_qty
       end
  else mret stock_qty.

(** Lines 546-578: what a loop body does after the SKU. *)
Definition merge_rest (m : Merged) (variant_sku : string) (row : Series)
  : result Merged :=
  let barcode := take_barcode row (barcode m) in
  let sale_price := take_sale_price row (sale_price m) in
  let discounted_price := take_discounted_price row (discounted_price m) in
  stock_qty ← take_stock_qty row (stock_qty m);
  mret (mkMerged variant_sku barcode sale_price discounted_price stock_qty).

(** Lines 252-284 and 451-479: the body of the simple product's loop. *)
Definition simple_merge_row (m : Merged) (row : Series) : result Merged :=
  let variant_sku :=
    if negb (nonempty (variant_sku m))
    then match present row "Variant SKU" with
         | Some v => py_str v
         | None => variant_sku m
         end
    else variant_sku m in
  merge_rest m variant_sku row.

(** Lines 539-578: the body of a variant bucket's loop.  When the SKU cell
    is text that strips to nothing, [continue] leaves the row. *)
Definition variant_merge_row (m : Merged) (row : Series) : result Merged :=
  if negb (nonempty (variant_sku m))
  then match present row "Variant SKU" with
       | Some v =>
           let variant_sku := strip (py_str v) in
           if negb (nonempty variant_sku)
           then mret (mkMerged variant_sku (barcode m) (sale_price m)
                               (discounted_price m) (stock_qty m))
           else merge_rest m variant_sku row
       | None => merge_rest m (variant_sku m) row
       end
  else merge_rest m (variant_sku m) row.

Definition simple_merge (group_df : list Series) : result Merged :=
  for_each simple_merge_row merge_init group_df.

Definition variant_merge (variant_rows : list Series) : result Merged :=
  for_each variant_merge_row merge_init variant_rows.

End Merge.

(** ** Second loop: variant combinations (lines 354-435) *)

(** [variant_key]: a pair of strings, either the two normalised option
    values or [("SKU_ONLY", sku)]. *)
Abbreviation VariantKey := (string * string)%type.

(** The dictionary stored under a key: the option values of the row that
    created it and the rows collected so far. *)
Record VariantData : Type := mkVariantData {
  Option1_Value : string;
  Option2_Value : string;
  variant_rows : list Series
}.

(** Lines 425-435: create the entry on first sight of the key, then append
    the row to it.  The dictionary keeps insertion order. *)
Fixpoint add_row (key : VariantKey) (option1_value option2_value : string)
    (row : Series) (vc : list (VariantKey * VariantData))
  : list (VariantKey * VariantData) :=
  match vc with
  | [] => [(key, mkVariantData option1_value option2_value [row])]
  | (k, d) :: vc' =>
      if decide (k = key)
      then (k, mkVariantData (Option1_Value d) (Option2_Value d)
                             (variant_rows d ++ [row])%list) :: vc'
      else (k, d) :: add_row key option1_value option2_value row vc'
  end.

Section Variants.
Context {B : Builtins}.

(** Lines 364-380: a cell read as trimmed text, blank when it is missing,
    empty, or all white space. *)
Definition cleaned (row : Series) (col : string) : string :=
  match row !! col with
  | Some val =>
      if notna val && ne_empty val && nonempty (strip (py_str val))
      then strip (py_str val)
      else ""
  | None => ""
  end.

(** Lines 383-386. *)
Definition blank_default_title (option_value : string) : string :=
  if nonempty option_value
     && bool_decide (strip (upper option_value) = "DEFAULT TITLE")
  then "" else option_value.

(** Lines 358-394: the three locals of the bucketing loop. *)
Definition option1_value (row : Series) : string :=
  blank_default_title (cleaned row "Option1 Value").

Definition option2_value (row : Series) : string :=
  blank_default_title (cleaned row "Option2 Value").

Definition row_sku (row : Series) : string := cleaned row "Variant SKU".

(** Lines 410-412. *)
Definition normalized_option (option_value : string) : string :=
  if nonempty option_value then upper (strip option_value) else "".

Definition normalized_sku (sku : string) : string :=
  if nonempty sku then strip sku else "".

(** Lines 403-422: the key of a row, [None] where the loop [continue]s. *)
Definition variant_key (row : Series) : option VariantKey :=
  let o1 := option1_value row in
  let o2 := option2_value row in
  let sku := row_sku row in
  if negb (nonempty o1) && negb (nonempty o2) && negb (nonempty sku)
  then None
  else
    let n1 := normalized_option o1 in
    let n2 := normalized_option o2 in
    if nonempty n1 || nonempty n2 then Some (n1, n2)
    else if nonempty (normalized_sku sku) then Some ("SKU_ONLY", normalized_sku sku)
    else None.

(** Lines 356-435: one iteration of the bucketing loop. *)
Definition bucket_row (vc : list (VariantKey * VariantData)) (row : Series)
  : list (VariantKey * VariantData) :=
  match variant_key row with
  | Some key => add_row key (option1_value row) (option2_value row) row vc
  | None => vc
  end.

Definition variant_combinations (group_df : list Series)
  : list (VariantKey * VariantData) :=
  foldl bucket_row [] group_df.

(** Lines 235-237. *)
Definition is_simple_product (first_row : Series) : bool :=
  match present first_row "Option1 Value" with
  | Some v => bool_decide (upper (strip (py_str v)) = "DEFAULT TITLE")
  | None => false
  end.

(** Lines 232-237 on a group: the classification of its handle. *)
Definition classified_simple (group_df : list Series) : bool :=
  match group_df with
  | first_row :: _ => is_simple_product first_row
  | [] => false
  end.

(** Lines 346-349. *)
Definition variant_type (first_row : Series) (col : string) : string :=
  match present first_row col with
  | Some v => py_str v
  | None => ""
  end.

(** Lines 589-593. *)
Definition variant_deger (option_value : string) : string :=
  if nonempty option_value
     && negb (bool_decide (upper option_value = "DEFAULT TITLE"))
  then option_value else "".

End Variants.

(** ** Output rows *)

(** One dictionary of [ikas_rows]: the 37 columns of [IKAS_COLUMNS] in
    order (field names are the column names without Turkish diacritics). *)
Record IkasRow : Type := mkIkasRow {
  Urun_Grup_ID : value;
  Varyant_ID : value;
  Isim : value;
  Aciklama : value;
  Satis_Fiyati : value;
  Indirimli_Fiyati : value;
  Alis_Fiyati : value;
  Barkod_Listesi : value;
  SKU : value;
  Silindi_mi : value;
  Marka : value;
  Kategoriler : value;
  Etiketler : value;
  Resim_URL : value;
  Metadata_Baslik : value;
  Metadata_Aciklama : value;
  Slug : value;
  Stok_Ana_Depo : value;
  Tip : value;
  Varyant_Tip_1 : value;
  Varyant_Deger_1 : value;
  Varyant_Tip_2 : value;
  Varyant_Deger_2 : value;
  Desi : value;
  HS_Kod : value;
  Birim_Urun_Miktari : value;
  Urun_Birimi : value;
  Satilan_Urun_Miktari : value;
  Satilan_Urun_Birimi : value;
  Google_Urun_Kategorisi : value;
  Tedarikci : value;
  Stogu_Tukenince_Satmaya_Devam_Et : value;
  Satis_Kanali_belix : value;
  Sepet_Basina_Minimum_Alma_Adeti_belix : value;
  Sepet_Basina_Maksimum_Alma_Adeti_belix : value;
  Varyant_Aktiflik : value;
  Olusturulma_Tarihi : value
}.

(** Lines 290-328 and 483-521: the row of a simple product. *)
Definition simple_ikas_row (handle : value) (common : CommonInfo)
    (images satis_kanali : string) (m : Merged) : IkasRow :=
  {| Urun_Grup_ID := Str "";
     Varyant_ID := Str "";
     Isim := Title common;
     Aciklama := Body_HTML common;
     Satis_Fiyati := Float (sale_price m);
     Indirimli_Fiyati := Float (discounted_price m);
     Alis_Fiyati := Str "";
     Barkod_Listesi := Str (barcode m);
     SKU := Str (variant_sku m);
     Silindi_mi := Str "";
     Marka := Vendor common;
     Kategoriler := Category common;
     Etiketler := Tags common;
     Resim_URL := Str images;
     Metadata_Baslik := SEO_Title common;
     Metadata_Aciklama := SEO_Description common;
     Slug := handle;
     Stok_Ana_Depo := Int (stock_qty m);
     Tip := Type_ common;
     Varyant_Tip_1 := Str "";
     Varyant_Deger_1 := Str "";
     Varyant_Tip_2 := Str "";
     Varyant_Deger_2 := Str "";
     Desi := Str "";
     HS_Kod := Str "";
     Birim_Urun_Miktari := Str "";
     Urun_Birimi := Str "";
     Satilan_Urun_Miktari := Str "";
     Satilan_Urun_Birimi := Str "";
     Google_Urun_Kategorisi := Google_Category common;
     Tedarikci := Vendor common;
     Stogu_Tukenince_Satmaya_Devam_Et := Str "";
     Satis_Kanali_belix := Str satis_kanali;
     Sepet_Basina_Minimum_Alma_Adeti_belix := Str "";
     Sepet_Basina_Maksimum_Alma_Adeti_belix := Str "";
     Varyant_Aktiflik := Str "";
     Olusturulma_Tarihi := Created_At common |}.

(** Lines 602-640: the row of one variant combination. *)
Definition variant_ikas_row (grup_id handle : value) (common : CommonInfo)
    (images satis_kanali : string)
    (variant_tip_1 variant_deger_1 variant_tip_2 variant_deger_2 : string)
    (m : Merged) : IkasRow :=
  {| Urun_Grup_ID := grup_id;
     Varyant_ID := Str "";
     Isim := Title common;
     Aciklama := Body_HTML common;
     Satis_Fiyati := Float (sale_price m);
     Indirimli_Fiyati := Float (discounted_price m);
     Alis_Fiyati := Str "";
     Barkod_Listesi := Str (barcode m);
     SKU := Str (variant_sku m);
     Silindi_mi := Str "";
     Marka := Vendor common;
     Kategoriler := Category common;
     Etiketler := Tags common;
     Resim_URL := Str images;
     Metadata_Baslik := SEO_Title common;
     Metadata_Aciklama := SEO_Description common;
     Slug := handle;
     Stok_Ana_Depo := Int (stock_qty m);
     Tip := Type_ common;
     Varyant_Tip_1 := Str variant_tip_1;
     Varyant_Deger_1 := Str variant_deger_1;
     Varyant_Tip_2 := Str variant_tip_2;
     Varyant_Deger_2 := Str variant_deger_2;
     Desi := Str "";
     HS_Kod := Str "";
     Birim_Urun_Miktari := Str "";
     Urun_Birimi := Str "";
     Satilan_Urun_Miktari := Str "";
     Satilan_Urun_Birimi := Str "";
     Google_Urun_Kategorisi := Google_Category common;
     Tedarikci := Vendor common;
     Stogu_Tukenince_Satmaya_Devam_Et := Str "";
     Satis_Kanali_belix := Str satis_kanali;
     Sepet_Basina_Minimum_Alma_Adeti_belix := Str "";
     Sepet_Basina_Maksimum_Alma_Adeti_belix := Str "";
     Varyant_Aktiflik := Str "";
     Olusturulma_Tarihi := Created_At common |}.

(** Lines 287, 338 and 481: ["VISIBLE" if handle_status[handle] else ""]. *)
Definition satis_kanali_of (visible : bool) : string :=
  if visible then "VISIBLE" else "".

(** ** The converter *)

Section Converter.
Context {B : Builtins}.

(** Lines 243-331 and 441-524: all rows of the handle merged into one row,
    appended to [ikas_rows]. *)
Definition emit_simple (a : Aggregates) (handle : value) (common : CommonInfo)
    (images : string) (group_df : list Series) (ikas_rows : list IkasRow)
  : result (list IkasRow) :=
  m ← simple_merge group_df;
  visible ← dict_get (handle_status a) handle;
  let satis_kanali := satis_kanali_of visible in
  mret (ikas_rows ++ [simple_ikas_row handle common images satis_kanali m])%list.

(** Lines 527-642: one iteration of the loop over the combinations. *)
Definition emit_variant (grup_id handle : value) (common : CommonInfo)
    (images satis_kanali variant_type_1 variant_type_2 : string)
    (ikas_rows : list IkasRow) (kd : VariantKey * VariantData)
  : result (list IkasRow) :=
  let '(variant_key, variant_data) := kd in
  m ← variant_merge (variant_rows variant_data);
  mret (ikas_rows ++
        [variant_ikas_row grup_id handle common images satis_kanali
           variant_type_1 (variant_deger (Option1_Value variant_data))
           variant_type_2 (variant_deger (Option2_Value variant_data)) m])%list.

(** Lines 223-642: one iteration of the second loop. *)
Definition convert_group (a : Aggregates) (ikas_rows : list IkasRow)
    (hg : value * list Series) : result (list IkasRow) :=
  let '(handle, group_df) := hg in
  let grup_id := handle in
  common ← dict_get (common_info a) handle;
  images ← dict_get (image_urls a) handle;
  match group_df with
  | [] => Raised IndexError
  | first_row :: _ =>
      if is_simple_product first_row
      then emit_simple a handle common images group_df ikas_rows
      else
        visible ← dict_get (handle_status a) handle;
        let satis_kanali := satis_kanali_of visible in
        let variant_type_1 := variant_type first_row "Option1 Name" in
        let variant_type_2 := variant_type first_row "Option2 Name" in
        match variant_combinations group_df with
        | [] => emit_simple a handle common images group_df ikas_rows
        | vc =>
            for_each
              (emit_variant grup_id handle common images satis_kanali
                            variant_type_1 variant_type_2)
              ikas_rows vc
        end
  end.

(** Lines 130-650, on a loaded frame. *)
Definition convert_frame (source_df : DataFrame) : result (list IkasRow) :=
  if negb (bool_decide ("Handle" ∈ columns source_df))
  then Raised (ValueError "Handle sütunu bulunamadı. Lütfen geçerli bir Shopify export dosyası yükleyin.")
  else
    let handle_groups := groupby (fill_handles (rows source_df)) in
    let a := aggregate (columns source_df) handle_groups in
    for_each (convert_group a) [] handle_groups.

(** [shopify_to_ikas_converter]: the rows of the returned frame, whose
    columns are always [IKAS_COLUMNS], or the exception raised. *)
Definition shopify_to_ikas_converter (file : source) : result (list IkasRow) :=
  match file with
  | Missing => Raised FileNotFoundError
  | UnsupportedSuffix =>
      Raised (ValueError "Unsupported file extension. Please provide CSV or XLSX.")
  | Loaded source_df => convert_frame source_df
  end.

End Converter.

(** ** A concrete implementation of the built-ins on ASCII text

    It agrees with Python on ASCII strings and plain decimal numerals and is
    used to run the converter on concrete frames. *)

Module AsciiText.

Definition upper_char (c : ascii) : ascii :=
  let n := nat_of_ascii c in
  if (97 <=? n)%nat && (n <=? 122)%nat then ascii_of_nat (n - 32) else c.

Fixpoint upper (s : string) : string :=
  match s with
  | EmptyString => EmptyString
  | String c s' => String (upper_char c) (upper s')
  end.

Definition is_space (c : ascii) : bool :=
  let n := nat_of_ascii c in
  (n =? 32)%nat || ((9 <=? n)%nat && (n <=? 13)%nat)
  || ((28 <=? n)%nat && (n <=? 31)%nat).

Fixpoint lstrip (s : string) : string :=
  match s with
  | EmptyString => EmptyString
  | String c s' => if is_space c then lstrip s' else s
  end.

Fixpoint rstrip (s : string) : string :=
  match s with
  | EmptyString => EmptyString
  | String c s' =>
      match rstrip s' with
      | EmptyString => if is_space c then EmptyString else String c EmptyString
      | t => String c t
      end
  end.

Definition strip (s : string) : string := rstrip (lstrip s).

(** A string that [lstrip] leaves alone. *)
Definition starts_nonspace (s : string) : Prop :=
  match s with
  | EmptyString => True
  | String c _ => is_space c = false
  end.

(** The text before and after the first dot. *)
Fixpoint split_dot (s : string) : string * option string :=
  match s with
  | EmptyString => (EmptyString, None)
  | String c s' =>
      if Ascii.eqb c "."%char then (EmptyString, Some s')
      else let '(i, f) := split_dot s' in (String c i, f)
  end.

Definition unsigned_decimal (s : string) : option Qc :=
  let '(i, f) := split_dot s in
  let f := default EmptyString f in
  if String.eqb i "" && String.eqb f "" then None
  else
    match NilEmpty.uint_of_string i, NilEmpty.uint_of_string f with
    | Some ip, Some fp =>
        let scale := (10 ^ Z.of_nat (String.length f))%Z in
        Some (Q2Qc (Qmake (Z.of_uint ip * scale + Z.of_uint fp) (Z.to_pos scale)))
    | _, _ => None
    end.

Definition float_of_str (s : string) : option pyfloat :=
  let t := strip s in
  if String.eqb t "inf" then Some (Infinity false)
  else if String.eqb t "-inf" then Some (Infinity true)
  else if String.eqb t "nan" then Some NaN
  else
    match t with
    | String "-" r => (λ q, Finite (- q)%Qc) <$> unsigned_decimal r
    | String "+" r => Finite <$> unsigned_decimal r
    | _ => Finite <$> unsigned_decimal t
    end.

Definition int_of_str (s : string) : option Z :=
  match strip s with
  | String "+" r => Z.of_uint <$> NilEmpty.uint_of_string r
  | String "-" r =>
      if String.eqb r "" then None
      else (λ u, (- Z.of_uint u)%Z) <$> NilEmpty.uint_of_string r
  | EmptyString => None
  | t => Z.of_uint <$> NilEmpty.uint_of_string t
  end.

Fixpoint fraction_digits (fuel : nat) (r d : Z) : string :=
  match fuel with
  | O => EmptyString
  | S fuel' =>
      if (r =? 0)%Z then EmptyString
      else String (ascii_of_nat (48 + Z.to_nat (r * 10 / d)))
                  (fraction_digits fuel' ((r * 10) mod d) d)
  end.

Definition str_of_float (x : pyfloat) : string :=
  match x with
  | NaN => "nan"
  | Infinity negative => if negative then "-inf" else "inf"
  | Finite q =>
      let n := Qnum q in
      let d := Zpos (Qden q) in
      let a := Z.abs n in
      let frac := fraction_digits 17 (a mod d) d in
      (if (n <? 0)%Z then "-" else "")
      ++ string_of_Z (a / d) ++ "."
      ++ (if String.eqb frac "" then "0" else frac)
  end.

Definition builtins : Builtins :=
  Build_Builtins upper strip float_of_str int_of_str str_of_float.

End AsciiText.

(** ** Frames used in the examples *)

Definition row_of (cells : list (string * value)) : Series := list_to_map cells.

Definition decimal (s : string) : value :=
  match AsciiText.float_of_str s with
  | Some x => Float x
  | None => PyNone
  end.

(** The sample frame at the end of [converter.py], as [pd.read_csv] loads
    it back: empty cells are NaN and numeric columns are floats or
    integers. *)
Definition sample_columns : list string :=
  ["Handle"; "Title"; "Vendor"; "Type"; "Product Category"; "Published";
   "Option1 Name"; "Option1 Value"; "Option2 Name"; "Option2 Value";
   "Variant SKU"; "Variant Barcode"; "Variant Price"; "Compare At Price";
   "Variant Inventory Qty"; "Image Src"; "Variant Image"].

Definition sample_row (handle title vendor category : string) (option1 option2 : value)
    (sku : string) (barcode : Z) (price compare : string) (qty : Z)
    (image variant_image : value) : Series :=
  row_of [("Handle", Str handle); ("Title", Str title); ("Vendor", Str vendor);
          ("Type", Str "Tops"); ("Product Category", Str category);
          ("Published", Bool true);
          ("Option1 Name", match option1 with PyNone => Float NaN | _ => Str "Size" end);
          ("Option1 Value", option1);
          ("Option2 Name", match option2 with PyNone => Float NaN | _ => Str "Color" end);
          ("Option2 Value", option2);
          ("Variant SKU", Str sku); ("Variant Barcode", Int barcode);
          ("Variant Price", decimal price); ("Compare At Price", decimal compare);
          ("Variant Inventory Qty", Int qty);
          ("Image Src", image); ("Variant Image", variant_image)].

Definition sample_shopify_data : DataFrame :=
  {| columns := sample_columns;
     rows :=
       [ sample_row "cotton-tshirt" "Cotton T-Shirt" "ComfortWear" "T-Shirts"
           (Str "S") (Str "Blue") "CW-TS-001-S" 1234567890123 "199.90" "249.90" 10
           (Str "https://cdn.example.com/products/cotton-tshirt-1.jpg") (Float NaN);
         sample_row "cotton-tshirt" "Cotton T-Shirt" "ComfortWear" "T-Shirts"
           (Str "M") (Str "Blue") "CW-TS-001-M" 1234567890124 "199.90" "249.90" 25
           (Str "https://cdn.example.com/products/cotton-tshirt-2.jpg")
           (Str "https://cdn.example.com/products/cotton-tshirt-variant.jpg");
         sample_row "cotton-tshirt" "Cotton T-Shirt" "ComfortWear" "T-Shirts"
           (Str "L") (Str "Red") "CW-TS-001-L" 1234567890125 "199.90" "249.90" 15
           (Float NaN) (Float NaN);
         sample_row "linen-shirt" "Linen Shirt" "BreezeLine" "Shirts"
           PyNone PyNone "BL-LS-002" 9876543210987 "349.00" "399.00" 12
           (Str "https://cdn.example.com/products/linen-shirt.jpg") (Float NaN) ] |}.


(** ** The rows one handle contributes

    [handle_rows] is the second loop's body read as a function of the group
    alone: the aggregates are those of the group and the rows are returned
    instead of appended.  [convert_frame_unfold] shows that the converter
    returns the concatenation of these lists. *)

Fixpoint collect {A R : Type} (f : A → result R) (l : list A) : result (list R) :=
  match l with
  | [] => Returned []
  | x :: l' => y ← f x; ys ← collect f l'; mret (y :: ys)
  end.

(** The output rows that belong to a handle: every row carries its handle
    in the [Slug] column. *)
Definition rows_of (handle : value) (ikas_rows : list IkasRow) : list IkasRow :=
  filter (λ r, Slug r = handle) ikas_rows.

Section HandleRows.
Context {B : Builtins}.

Definition simple_rows (cols : list string) (handle : value)
    (group_df : list Series) : result (list IkasRow) :=
  m ← simple_merge group_df;
  mret [simple_ikas_row handle (group_common_info cols group_df)
          (group_image_urls cols group_df)
          (satis_kanali_of (group_handle_status cols group_df)) m].

Definition variant_row (cols : list string) (handle : value)
    (group_df : list Series) (first_row : Series)
    (kd : VariantKey * VariantData) : result IkasRow :=
  m ← variant_merge (variant_rows kd.2);
  mret (variant_ikas_row handle handle (group_common_info cols group_df)
          (group_image_urls cols group_df)
          (satis_kanali_of (group_handle_status cols group_df))
          (variant_type first_row "Option1 Name")
          (variant_deger (Option1_Value kd.2))
          (variant_type first_row "Option2 Name")
          (variant_deger (Option2_Value kd.2)) m).

Definition handle_rows (cols : list string) (hg : value * list Series)
  : result (list IkasRow) :=
  let '(handle, group_df) := hg in
  match group_df with
  | [] => Raised IndexError
  | first_row :: _ =>
      if is_simple_product first_row then simple_rows cols handle group_df
      else
        match variant_combinations group_df with
        | [] => simple_rows cols handle group_df
        | vc => collect (variant_row cols handle group_df first_row) vc
        end
  end.

(** The handle groups of a frame, after the forward fill. *)
Definition handle_groups (source_df : DataFrame) : list (value * list Series) :=
  groupby (fill_handles (rows source_df)).

End HandleRows.

(** ** The variant combinations, described at once

    [bucket_for key group_df] is what the bucketing loop leaves under a key:
    the rows of the group with that key, in order, and the option values of
    the first of them.  [variant_combinations_spec] proves that the loop
    builds exactly these, in order of first appearance of the keys. *)

Section Buckets.
Context {B : Builtins}.

Definition rows_with_key (key : VariantKey) (group_df : list Series) : list Series :=
  filter (λ row, variant_key row = Some key) group_df.

Definition bucket_for (key : VariantKey) (group_df : list Series) : VariantData :=
  let rs := rows_with_key key group_df in
  {| Option1_Value := from_option option1_value "" (head rs);
     Option2_Value := from_option option2_value "" (head rs);
     variant_rows := rs |}.

Definition variant_keys (group_df : list Series) : list VariantKey :=
  first_occurrences (omap variant_key group_df).

End Buckets.

(** ** The specification's words, for comparison with the code *)

Section SpecWords.
Context {B : Builtins}.

(** "normalize option-value-1 and option-value-2 (trim, uppercase, and treat
    the literal DEFAULT TITLE as blank)"; a missing cell is blank. *)
Definition normalize_option (c : option value) : string :=
  match c with
  | Some v =>
      if notna v
      then let s := upper (strip (py_str v)) in
           if bool_decide (s = "DEFAULT TITLE") then "" else s
      else ""
  | None => ""
  end.

(** The normalised option-value pair of a row. *)
Definition option_pair (row : Series) : string * string :=
  (normalize_option (row !! "Option1 Value"),
   normalize_option (row !! "Option2 Value")).

(** K: the number of distinct non-blank normalised option-value pairs among
    the rows of a group. *)
Definition distinct_option_pairs (group_df : list Series) : nat :=
  size (list_to_set (C := gset (string * string))
          (filter (λ p, p ≠ ("", "")) (option_pair <$> group_df))).

End SpecWords.

(** ** Frames for the worked examples *)

(** A frame from its header and its cells, row by row. *)
Definition frame (cols : list string) (cells : list (list value)) : DataFrame :=
  {| columns := cols;
     rows := (λ vs, list_to_map (zip cols vs)) <$> cells |}.

(** The converter run with the ASCII built-ins. *)
Definition run (source_df : DataFrame) : result (list IkasRow) :=
  shopify_to_ikas_converter (B := AsciiText.builtins) (Loaded source_df).

Definition returned {A : Type} (m : result (list A)) : list A :=
  match m with
  | Returned l => l
  | Raised _ => []
  end.

(** A handle whose first row says "Default Title" and whose other rows carry
    two sizes. *)
Definition mixed_default_title : DataFrame :=
  frame ["Handle"; "Option1 Value"]
        [ [Str "mug"; Str "Default Title"];
          [Str "mug"; Str "S"];
          [Str "mug"; Str "M"] ].

Definition mixed_default_title_rows : list IkasRow :=
  Eval vm_compute in returned (run mixed_default_title).

(** Three rows of one shirt in two sizes, the small one twice. *)
Definition two_sizes : DataFrame :=
  frame ["Handle"; "Option1 Name"; "Option1 Value"; "Variant Price"]
        [ [Str "shirt"; Str "Size"; Str "S"; Int 10];
          [Str "shirt"; Float NaN; Str " s "; Float NaN];
          [Str "shirt"; Float NaN; Str "M"; Int 12] ].

Definition two_sizes_rows : list IkasRow :=
  Eval vm_compute in returned (run two_sizes).

Definition two_sizes_row0 : Series :=
  default ∅ (fill_handles (rows two_sizes) !! 0%nat).

Definition two_sizes_group : list Series :=
  default [] (snd <$> handle_groups two_sizes !! 0%nat).

Definition mixed_default_title_group : list Series :=
  default [] (snd <$> handle_groups mixed_default_title !! 0%nat).

(** ** The variant key as the specification describes it *)

(** "the key is the pair of normalized option values; else ... a sentinel
    tagged with the normalized SKU": two kinds of key that never coincide. *)
Inductive SpecKey : Type :=
| ByOptions (a b : string)
| BySkuOnly (sku : string).

(** How the code writes a key of either kind as a pair of strings. *)
Definition encode_key (k : SpecKey) : VariantKey :=
  match k with
  | ByOptions a b => (a, b)
  | BySkuOnly sku => ("SKU_ONLY", sku)
  end.

Section SpecKeys.
Context {B : Builtins}.

(** The normalised SKU: the trimmed text of the cell, blank when missing. *)
Definition normalize_sku (c : option value) : string :=
  match c with
  | Some v => if notna v then strip (py_str v) else ""
  | None => ""
  end.

Definition spec_variant_key (row : Series) : option SpecKey :=
  let p := option_pair row in
  if nonempty p.1 || nonempty p.2 then Some (ByOptions p.1 p.2)
  else
    let sku := normalize_sku (row !! "Variant SKU") in
    if nonempty sku then Some (BySkuOnly sku) else None.

(** Two rows of a group end up in the same variant bucket. *)
Definition same_bucket (group_df : list Series) (r1 r2 : Series) : Prop :=
  ∃ key d, (key, d) ∈ variant_combinations group_df
           ∧ r1 ∈ variant_rows d ∧ r2 ∈ variant_rows d.

End SpecKeys.

(** A cap whose first row has the option values "sku_only" / "A1" and whose
    second row has no option values and the SKU "A1". *)
Definition sentinel_collision : DataFrame :=
  frame ["Handle"; "Option1 Value"; "Option2 Value"; "Variant SKU"]
        [ [Str "cap"; Str "sku_only"; Str "A1"; Str "X9"];
          [Str "cap"; Float NaN; Float NaN; Str "A1"] ].

Definition sentinel_collision_row1 : Series :=
  default ∅ (fill_handles (rows sentinel_collision) !! 0%nat).

Definition sentinel_collision_row2 : Series :=
  default ∅ (fill_handles (rows sentinel_collision) !! 1%nat).

(** ** Field merging as the specification describes it *)

Section SpecMerge.
Context {B : Builtins}.

(** "the first value over the member rows in order that is non-blank". *)
Definition first_of {A : Type} (pick : Series → option A) (absent : A)
    (member_rows : list Series) : A :=
  default absent (head (omap pick member_rows)).

(** A row's sale price: the variant price when it parses and is not zero. *)
Definition price_of (row : Series) : option pyfloat :=
  match present row "Variant Price" with
  | Some v =>
      match py_float v with
      | Some x => if float_is_zero x then None else Some x
      | None => None
      end
  | None => None
  end.

(** A row's barcode: the variant barcode, else the legacy barcode, when its
    text is not empty. *)
Definition barcode_of (row : Series) : option string :=
  let text := match present row "Variant Barcode" with
              | Some v => py_str v
              | None => match present row "Barcode" with
                        | Some v => py_str v
                        | None => ""
                        end
              end in
  if nonempty text then Some text else None.

(** A row's stock: the inventory quantity when it parses and is not zero. *)
Definition stock_of (row : Series) : option Z :=
  match present row "Variant Inventory Qty" with
  | Some v =>
      match py_int v with
      | Returned (Some z) => if bool_decide (z = 0%Z) then None else Some z
      | _ => None
      end
  | None => None
  end.

(** Each merged field is either still at its initial value or was read from
    one of the rows. *)
Definition from_rows (member_rows : list Series) (m : Merged) : Prop :=
  (sale_price m = Finite 0
   ∨ ∃ row, row ∈ member_rows ∧ price_of row = Some (sale_price m))
  ∧ (stock_qty m = 0%Z
     ∨ ∃ row, row ∈ member_rows ∧ stock_of row = Some (stock_qty m))
  ∧ (discounted_price m = Finite 0
     ∨ ∃ row v, row ∈ member_rows ∧ compare_price row = Some v
                ∧ py_float v = Some (discounted_price m))
  ∧ (barcode m = ""
     ∨ ∃ row, row ∈ member_rows ∧ barcode_of row = Some (barcode m))
  ∧ (variant_sku m = ""
     ∨ ∃ row v, row ∈ member_rows ∧ present row "Variant SKU" = Some v
                ∧ (variant_sku m = py_str v ∨ variant_sku m = strip (py_str v))).

(** What a row shows for a field that none of its contributing rows holds:
    the float 0.0 as price and the integer 0 as stock when no contributing
    row has a price (a stock) that parses to a number other than zero, the
    empty string as SKU and as barcode when no contributing row has one. *)
Definition zero_when_absent (contributing : list Series) (r : IkasRow) : Prop :=
  ((∀ row, row ∈ contributing → price_of row = None)
   → Satis_Fiyati r = Float (Finite 0))
  ∧ ((∀ row, row ∈ contributing → stock_of row = None)
     → Stok_Ana_Depo r = Int 0)
  ∧ ((∀ row, row ∈ contributing → present row "Variant SKU" = None)
     → SKU r = Str "")
  ∧ ((∀ row, row ∈ contributing → barcode_of row = None)
     → Barkod_Listesi r = Str "").

End SpecMerge.

(** A shirt in two sizes of which only the small one has a price and a
    stock. *)
Definition priced_small_only : DataFrame :=
  frame ["Handle"; "Option1 Value"; "Variant Price"; "Variant Inventory Qty"]
        [ [Str "shirt"; Str "S"; Int 10; Int 4];
          [Str "shirt"; Str "M"; Float NaN; Float NaN] ].

Definition priced_small_only_rows : list IkasRow :=
  Eval vm_compute in returned (run priced_small_only).

Definition priced_small_only_group : list Series :=
  default [] (snd <$> handle_groups priced_small_only !! 0%nat).

(** One size of a shirt on two rows; the SKU cell of the first row is a
    single space. *)
Definition blank_sku_row : DataFrame :=
  frame ["Handle"; "Option1 Value"; "Variant SKU"; "Variant Barcode";
         "Variant Price"; "Variant Inventory Qty"]
        [ [Str "shirt"; Str "S"; Str " "; Str "111"; Int 10; Int 5];
          [Str "shirt"; Str "S"; Str "A-1"; Str "222"; Int 20; Int 7] ].

Definition blank_sku_bucket : list Series :=
  fill_handles (rows blank_sku_row).

(** ** Statements of C6 *)

Section SimpleWords.
Context {B : Builtins}.

(** The row's primary option value, trimmed and uppercased, is
    "DEFAULT TITLE". *)
Definition has_default_title (row : Series) : Prop :=
  ∃ v, present row "Option1 Value" = Some v
       ∧ upper (strip (py_str v)) = "DEFAULT TITLE".

End SimpleWords.

(** One row, with blank group id and blank variant-axis names and values. *)
Definition one_blank_row (ys : list IkasRow) : Prop :=
  ∃ r, ys = [r] ∧ Urun_Grup_ID r = Str ""
       ∧ Varyant_Tip_1 r = Str "" ∧ Varyant_Deger_1 r = Str ""
       ∧ Varyant_Tip_2 r = Str "" ∧ Varyant_Deger_2 r = Str "".

(** A mug on two rows, both with the option value "Default Title". *)
Definition plain_mug : DataFrame :=
  frame ["Handle"; "Title"; "Option1 Name"; "Option1 Value"; "Image Src"]
        [ [Str "mug"; Str "Mug"; Str "Title"; Str "Default Title"; Str "a.jpg"];
          [Float NaN; Float NaN; Float NaN; Str " default title "; Str "b.jpg"] ].

Definition plain_mug_rows : list IkasRow :=
  Eval vm_compute in returned (run plain_mug).

Definition plain_mug_group : list Series :=
  default [] (snd <$> handle_groups plain_mug !! 0%nat).

(** A cap whose stock cell is the float infinity (the text "inf" in a
    numeric column of a CSV file). *)
Definition infinite_stock : DataFrame :=
  frame ["Handle"; "Variant Inventory Qty"]
        [ [Str "cap"; Float (Infinity false)] ].

(** The only exception a merge loop lets through is [OverflowError]. *)
Definition returns_or_overflows {A : Type} (m : result A) : Prop :=
  (∃ a, m = Returned a) ∨ m = Raised OverflowError.

(** No cell of the stock column is an infinite float. *)
Definition finite_stock (row : Series) : Prop :=
  ∀ negative, row !! "Variant Inventory Qty" ≠ Some (Float (Infinity negative)).

#[global] Instance finite_stock_dec (row : Series) : Decision (finite_stock row).
Proof.
  unfold finite_stock.
  destruct (row !! "Variant Inventory Qty") as [[| | |[|negative|]|]|] eqn:E;
    try (left; intros negative'; congruence).
  right. intros H. by apply (H negative).
Defined.

(** ** Statements of C5 and C7 *)

Section Blank.
Context {B : Builtins}.

(** A blank cell in the words of the claim: missing, empty, or white space
    only. *)
Definition blank (v : value) : bool :=
  negb (notna v) || negb (nonempty (strip (py_str v))).

(** The option value a bucket keeps: the trimmed text of the cell, blank
    when the cell is missing or reads "DEFAULT TITLE" in any case. *)
Definition retained_option (c : option value) : string :=
  match c with
  | Some v =>
      if notna v
      then let t := strip (py_str v) in
           if bool_decide (upper t = "DEFAULT TITLE") then "" else t
      else ""
  | None => ""
  end.

End Blank.

(** [v] is the cell of the first row of the group, in row order, whose cell
    in [col] is not missing. *)
Definition first_non_missing (group_df : list Series) (col : string) (v : value)
  : Prop :=
  ∃ i row, group_df !! i = Some row ∧ cell row col = v ∧ notna v = true
           ∧ ∀ j row', (j < i)%nat → group_df !! j = Some row'
                       → notna (cell row' col) = false.

(** The frame has the column and some row of the group has a cell in it
    that is not missing. *)
Definition has_data (cols : list string) (group_df : list Series) (col : string)
  : Prop :=
  col ∈ cols ∧ ∃ row, row ∈ group_df ∧ notna (cell row col) = true.

(** The attribute read from [col]: the first cell that is not missing, and
    the empty string when there is none. *)
Definition resolved_from (cols : list string) (group_df : list Series)
    (col : string) (v : value) : Prop :=
  (has_data cols group_df col ∧ first_non_missing group_df col v)
  ∨ (¬ has_data cols group_df col ∧ v = Str "").

(** A shirt whose first title cell is one space. *)
Definition blank_title : DataFrame :=
  frame ["Handle"; "Title"; "Option1 Value"]
        [ [Str "shirt"; Str " "; Str "Default Title"];
          [Str "shirt"; Str "Shirt"; Str "Default Title"] ].

(** A cap in one size, written with a space on either side. *)
Definition padded_size : DataFrame :=
  frame ["Handle"; "Option1 Value"]
        [ [Str "cap"; Str " S "] ].

Definition padded_size_row : Series :=
  default ∅ (fill_handles (rows padded_size) !! 0%nat).

(** ** Statements of C9 *)

(** A row without its two cells of the third option. *)
Definition without_option3 (row : Series) : Series :=
  delete "Option3 Name" (delete "Option3 Value" row).

(** Two rows that agree on every column but the two of the third option. *)
Definition same_but_option3 (row1 row2 : Series) : Prop :=
  ∀ col, col ≠ "Option3 Name" → col ≠ "Option3 Value" → row1 !! col = row2 !! col.

(** [two_sizes] with a third option axis, filled in two ways. *)
Definition with_option3 (name value3 : value) : DataFrame :=
  frame ["Handle"; "Option1 Name"; "Option1 Value"; "Option3 Name"; "Option3 Value"]
        [ [Str "shirt"; Str "Size"; Str "S"; name; value3];
          [Str "shirt"; Float NaN; Str "M"; name; Float NaN] ].

(** ** Shapes of output rows *)

(** The thirteen columns the converter never fills. *)
Definition placeholders_blank (r : IkasRow) : Prop :=
  Varyant_ID r = Str "" ∧ Alis_Fiyati r = Str "" ∧ Silindi_mi r = Str ""
  ∧ Desi r = Str "" ∧ HS_Kod r = Str "" ∧ Birim_Urun_Miktari r = Str ""
  ∧ Urun_Birimi r = Str "" ∧ Satilan_Urun_Miktari r = Str ""
  ∧ Satilan_Urun_Birimi r = Str "" ∧ Stogu_Tukenince_Satmaya_Devam_Et r = Str ""
  ∧ Sepet_Basina_Minimum_Alma_Adeti_belix r = Str ""
  ∧ Sepet_Basina_Maksimum_Alma_Adeti_belix r = Str ""
  ∧ Varyant_Aktiflik r = Str "".

Section Shapes.
Context {B : Builtins}.

(** The columns of a row that are shared by all rows of its handle. *)
Definition carries_common (cols : list string) (handle : value)
    (group_df : list Series) (r : IkasRow) : Prop :=
  let common := group_common_info cols group_df in
  Slug r = handle
  ∧ Isim r = Title common ∧ Aciklama r = Body_HTML common
  ∧ Marka r = Vendor common ∧ Tedarikci r = Vendor common
  ∧ Kategoriler r = Category common ∧ Etiketler r = Tags common
  ∧ Metadata_Baslik r = SEO_Title common
  ∧ Metadata_Aciklama r = SEO_Description common
  ∧ Tip r = Type_ common ∧ Google_Urun_Kategorisi r = Google_Category common
  ∧ Olusturulma_Tarihi r = Created_At common
  ∧ Resim_URL r = Str (group_image_urls cols group_df)
  ∧ Satis_Kanali_belix r
    = Str (if group_handle_status cols group_df then "VISIBLE" else "").

(** The row of one variant: the handle as group id and the axis names of
    the first row of the group. *)
Definition variant_shape (handle : value) (group_df : list Series) (r : IkasRow)
  : Prop :=
  Urun_Grup_ID r = handle
  ∧ Varyant_Tip_1 r
    = Str (from_option (λ first_row, variant_type first_row "Option1 Name") ""
             (head group_df))
  ∧ Varyant_Tip_2 r
    = Str (from_option (λ first_row, variant_type first_row "Option2 Name") ""
             (head group_df)).

End Shapes.

(** A cap in two colours with a picture row in between, and a mug. *)
Definition small_catalog : DataFrame :=
  frame ["Handle"; "Title"; "Status"; "Published"; "Option1 Name"; "Option1 Value";
         "Variant SKU"; "Variant Price"; "Image Src"; "Variant Image"]
        [ [Str "cap"; Str "Cap"; Str "draft"; Bool true; Str "Color"; Str "Red";
           Str "C-R"; Int 5; Str "b.jpg"; Float NaN];
          [Float NaN; Float NaN; Float NaN; Float NaN; Float NaN; Float NaN;
           Float NaN; Float NaN; Str "a.jpg"; Float NaN];
          [Str "cap"; Float NaN; Float NaN; Float NaN; Float NaN; Str "Blue";
           Str "C-B"; Int 6; Str "b.jpg"; Str "c.jpg"];
          [Str "mug"; Str "Mug"; Float NaN; Bool true; Str "Title"; Str "Default Title";
           Str "M-1"; Int 3; Float NaN; Float NaN] ].

Definition small_catalog_rows : list IkasRow :=
  Eval vm_compute in returned (run small_catalog).

Definition small_catalog_cap : list Series :=
  default [] (snd <$> handle_groups small_catalog !! 0%nat).

Definition small_catalog_row0 : IkasRow :=
  default (simple_ikas_row PyNone (mkCommonInfo PyNone PyNone PyNone PyNone PyNone
                                     PyNone PyNone PyNone PyNone PyNone)
                           "" "" merge_init)
          (small_catalog_rows !! 0%nat).

(** ** Forward fill, in words *)

(** [h] is what row [i] shows as handle after the forward fill: the handle
    of the nearest row at or above it whose handle is not missing, or a
    missing value when there is no such row. *)
Definition nearest_handle (rs : list Series) (i : nat) (h : value) : Prop :=
  (∃ j row, (j ≤ i)%nat ∧ rs !! j = Some row ∧ cell row "Handle" = h
            ∧ notna h = true
            ∧ ∀ k row', (j < k ≤ i)%nat → rs !! k = Some row'
                        → notna (cell row' "Handle") = false)
  ∨ (notna h = false
     ∧ ∀ k row', (k ≤ i)%nat → rs !! k = Some row'
                 → notna (cell row' "Handle") = false).

Definition small_catalog_filled1 : Series :=
  default ∅ (fill_handles (rows small_catalog) !! 1%nat).

(** ** More of the field merge in words *)

Section SpecMergeMore.
Context {B : Builtins}.

(** A row's SKU as the simple product's loop reads it: the text of the
    cell when it is not empty. *)
Definition sku_of (row : Series) : option string :=
  match present row "Variant SKU" with
  | Some v => if nonempty (py_str v) then Some (py_str v) else None
  | None => None
  end.

(** A row's SKU as the variant bucket's loop reads it: the trimmed text. *)
Definition stripped_sku_of (row : Series) : option string :=
  match present row "Variant SKU" with
  | Some v => if nonempty (strip (py_str v)) then Some (strip (py_str v)) else None
  | None => None
  end.

(** A row's discounted price: the compare-at price, else the variant
    compare-at price, when it parses and is not zero. *)
Definition discounted_of (row : Series) : option pyfloat :=
  match compare_price row with
  | Some v =>
      match py_float v with
      | Some x => if float_is_zero x then None else Some x
      | None => None
      end
  | None => None
  end.

(** What one iteration does to the stock when it does not raise (lines
    279-284). *)
Definition stock_step (q : Z) (row : Series) : Z :=
  match take_stock_qty row q with
  | Returned q' => q'
  | Raised _ => q
  end.

(** What one iteration does to the SKU (lines 253-254 with the identity as
    [text], lines 541-542 with [strip]). *)
Definition sku_step (text : string → string) (sku : string) (row : Series) : string :=
  if negb (nonempty sku)
  then match present row "Variant SKU" with
       | Some v => text (py_str v)
       | None => sku
       end
  else sku.

(** The SKU cell holds text that strips to nothing. *)
Definition blank_sku_cell (row : Series) : Prop :=
  ∃ v, present row "Variant SKU" = Some v ∧ strip (py_str v) = "".

(** Each field of a merge is the first value of its kind over the rows. *)
Definition merged_fieldwise (sku : Series → option string)
    (member_rows : list Series) (m : Merged) : Prop :=
  variant_sku m = first_of sku "" member_rows
  ∧ barcode m = first_of barcode_of "" member_rows
  ∧ sale_price m = first_of price_of (Finite 0) member_rows
  ∧ discounted_price m = first_of discounted_of (Finite 0) member_rows
  ∧ stock_qty m = first_of stock_of 0%Z member_rows.

End SpecMergeMore.

#[global] Instance blank_sku_cell_dec {B : Builtins} (row : Series) :
  Decision (blank_sku_cell row).
Proof.
  unfold blank_sku_cell.
  destruct (present row "Variant SKU") as [v|].
  - destruct (decide (strip (py_str v) = "")) as [He|Hne].
    + left. by exists v.
    + right. intros (v' & [= <-] & He). done.
  - right. by intros (v' & Hv & _).
Defined.

Definition blank_sku_simple_merged : Merged :=
  Eval vm_compute in
    match simple_merge (B := AsciiText.builtins) blank_sku_bucket with
    | Returned m => m
    | Raised _ => merge_init
    end.

Definition two_sizes_merged : Merged :=
  Eval vm_compute in
    match variant_merge (B := AsciiText.builtins) two_sizes_group with
    | Returned m => m
    | Raised _ => merge_init
    end.

(** ** Visibility and images, in words *)

Section VisibilityWords.
Context {B : Builtins}.

(** The handle is visible: its first status cell reads "ACTIVE", or it has
    no status cell and its first published cell reads TRUE, 1 or YES (both
    trimmed, in any case). *)
Definition visible_in_words (cols : list string) (group_df : list Series) : Prop :=
  (∃ v, has_data cols group_df "Status" ∧ first_non_missing group_df "Status" v
        ∧ upper (strip (py_str v)) = "ACTIVE")
  ∨ (¬ has_data cols group_df "Status"
     ∧ ∃ v, has_data cols group_df "Published"
            ∧ first_non_missing group_df "Published" v
            ∧ upper (strip (py_str v)) ∈ ["TRUE"; "1"; "YES"]).

(** The non-empty texts of an image column of the group. *)
Definition image_texts (cols : list string) (group_df : list Series)
    (col : string) (s : string) : Prop :=
  col ∈ cols ∧ s ≠ ""
  ∧ ∃ row, row ∈ group_df ∧ notna (cell row col) = true ∧ s = py_str (cell row col).

End VisibilityWords.

#[global] Instance str_le_total : Total str_le.
Proof. intros a b. apply String.leb_total. Qed.

(** A frame in which no row has a handle. *)
Definition no_handles : DataFrame :=
  frame ["Handle"; "Title"] [ [Float NaN; Str "Cap"]; [Float NaN; Str "Mug"] ].

(** The frame with its handles filled in beforehand. *)
Definition prefilled (source_df : DataFrame) : DataFrame :=
  {| columns := columns source_df; rows := fill_handles (rows source_df) |}.

(** The first and the last row of the shirt of [two_sizes]. *)
Definition two_sizes_small : Series := default ∅ (two_sizes_group !! 0%nat).

Definition two_sizes_medium : Series := default ∅ (two_sizes_group !! 2%nat).

(** ** The merged cells of a row, in words *)

Section Cells.
Context {B : Builtins}.

(** The SKU, barcode, price, discounted price and stock cell of a row are
    each the first value of their kind over [member_rows]. *)
Definition cells_resolved (sku : Series → option string)
    (member_rows : list Series) (r : IkasRow) : Prop :=
  SKU r = Str (first_of sku "" member_rows)
  ∧ Barkod_Listesi r = Str (first_of barcode_of "" member_rows)
  ∧ Satis_Fiyati r = Float (first_of price_of (Finite 0) member_rows)
  ∧ Indirimli_Fiyati r = Float (first_of discounted_of (Finite 0) member_rows)
  ∧ Stok_Ana_Depo r = Int (first_of stock_of 0%Z member_rows).

End Cells.

(** * Theorems *)

Section Backbone.
Context {B : Builtins}.

(** ** The result monad and the loops *)

Lemma bind_Returned {A R : Type} (m : result A) (k : A → result R) (r : R) :
  m ≫= k = Returned r ↔ ∃ a, m = Returned a ∧ k a = Returned r.
Proof.
  destruct m as [a|e]; simpl.
  - split; [eauto | intros (a' & Ha & Hk); congruence].
  - split; [discriminate | intros (a' & Ha & _); discriminate].
Qed.

Lemma collect_Returned {A R : Type} (f : A → result R) (l : list A) (ys : list R) :
  collect f l = Returned ys ↔ Forall2 (λ x y, f x = Returned y) l ys.
Proof.
  revert ys. induction l as [|x l IH]; intros ys; simpl.
  - split.
    + intros [= <-]. constructor.
    + intros H. inversion H. reflexivity.
  - rewrite bind_Returned. split.
    + intros (y & Hy & Hrest). apply bind_Returned in Hrest as (zs & Hzs & Hret).
      injection Hret as <-. constructor; [done | by apply IH].
    + intros H. inversion H as [|x' y l' zs Hy Hrest]; subst.
      exists y. split; [done|]. apply bind_Returned. exists zs.
      split; [by apply IH | done].
Qed.

Lemma collect_length {A R : Type} (f : A → result R) (l : list A) (ys : list R) :
  collect f l = Returned ys → length ys = length l.
Proof. intros H%collect_Returned. symmetry. by eapply Forall2_length. Qed.

(** A loop that appends to its accumulator returns the accumulator followed
    by what each iteration added. *)
Lemma for_each_append {A R : Type} (body : list R → A → result (list R))
    (f : A → result (list R)) (l : list A) :
  (∀ acc x, x ∈ l → body acc x = ys ← f x; mret (acc ++ ys)%list) →
  ∀ acc, for_each body acc l = yss ← collect f l; mret (acc ++ concat yss)%list.
Proof.
  induction l as [|x l IH]; intros Hbody acc; simpl.
  - by rewrite app_nil_r.
  - rewrite Hbody by left. destruct (f x) as [ys|e]; simpl; [|done].
    rewrite IH by (intros; apply Hbody; by right).
    destruct (collect f l) as [yss|e]; simpl; [|done].
    by rewrite app_assoc.
Qed.

End Backbone.

(** ** Dictionaries and grouping *)

Section Grouping.
Context {B : Builtins}.

Lemma dict_get_filter_ne {V : Type} (d : list (value * V)) (k k' : value) :
  k ≠ k' → dict_get (filter (λ kv, kv.1 ≠ k) d) k' = dict_get d k'.
Proof.
  intros Hne. induction d as [|[k0 v0] d IH]; simpl; [done|].
  rewrite filter_cons. simpl. destruct (decide (k0 ≠ k)) as [Hk|Hk]; simpl.
  - by rewrite IH.
  - apply dec_stable in Hk. subst k0. rewrite IH.
    by destruct (decide (k = k')).
Qed.

Lemma dict_get_set {V : Type} (d : list (value * V)) (k k' : value) (v : V) :
  dict_get (dict_set k v d) k'
  = if decide (k = k') then Returned v else dict_get d k'.
Proof.
  unfold dict_set. simpl. destruct (decide (k = k')); [done|].
  by apply dict_get_filter_ne.
Qed.

Lemma aggregate_other cols groups a handle :
  handle ∉ groups.*1 →
  dict_get (common_info (foldl (aggregate_group cols) a groups)) handle
  = dict_get (common_info a) handle
  ∧ dict_get (image_urls (foldl (aggregate_group cols) a groups)) handle
    = dict_get (image_urls a) handle
  ∧ dict_get (handle_status (foldl (aggregate_group cols) a groups)) handle
    = dict_get (handle_status a) handle.
Proof.
  revert a. induction groups as [|[h g] groups IH]; intros a Hnotin; [done|].
  rewrite fmap_cons, not_elem_of_cons in Hnotin. destruct Hnotin as [Hne Hnotin].
  cbn [foldl].
  destruct (IH (aggregate_group cols a (h, g)) Hnotin) as (-> & -> & ->).
  unfold aggregate_group. cbn [common_info image_urls handle_status].
  rewrite !dict_get_set.
  destruct (decide (h = handle)); [by subst | done].
Qed.

Lemma aggregate_lookup cols groups a handle group_df :
  NoDup groups.*1 → (handle, group_df) ∈ groups →
  dict_get (common_info (foldl (aggregate_group cols) a groups)) handle
  = Returned (group_common_info cols group_df)
  ∧ dict_get (image_urls (foldl (aggregate_group cols) a groups)) handle
    = Returned (group_image_urls cols group_df)
  ∧ dict_get (handle_status (foldl (aggregate_group cols) a groups)) handle
    = Returned (group_handle_status cols group_df).
Proof.
  revert a. induction groups as [|[h g] groups IH]; intros a Hnd Hin.
  - by apply elem_of_nil in Hin.
  - rewrite fmap_cons in Hnd. apply NoDup_cons in Hnd as [Hnotin Hnd].
    cbn [foldl].
    apply elem_of_cons in Hin as [[= -> ->]|Hin].
    + destruct (aggregate_other cols groups (aggregate_group cols a (h, g)) h Hnotin)
        as (-> & -> & ->).
      unfold aggregate_group. cbn [common_info image_urls handle_status].
      rewrite !dict_get_set.
      by destruct (decide (h = h)).
    + by apply IH.
Qed.

Lemma elem_of_first_occurrences {A : Type} `{EqDecision A} (l : list A) (x : A) :
  x ∈ first_occurrences l ↔ x ∈ l.
Proof.
  induction l as [|y l IH]; simpl; [done|].
  rewrite !elem_of_cons, list_elem_of_filter, IH.
  destruct (decide (x = y)); tauto.
Qed.

Lemma NoDup_first_occurrences {A : Type} `{EqDecision A} (l : list A) :
  NoDup (first_occurrences l).
Proof.
  induction l as [|y l IH]; simpl; [constructor|].
  apply NoDup_cons. split.
  - rewrite list_elem_of_filter. intros [Hne _]. by apply Hne.
  - by apply NoDup_filter.
Qed.

Lemma groupby_keys (rs : list Series) :
  (groupby rs).*1
  = first_occurrences (filter (λ v, notna v = true) ((λ row, cell row "Handle") <$> rs)).
Proof.
  unfold groupby. rewrite <- list_fmap_compose.
  generalize (first_occurrences (filter (λ v, notna v = true)
                                  ((λ row, cell row "Handle") <$> rs))).
  intros l. induction l as [|x l IH]; simpl; [done|]. by f_equal.
Qed.

Lemma NoDup_groupby (rs : list Series) : NoDup (groupby rs).*1.
Proof. rewrite groupby_keys. apply NoDup_first_occurrences. Qed.

(** A group holds exactly the rows of its handle, and is never empty. *)
Lemma elem_of_groupby (rs : list Series) handle group_df :
  (handle, group_df) ∈ groupby rs ↔
  group_df = filter (λ row, cell row "Handle" = handle) rs
  ∧ notna handle = true
  ∧ ∃ row, row ∈ rs ∧ cell row "Handle" = handle.
Proof.
  unfold groupby. rewrite list_elem_of_fmap. setoid_rewrite elem_of_first_occurrences.
  setoid_rewrite list_elem_of_filter. setoid_rewrite list_elem_of_fmap.
  split.
  - intros (h & [= -> ->] & Hna & row & -> & Hrow). eauto.
  - intros (-> & Hna & row & Hrow & <-). eexists. split; [reflexivity|]. eauto.
Qed.

Lemma groupby_nonempty (rs : list Series) handle group_df :
  (handle, group_df) ∈ groupby rs → group_df ≠ [].
Proof.
  intros (-> & _ & row & Hrow & Hh)%elem_of_groupby Hnil.
  assert (Hin : row ∈ filter (λ row, cell row "Handle" = handle) rs)
    by (by apply list_elem_of_filter).
  rewrite Hnil in Hin. by apply elem_of_nil in Hin.
Qed.

Lemma groupby_handle (rs : list Series) handle group_df row :
  (handle, group_df) ∈ groupby rs → row ∈ group_df → cell row "Handle" = handle.
Proof.
  intros (-> & _)%elem_of_groupby Hrow. by apply list_elem_of_filter in Hrow as [? _].
Qed.

End Grouping.

(** ** The converter returns the rows of its handle groups, in order *)

Section Unfold.
Context {B : Builtins}.

Lemma collect_singletons {A R : Type} (f : A → result R) (l : list A) (acc : list R) :
  (yss ← collect (λ x, y ← f x; mret [y]) l; mret (acc ++ concat yss)%list)
  = (ys ← collect f l; mret (acc ++ ys)%list).
Proof.
  revert acc. induction l as [|x l IH]; intros acc; simpl; [done|].
  destruct (f x) as [y|e]; simpl; [|done].
  specialize (IH (acc ++ [y])%list).
  destruct (collect (λ x, y ← f x; mret [y]) l) as [yss|e],
           (collect f l) as [ys|e']; simpl in *;
    unfold mret, result_ret in *; try congruence.
  injection IH as IH. f_equal. by rewrite <- !app_assoc in IH.
Qed.

#[local] Arguments for_each : simpl never.
#[local] Arguments collect : simpl never.
#[local] Arguments handle_rows : simpl never.

Lemma convert_group_handle_rows cols groups acc hg :
  NoDup groups.*1 → hg ∈ groups →
  convert_group (aggregate cols groups) acc hg
  = (ys ← handle_rows cols hg; mret (acc ++ ys)%list).
Proof.
  intros Hnd Hin. destruct hg as [handle group_df].
  destruct (aggregate_lookup cols groups (mkAggregates [] [] []) handle group_df Hnd Hin)
    as (Hc & Hi & Hs).
  unfold convert_group, handle_rows, aggregate. rewrite Hc, Hi. simpl.
  destruct group_df as [|first_row rest]; [done|].
  assert (Hsimple : emit_simple (foldl (aggregate_group cols) (mkAggregates [] [] []) groups)
            handle (group_common_info cols (first_row :: rest))
            (group_image_urls cols (first_row :: rest)) (first_row :: rest) acc
          = (ys ← simple_rows cols handle (first_row :: rest); mret (acc ++ ys)%list)).
  { unfold emit_simple, simple_rows.
    destruct (simple_merge (first_row :: rest)) as [m|e]; simpl; [|done].
    rewrite Hs. done. }
  destruct (is_simple_product first_row); [done|].
  rewrite Hs. simpl.
  destruct (variant_combinations (first_row :: rest)) as [|kd vc] eqn:Hvc; [done|].
  rewrite (for_each_append _
             (λ kd, r ← variant_row cols handle (first_row :: rest) first_row kd;
                    mret [r])).
  - apply collect_singletons.
  - intros acc' [k d] _. unfold emit_variant, variant_row. simpl.
    by destruct (variant_merge (variant_rows d)).
Qed.

Lemma convert_frame_unfold (source_df : DataFrame) :
  convert_frame source_df
  = if bool_decide ("Handle" ∈ columns source_df)
    then yss ← collect (handle_rows (columns source_df)) (handle_groups source_df);
         mret (concat yss)
    else Raised (ValueError "Handle sütunu bulunamadı. Lütfen geçerli bir Shopify export dosyası yükleyin.").
Proof.
  unfold convert_frame. destruct (bool_decide _); simpl; [|done].
  rewrite (for_each_append _ (handle_rows (columns source_df))); [done|].
  intros acc hg Hin. apply convert_group_handle_rows; [apply NoDup_groupby | done].
Qed.

(** Every row a handle contributes carries the handle as its slug. *)
Lemma handle_rows_slug cols handle group_df ys :
  handle_rows cols (handle, group_df) = Returned ys → Forall (λ r, Slug r = handle) ys.
Proof.
  unfold handle_rows. destruct group_df as [|first_row rest]; [done|].
  assert (Hsimple : simple_rows cols handle (first_row :: rest) = Returned ys →
                    Forall (λ r, Slug r = handle) ys).
  { unfold simple_rows. intros (m & _ & [= <-])%bind_Returned. by repeat constructor. }
  destruct (is_simple_product first_row); [done|].
  destruct (variant_combinations (first_row :: rest)) as [|kd vc]; [done|].
  clear Hsimple. generalize (kd :: vc). intros l Hys%collect_Returned.
  induction Hys as [|kd' y l ys' Hy _ IH]; constructor; [|done].
  unfold variant_row in Hy. by apply bind_Returned in Hy as (m & _ & [= <-]).
Qed.

Lemma rows_of_concat cols (groups : list (value * list Series)) yss handle group_df :
  NoDup groups.*1 →
  Forall2 (λ hg ys, handle_rows cols hg = Returned ys) groups yss →
  (handle, group_df) ∈ groups →
  handle_rows cols (handle, group_df) = Returned (rows_of handle (concat yss)).
Proof.
  intros Hnd Hall. revert Hnd.
  induction Hall as [|[h g] ys groups yss Hys Hall IH]; intros Hnd Hin.
  - by apply elem_of_nil in Hin.
  - rewrite fmap_cons in Hnd. apply NoDup_cons in Hnd as [Hnotin Hnd].
    simpl. unfold rows_of. rewrite filter_app. fold (rows_of handle (concat yss)).
    pose proof (handle_rows_slug _ _ _ _ Hys) as Hslug.
    apply elem_of_cons in Hin as [[= -> ->]|Hin].
    + assert (Hrest : rows_of h (concat yss) = []).
      { clear IH Hys Hslug Hnd. induction Hall as [|[h' g'] ys' groups yss Hys' _ IH]; [done|].
        rewrite fmap_cons, not_elem_of_cons in Hnotin. destruct Hnotin as [Hne Hnotin].
        simpl. unfold rows_of. rewrite filter_app. fold (rows_of h (concat yss)).
        rewrite (IH Hnotin), app_nil_r.
        pose proof (handle_rows_slug _ _ _ _ Hys') as Hslug.
        clear -Hslug Hne. induction Hslug as [|r ys' Hr _ IH]; [done|].
        rewrite filter_cons_False; [done|]. simpl in *. congruence. }
      rewrite Hrest, app_nil_r. rewrite Hys. f_equal.
      clear -Hslug. induction Hslug as [|r ys' Hr _ IH]; [done|].
      rewrite filter_cons_True by done. by f_equal.
    + assert (Hne : h ≠ handle).
      { intros ->. apply Hnotin. by apply (list_elem_of_fmap_2 fst) in Hin. }
      assert (Hnone : filter (λ r, Slug r = handle) ys = []).
      { clear -Hslug Hne. induction Hslug as [|r ys' Hr _ IH]; [done|].
        rewrite filter_cons_False; [done|]. simpl in *. congruence. }
      rewrite Hnone. simpl. by apply IH.
Qed.

(** The rows of the returned table that carry a handle are exactly the rows
    its group contributes. *)
Lemma converter_rows_of (source_df : DataFrame) ikas_rows handle group_df :
  shopify_to_ikas_converter (Loaded source_df) = Returned ikas_rows →
  (handle, group_df) ∈ handle_groups source_df →
  handle_rows (columns source_df) (handle, group_df)
  = Returned (rows_of handle ikas_rows).
Proof.
  simpl. rewrite convert_frame_unfold. destruct (bool_decide _); [|done].
  intros (yss & Hyss & [= <-])%bind_Returned Hin.
  apply collect_Returned in Hyss.
  eapply rows_of_concat; [apply NoDup_groupby | done | done].
Qed.

(** Every row of the returned table comes from one of the handle groups. *)
Lemma converter_row_origin (source_df : DataFrame) ikas_rows r :
  shopify_to_ikas_converter (Loaded source_df) = Returned ikas_rows →
  r ∈ ikas_rows →
  ∃ handle group_df ys,
    (handle, group_df) ∈ handle_groups source_df
    ∧ handle_rows (columns source_df) (handle, group_df) = Returned ys
    ∧ r ∈ ys.
Proof.
  simpl. rewrite convert_frame_unfold. destruct (bool_decide _); [|done].
  intros (yss & Hyss & [= <-])%bind_Returned Hin.
  apply collect_Returned in Hyss.
  induction Hyss as [|[h g] ys groups yss Hy _ IH]; simpl in Hin.
  - by apply elem_of_nil in Hin.
  - apply elem_of_app in Hin as [Hin|Hin].
    + exists h, g, ys. split; [by left | done].
    + destruct (IH Hin) as (h' & g' & ys' & Hin' & Hrows & Hr').
      exists h', g', ys'. split; [by right | done].
Qed.

End Unfold.

(** ** How many rows a handle contributes *)

Section RowCount.
Context {B : Builtins}.

#[local] Arguments collect : simpl never.

Lemma simple_rows_length cols handle group_df ys :
  simple_rows cols handle group_df = Returned ys →
  ∃ r, ys = [r] ∧ Urun_Grup_ID r = Str ""
       ∧ Varyant_Tip_1 r = Str "" ∧ Varyant_Deger_1 r = Str ""
       ∧ Varyant_Tip_2 r = Str "" ∧ Varyant_Deger_2 r = Str "".
Proof.
  unfold simple_rows. intros (m & _ & [= <-])%bind_Returned.
  eexists. split; [reflexivity|]. by repeat split.
Qed.

Lemma variant_rows_group_id cols handle group_df first_row l ys :
  collect (variant_row cols handle group_df first_row) l = Returned ys →
  length ys = length l ∧ Forall (λ r, Urun_Grup_ID r = handle) ys.
Proof.
  intros Hys. split; [by eapply collect_length|].
  apply collect_Returned in Hys.
  induction Hys as [|kd y l ys Hy _ IH]; constructor; [|done].
  unfold variant_row in Hy. by apply bind_Returned in Hy as (m & _ & [= <-]).
Qed.

(** The three outcomes of a handle: simple, no valid combination, or one
    row per combination. *)
Lemma handle_rows_cases cols handle group_df ys :
  handle_rows cols (handle, group_df) = Returned ys →
  ∃ first_row rest, group_df = first_row :: rest ∧
    ((is_simple_product first_row = true
      ∧ simple_rows cols handle group_df = Returned ys)
     ∨ (is_simple_product first_row = false
        ∧ variant_combinations group_df = []
        ∧ simple_rows cols handle group_df = Returned ys)
     ∨ (is_simple_product first_row = false
        ∧ variant_combinations group_df ≠ []
        ∧ collect (variant_row cols handle group_df first_row)
                  (variant_combinations group_df) = Returned ys)).
Proof.
  unfold handle_rows. destruct group_df as [|first_row rest]; [done|].
  intros Hys. exists first_row, rest. split; [done|].
  destruct (is_simple_product first_row); [by left|]. right.
  destruct (variant_combinations (first_row :: rest)) as [|kd vc] eqn:Hvc.
  - by left.
  - right. done.
Qed.

Lemma handle_rows_count cols handle group_df ys :
  handle_rows cols (handle, group_df) = Returned ys →
  (1 ≤ length ys)%nat
  ∧ (classified_simple group_df = true → length ys = 1%nat)
  ∧ (variant_combinations group_df = [] → length ys = 1%nat).
Proof.
  intros (first_row & rest & -> & Hcases)%handle_rows_cases.
  destruct Hcases as [(Hs & Hys)|[(Hs & Hvc & Hys)|(Hs & Hvc & Hys)]].
  - apply simple_rows_length in Hys as (r & -> & _). by repeat split.
  - apply simple_rows_length in Hys as (r & -> & _). by repeat split.
  - apply variant_rows_group_id in Hys as [Hlen _].
    destruct (variant_combinations (first_row :: rest)) as [|kd vc]; [done|].
    simpl in Hlen. repeat split; [lia | | done].
    simpl. congruence.
Qed.

(** *** C1 *)

(** C1. Whenever the converter returns a table for a frame, every handle
    that some row resolves to after the forward fill (a handle that is not
    missing) owns at least one row of the table; it owns exactly one when
    the first row of its group classifies it as simple, and exactly one when
    the bucketing of its group leaves no valid combination. *)
Theorem every_handle_emits (source_df : DataFrame) (ikas_rows : list IkasRow)
    (i : nat) (row : Series) :
  shopify_to_ikas_converter (Loaded source_df) = Returned ikas_rows →
  fill_handles (rows source_df) !! i = Some row →
  notna (cell row "Handle") = true →
  let handle := cell row "Handle" in
  let group_df :=
    filter (λ r, cell r "Handle" = handle) (fill_handles (rows source_df)) in
  (1 ≤ length (rows_of handle ikas_rows))%nat
  ∧ (classified_simple group_df = true
     → length (rows_of handle ikas_rows) = 1%nat)
  ∧ (variant_combinations group_df = []
     → length (rows_of handle ikas_rows) = 1%nat).
Proof.
  intros Hret Hrow Hna handle group_df.
  apply (handle_rows_count (columns source_df) handle group_df).
  apply converter_rows_of; [done|].
  apply elem_of_groupby. split; [done|]. split; [done|].
  exists row. split; [|done]. by eapply list_elem_of_lookup_2.
Qed.

End RowCount.

(** ** The bucketing loop *)

Section Bucketing.
Context {B : Builtins}.

Lemma first_occurrences_snoc {A : Type} `{EqDecision A} (l : list A) (x : A) :
  first_occurrences (l ++ [x])
  = if decide (x ∈ l) then first_occurrences l
    else (first_occurrences l ++ [x])%list.
Proof.
  induction l as [|y l IH]; simpl.
  - destruct (decide (x ∈ [])) as [Hin|_]; [by apply elem_of_nil in Hin | done].
  - rewrite IH. destruct (decide (x = y)) as [->|Hne].
    + destruct (decide (y ∈ y :: l)) as [_|Hn]; [|exfalso; apply Hn; by left].
      destruct (decide (y ∈ l)); [done|].
      rewrite filter_app, filter_cons_False, filter_nil, app_nil_r; [done|].
      by intros Hneq.
    + destruct (decide (x ∈ l)) as [Hin|Hn], (decide (x ∈ y :: l)) as [Hin'|Hn'];
        try done.
      * exfalso. apply Hn'. by right.
      * exfalso. apply elem_of_cons in Hin' as [?|?]; done.
      * by rewrite filter_app, filter_cons_True.
Qed.

(** One step of the loop on a dictionary that is described key by key. *)
Lemma add_row_fmap (F F' : VariantKey → VariantData) (ks : list VariantKey)
    key o1 o2 row :
  NoDup ks →
  (∀ k, k ≠ key → F' k = F k) →
  (key ∈ ks → F' key = mkVariantData (Option1_Value (F key)) (Option2_Value (F key))
                                     (variant_rows (F key) ++ [row])) →
  (key ∉ ks → F' key = mkVariantData o1 o2 [row]) →
  add_row key o1 o2 row ((λ k, (k, F k)) <$> ks)
  = (λ k, (k, F' k)) <$> (if decide (key ∈ ks) then ks else (ks ++ [key])%list).
Proof.
  intros Hnd Hother Hold Hnew. induction ks as [|k ks IH].
  - destruct (decide (key ∈ [])) as [Hin|Hn]; [by apply elem_of_nil in Hin|].
    simpl. by rewrite Hnew.
  - apply NoDup_cons in Hnd as [Hk Hnd].
    rewrite fmap_cons. cbn [add_row].
    destruct (decide (k = key)) as [->|Hne].
    + destruct (decide (key ∈ key :: ks)) as [_|Hn]; [|exfalso; apply Hn; by left].
      rewrite fmap_cons, Hold by left. f_equal.
      apply list_fmap_ext. intros j k' Hk'. f_equal. symmetry. apply Hother.
      intros ->. apply Hk. by eapply list_elem_of_lookup_2.
    + rewrite IH; [| done | |].
      * destruct (decide (key ∈ ks)) as [Hin|Hn], (decide (key ∈ k :: ks)) as [Hin'|Hn'].
        -- by rewrite fmap_cons, (Hother k Hne).
        -- exfalso. apply Hn'. by right.
        -- exfalso. apply elem_of_cons in Hin' as [?|?]; done.
        -- by rewrite <- app_comm_cons, fmap_cons, (Hother k Hne).
      * intros Hin. apply Hold. by right.
      * intros Hn. apply Hnew. intros [?|?]%elem_of_cons; done.
Qed.

Lemma rows_with_key_snoc key group_df row :
  rows_with_key key (group_df ++ [row])
  = (rows_with_key key group_df
     ++ if decide (variant_key row = Some key) then [row] else [])%list.
Proof.
  unfold rows_with_key. rewrite filter_app. f_equal.
Qed.

Lemma rows_with_key_nil key group_df :
  key ∉ omap variant_key group_df → rows_with_key key group_df = [].
Proof.
  intros Hn. unfold rows_with_key. induction group_df as [|row g IH]; [done|].
  simpl in Hn. destruct (variant_key row) as [k|] eqn:Hk.
  - apply not_elem_of_cons in Hn as [Hne Hn].
    rewrite filter_cons_False by congruence. by apply IH.
  - rewrite filter_cons_False by congruence. by apply IH.
Qed.

Lemma rows_with_key_cons key group_df :
  key ∈ omap variant_key group_df →
  ∃ first_row rest, rows_with_key key group_df = first_row :: rest.
Proof.
  intros (row & Hrow & Hkey)%list_elem_of_omap.
  destruct (rows_with_key key group_df) as [|r rs] eqn:Hrs; [|eauto].
  exfalso. assert (Hin : row ∈ rows_with_key key group_df)
    by (by apply list_elem_of_filter).
  rewrite Hrs in Hin. by apply elem_of_nil in Hin.
Qed.

(** The bucketing loop builds, for each key in order of first appearance,
    the rows with that key and the option values of the first of them. *)
Lemma variant_combinations_spec (group_df : list Series) :
  variant_combinations group_df
  = (λ key, (key, bucket_for key group_df)) <$> variant_keys group_df.
Proof.
  unfold variant_combinations, variant_keys.
  induction group_df as [|row g IH] using rev_ind; [done|].
  rewrite foldl_app. simpl. rewrite IH. unfold bucket_row.
  rewrite omap_app. simpl.
  destruct (variant_key row) as [key|] eqn:Hkey; simpl.
  - rewrite first_occurrences_snoc.
    rewrite (add_row_fmap (λ k, bucket_for k g) (λ k, bucket_for k (g ++ [row])));
      [ | apply NoDup_first_occurrences | | | ].
    + destruct (decide (key ∈ first_occurrences (omap variant_key g))) as [H1|H1],
               (decide (key ∈ omap variant_key g)) as [H2|H2];
        try done; exfalso; rewrite elem_of_first_occurrences in H1; done.
    + intros k Hne. unfold bucket_for. rewrite rows_with_key_snoc.
      rewrite decide_False by congruence. by rewrite app_nil_r.
    + intros Hin. rewrite elem_of_first_occurrences in Hin. unfold bucket_for.
      rewrite rows_with_key_snoc, decide_True by done.
      destruct (rows_with_key_cons key g Hin) as (r & rs & ->). done.
    + intros Hn. rewrite elem_of_first_occurrences in Hn.
      unfold bucket_for. rewrite rows_with_key_snoc, decide_True by done.
      by rewrite rows_with_key_nil.
  - rewrite app_nil_r. apply list_fmap_ext. intros j k Hk. f_equal.
    unfold bucket_for. rewrite rows_with_key_snoc.
    rewrite decide_False by congruence. by rewrite app_nil_r.
Qed.

Lemma NoDup_variant_keys (group_df : list Series) : NoDup (variant_keys group_df).
Proof. apply NoDup_first_occurrences. Qed.

Lemma elem_of_variant_keys (group_df : list Series) key :
  key ∈ variant_keys group_df ↔ ∃ row, row ∈ group_df ∧ variant_key row = Some key.
Proof.
  unfold variant_keys. rewrite elem_of_first_occurrences. apply list_elem_of_omap.
Qed.

Lemma elem_of_variant_combinations (group_df : list Series) key d :
  (key, d) ∈ variant_combinations group_df
  ↔ key ∈ variant_keys group_df ∧ d = bucket_for key group_df.
Proof.
  rewrite variant_combinations_spec, list_elem_of_fmap. split.
  - by intros (k & [= -> ->] & Hk).
  - intros [Hk ->]. by exists key.
Qed.

Lemma elem_of_bucket_rows (group_df : list Series) key row :
  row ∈ variant_rows (bucket_for key group_df)
  ↔ variant_key row = Some key ∧ row ∈ group_df.
Proof.
  unfold bucket_for, rows_with_key. simpl.
  apply (list_elem_of_filter (λ r, variant_key r = Some key)).
Qed.

Lemma variant_combinations_length (group_df : list Series) :
  length (variant_combinations group_df) = length (variant_keys group_df).
Proof. by rewrite variant_combinations_spec, length_fmap. Qed.

End Bucketing.

(** ** The key of a row, in the specification's words *)

Section Normalisation.
Context {B : Builtins} {L : BuiltinLaws B}.

Lemma nonempty_false (s : string) : nonempty s = false ↔ s = "".
Proof.
  unfold nonempty. destruct (String.eqb_spec s ""); simpl; split; congruence.
Qed.

Lemma nonempty_true (s : string) : nonempty s = true ↔ s ≠ "".
Proof.
  unfold nonempty. destruct (String.eqb_spec s ""); simpl; split; congruence.
Qed.

(** A cleaned cell is the trimmed text of the cell, or blank. *)
Lemma cleaned_spec (row : Series) (col : string) :
  cleaned row col
  = match row !! col with
    | Some v => if notna v then strip (py_str v) else ""
    | None => ""
    end.
Proof.
  unfold cleaned. destruct (row !! col) as [v|]; [|done].
  destruct (notna v); [|done]. simpl.
  destruct (ne_empty v) eqn:Hne; simpl.
  - destruct (nonempty (strip (py_str v))) eqn:Hs; [done|].
    by apply nonempty_false in Hs.
  - destruct v as [|s| | |]; try done. simpl in *.
    apply negb_false_iff, String.eqb_eq in Hne. subst s. symmetry. apply strip_empty.
Qed.

Lemma cleaned_stripped (row : Series) (col : string) :
  strip (cleaned row col) = cleaned row col.
Proof.
  rewrite cleaned_spec. destruct (row !! col) as [v|]; [|apply strip_empty].
  destruct (notna v); [apply strip_idemp | apply strip_empty].
Qed.

(** The code's normalised option value is the specification's. *)
Lemma normalized_option_spec (row : Series) (col : string) :
  normalized_option (blank_default_title (cleaned row col))
  = normalize_option (row !! col).
Proof.
  unfold normalized_option, blank_default_title.
  pose proof (cleaned_stripped row col) as Hstripped.
  rewrite cleaned_spec in *. unfold normalize_option.
  destruct (row !! col) as [v|]; [|done].
  destruct (notna v); [|done].
  set (t := strip (py_str v)) in *.
  assert (Hup : strip (upper t) = upper t) by apply strip_upper_strip.
  rewrite Hup.
  destruct (nonempty t) eqn:Ht; simpl.
  - destruct (bool_decide (upper t = "DEFAULT TITLE")); [done|].
    by rewrite Ht, Hstripped.
  - apply nonempty_false in Ht. rewrite Ht, upper_empty. done.
Qed.

Lemma normalized_options_pair (row : Series) :
  (normalized_option (option1_value row), normalized_option (option2_value row))
  = option_pair row.
Proof.
  unfold option1_value, option2_value, option_pair.
  by rewrite !normalized_option_spec.
Qed.

Lemma normalized_option_blank (o : string) :
  o = "" → normalized_option o = "".
Proof. by intros ->. Qed.

(** The key of a row: its option pair when that is not blank, and otherwise
    the pair [("SKU_ONLY", sku)] when the trimmed SKU is not blank. *)
Lemma variant_key_spec (row : Series) :
  variant_key row
  = if decide (option_pair row ≠ ("", "")) then Some (option_pair row)
    else if nonempty (row_sku row) then Some ("SKU_ONLY", row_sku row)
    else None.
Proof.
  unfold variant_key. rewrite <- normalized_options_pair. cbv zeta.
  assert (Hsku : normalized_sku (row_sku row) = row_sku row).
  { unfold normalized_sku, row_sku.
    destruct (nonempty (cleaned row "Variant SKU")) eqn:Hs.
    - apply cleaned_stripped.
    - by apply nonempty_false in Hs. }
  rewrite Hsku.
  pose proof (normalized_option_blank (option1_value row)) as Hb1.
  pose proof (normalized_option_blank (option2_value row)) as Hb2.
  remember (normalized_option (option1_value row)) as n1 eqn:E1.
  remember (normalized_option (option2_value row)) as n2 eqn:E2.
  clear E1 E2.
  destruct (nonempty n1) eqn:Hn1; [|destruct (nonempty n2) eqn:Hn2].
  - apply nonempty_true in Hn1. rewrite decide_True by congruence.
    destruct (nonempty (option1_value row)) eqn:H1; [done|].
    apply nonempty_false in H1. by apply Hb1 in H1.
  - apply nonempty_true in Hn2. rewrite decide_True by congruence.
    destruct (nonempty (option2_value row)) eqn:H2;
      [by rewrite andb_false_r|].
    apply nonempty_false in H2. by apply Hb2 in H2.
  - apply nonempty_false in Hn1, Hn2. subst n1 n2.
    rewrite decide_False by (intros Hne; by apply Hne). simpl.
    destruct (negb (nonempty (option1_value row))
              && negb (nonempty (option2_value row))) eqn:Hc; simpl; [|done].
    by destruct (nonempty (row_sku row)).
Qed.

End Normalisation.

(** ** C2: how many rows a variant-bearing handle yields *)

Section VariantCount.
Context {B : Builtins} {L : BuiltinLaws B}.

Lemma length_first_occurrences `{Countable A} (l : list A) :
  length (first_occurrences l) = size (list_to_set (C := gset A) l).
Proof.
  rewrite <- (size_list_to_set (C := gset A) (first_occurrences l))
    by apply NoDup_first_occurrences.
  f_equal. apply set_eq. intros x.
  by rewrite !elem_of_list_to_set, elem_of_first_occurrences.
Qed.

(** When no row without option values carries a SKU, the keys of a group
    are its non-blank option pairs. *)
Lemma keys_are_option_pairs (group_df : list Series) :
  (∀ row, row ∈ group_df → option_pair row = ("", "") → row_sku row = "") →
  omap variant_key group_df
  = filter (λ p, p ≠ ("", "")) (option_pair <$> group_df).
Proof.
  induction group_df as [|row g IH]; intros Hsku; [done|].
  rewrite fmap_cons, filter_cons.
  rewrite <- IH by (intros; apply Hsku; [by right | done]).
  change (omap variant_key (row :: g))
    with (match variant_key row with
          | Some y => y :: omap variant_key g
          | None => omap variant_key g
          end).
  rewrite variant_key_spec.
  destruct (decide (option_pair row ≠ ("", ""))) as [Hp|Hp]; [done|].
  apply dec_stable in Hp. rewrite (Hsku row) by (done || by left). done.
Qed.

Lemma variant_keys_count (group_df : list Series) :
  (∀ row, row ∈ group_df → option_pair row = ("", "") → row_sku row = "") →
  length (variant_keys group_df) = distinct_option_pairs group_df.
Proof.
  intros Hsku. unfold variant_keys, distinct_option_pairs.
  by rewrite length_first_occurrences, keys_are_option_pairs.
Qed.

(** C2 (amended). For a handle group whose first row does not classify the
    handle as simple and in which no row with a blank option pair carries a
    SKU, the table holds exactly K rows for the handle, K >= 1 being the
    number of distinct non-blank normalised option pairs of the group, and
    each of them has the handle as group id. *)
Theorem variant_handle_emits_K_rows (source_df : DataFrame)
    (ikas_rows : list IkasRow) (i : nat) (handle : value) (group_df : list Series) :
  shopify_to_ikas_converter (Loaded source_df) = Returned ikas_rows →
  handle_groups source_df !! i = Some (handle, group_df) →
  classified_simple group_df = false →
  Forall (λ row, option_pair row = ("", "") → row_sku row = "") group_df →
  (1 ≤ distinct_option_pairs group_df)%nat →
  length (rows_of handle ikas_rows) = distinct_option_pairs group_df
  ∧ Forall (λ r, Urun_Grup_ID r = handle) (rows_of handle ikas_rows).
Proof.
  intros Hret Hgroup Hfirst Hsku HK.
  rewrite Forall_forall in Hsku.
  apply list_elem_of_lookup_2 in Hgroup.
  pose proof (converter_rows_of _ _ _ _ Hret Hgroup) as Hrows.
  rewrite <- variant_keys_count, <- variant_combinations_length in * by done.
  apply handle_rows_cases in Hrows as (first_row & rest & -> & Hcases).
  simpl in Hfirst.
  destruct Hcases as [(Hs & _)|[(_ & Hvc & _)|(_ & _ & Hys)]].
  - congruence.
  - rewrite Hvc in HK. simpl in HK. lia.
  - by apply variant_rows_group_id in Hys.
Qed.

End VariantCount.

(** ** The ASCII built-ins satisfy the laws *)

Section AsciiLaws.

Lemma ascii_lstrip_starts (s : string) : AsciiText.starts_nonspace (AsciiText.lstrip s).
Proof.
  induction s as [|c s IH]; simpl; [done|].
  destruct (AsciiText.is_space c) eqn:Hc; [done|]. simpl. done.
Qed.

Lemma ascii_lstrip_id (s : string) : AsciiText.starts_nonspace s → AsciiText.lstrip s = s.
Proof. destruct s as [|c s]; simpl; [done|]. by intros ->. Qed.

Lemma ascii_rstrip_starts (s : string) :
  AsciiText.starts_nonspace s → AsciiText.starts_nonspace (AsciiText.rstrip s).
Proof.
  destruct s as [|c s]; simpl; [done|]. intros Hc.
  destruct (AsciiText.rstrip s); [by rewrite Hc | done].
Qed.

Lemma ascii_rstrip_idemp (s : string) :
  AsciiText.rstrip (AsciiText.rstrip s) = AsciiText.rstrip s.
Proof.
  induction s as [|c s IH]; simpl; [done|].
  destruct (AsciiText.rstrip s) as [|d t] eqn:Hs.
  - destruct (AsciiText.is_space c) eqn:Hc; simpl; [done|]. by rewrite Hc.
  - change (AsciiText.rstrip (String c (String d t)))
      with (match AsciiText.rstrip (String d t) with
            | EmptyString =>
                if AsciiText.is_space c then EmptyString else String c EmptyString
            | u => String c u
            end).
    by rewrite IH.
Qed.

Lemma ascii_strip_idemp (s : string) :
  AsciiText.strip (AsciiText.strip s) = AsciiText.strip s.
Proof.
  unfold AsciiText.strip.
  rewrite (ascii_lstrip_id (AsciiText.rstrip _))
    by apply ascii_rstrip_starts, ascii_lstrip_starts.
  apply ascii_rstrip_idemp.
Qed.

Lemma ascii_is_space_upper (c : ascii) :
  AsciiText.is_space (AsciiText.upper_char c) = AsciiText.is_space c.
Proof. by destruct c as [[] [] [] [] [] [] [] []]. Qed.

Lemma ascii_upper_lstrip (s : string) :
  AsciiText.lstrip (AsciiText.upper s) = AsciiText.upper (AsciiText.lstrip s).
Proof.
  induction s as [|c s IH]; simpl; [done|].
  rewrite ascii_is_space_upper. by destruct (AsciiText.is_space c).
Qed.

Lemma ascii_upper_rstrip (s : string) :
  AsciiText.rstrip (AsciiText.upper s) = AsciiText.upper (AsciiText.rstrip s).
Proof.
  induction s as [|c s IH]; simpl; [done|].
  rewrite IH, ascii_is_space_upper.
  destruct (AsciiText.rstrip s); simpl; [|done].
  by destruct (AsciiText.is_space c).
Qed.

Lemma ascii_laws : BuiltinLaws AsciiText.builtins.
Proof.
  split; simpl.
  - apply ascii_strip_idemp.
  - intros s. unfold AsciiText.strip at 1.
    rewrite ascii_upper_lstrip, ascii_upper_rstrip. f_equal.
    apply ascii_strip_idemp.
  - reflexivity.
  - reflexivity.
Qed.

End AsciiLaws.

(** ** C3: rows and buckets *)

Section SameBucket.
Context {B : Builtins}.

(** With the key as the code builds it, two rows that carry a variant
    signal share a bucket exactly when their keys are equal; all rows with
    one key are in one bucket, and no key has two buckets. *)
Lemma same_bucket_iff_key (group_df : list Series) (r1 r2 : Series) k1 k2 :
  r1 ∈ group_df → r2 ∈ group_df →
  variant_key r1 = Some k1 → variant_key r2 = Some k2 →
  same_bucket group_df r1 r2 ↔ k1 = k2.
Proof.
  intros Hr1 Hr2 Hk1 Hk2. unfold same_bucket. split.
  - intros (key & d & Hd & H1 & H2).
    apply elem_of_variant_combinations in Hd as [_ ->].
    apply elem_of_bucket_rows in H1 as [H1 _], H2 as [H2 _]. congruence.
  - intros <-. exists k1, (bucket_for k1 group_df). split; [|split].
    + apply elem_of_variant_combinations. split; [|done].
      apply elem_of_variant_keys. eauto.
    + by apply elem_of_bucket_rows.
    + by apply elem_of_bucket_rows.
Qed.

Lemma NoDup_bucket_keys (group_df : list Series) :
  NoDup (variant_combinations group_df).*1.
Proof.
  rewrite variant_combinations_spec, <- list_fmap_compose.
  rewrite (list_fmap_ext _ id (variant_keys group_df)) by done.
  rewrite list_fmap_id. apply NoDup_variant_keys.
Qed.

Context {L : BuiltinLaws B}.

Lemma row_sku_spec (row : Series) :
  row_sku row = normalize_sku (row !! "Variant SKU").
Proof. unfold row_sku. by rewrite cleaned_spec. Qed.

(** The code's key is the specification's key written as a pair. *)
Lemma variant_key_encodes (row : Series) :
  variant_key row = encode_key <$> spec_variant_key row.
Proof.
  rewrite variant_key_spec, row_sku_spec. unfold spec_variant_key.
  destruct (option_pair row) as [a b]. simpl.
  destruct (nonempty a) eqn:Ha; simpl.
  - apply nonempty_true in Ha. rewrite decide_True by congruence. done.
  - destruct (nonempty b) eqn:Hb; simpl.
    + apply nonempty_true in Hb. rewrite decide_True by congruence. done.
    + apply nonempty_false in Ha, Hb. subst.
      rewrite decide_False by (intros Hne; by apply Hne).
      by destruct (nonempty _).
Qed.

(** X18. Away from the text "SKU_ONLY" as first option value, the claim of
    C3 holds for the keys of the specification: two rows of a group that
    have a key share a bucket exactly when their keys are equal, where the
    key of a row is its pair of normalized option values when one of them is
    not blank, and else its normalized SKU. *)
Lemma same_bucket_iff_spec_key (group_df : list Series) (r1 r2 : Series) k1 k2 :
  r1 ∈ group_df → r2 ∈ group_df →
  spec_variant_key r1 = Some k1 → spec_variant_key r2 = Some k2 →
  (option_pair r1).1 ≠ "SKU_ONLY" → (option_pair r2).1 ≠ "SKU_ONLY" →
  same_bucket group_df r1 r2 ↔ k1 = k2.
Proof.
  intros Hr1 Hr2 Hk1 Hk2 Hn1 Hn2.
  rewrite (same_bucket_iff_key group_df r1 r2 (encode_key k1) (encode_key k2));
    [ | done | done | by rewrite variant_key_encodes, Hk1
      | by rewrite variant_key_encodes, Hk2 ].
  split; [|by intros ->].
  unfold spec_variant_key in Hk1, Hk2.
  destruct (nonempty (option_pair r1).1 || nonempty (option_pair r1).2),
           (nonempty (option_pair r2).1 || nonempty (option_pair r2).2).
  - injection Hk1 as <-. injection Hk2 as <-. simpl. by intros [= -> ->].
  - injection Hk1 as <-.
    destruct (nonempty (normalize_sku (r2 !! "Variant SKU"))); [|done].
    injection Hk2 as <-. simpl. intros [= H1 _]. done.
  - injection Hk2 as <-.
    destruct (nonempty (normalize_sku (r1 !! "Variant SKU"))); [|done].
    injection Hk1 as <-. simpl. intros [= H1 _]. done.
  - destruct (nonempty (normalize_sku (r1 !! "Variant SKU"))); [|done].
    destruct (nonempty (normalize_sku (r2 !! "Variant SKU"))); [|done].
    injection Hk1 as <-. injection Hk2 as <-. simpl. by intros [= ->].
Qed.

End SameBucket.

(** ** C10: where the merged fields come from *)

Section Provenance.
Context {B : Builtins}.

Lemma for_each_invariant {S A : Type} (P : S → Prop) (body : S → A → result S)
    (l : list A) (s0 s : S) :
  P s0 →
  (∀ s x s', x ∈ l → P s → body s x = Returned s' → P s') →
  for_each body s0 l = Returned s → P s.
Proof.
  revert s0. induction l as [|x l IH]; intros s0 H0 Hstep; simpl.
  - by intros [= <-].
  - intros (s' & Hs' & Hrest)%bind_Returned.
    apply (IH s'); [| |done].
    + eapply Hstep; [by left | done | done].
    + intros s1 y s2 Hy. apply Hstep. by right.
Qed.

Lemma float_is_zero_eq (x : pyfloat) : float_is_zero x = true → x = Finite 0.
Proof.
  destruct x as [q| |]; simpl; try done.
  intros Hq%bool_decide_eq_true. by subst.
Qed.

Lemma take_sale_price_from (member_rows : list Series) (row : Series) (sp : pyfloat) :
  row ∈ member_rows →
  (sp = Finite 0 ∨ ∃ row, row ∈ member_rows ∧ price_of row = Some sp) →
  take_sale_price row sp = Finite 0
  ∨ ∃ row', row' ∈ member_rows ∧ price_of row' = Some (take_sale_price row sp).
Proof.
  intros Hrow Hsp. unfold take_sale_price.
  destruct (float_is_zero sp) eqn:Hz; [|done].
  pose proof (float_is_zero_eq _ Hz) as ->.
  destruct (present row "Variant Price") as [v|] eqn:Hv; [|by left].
  destruct (py_float v) as [x|] eqn:Hx; simpl; [|by left].
  destruct (float_is_zero x) eqn:Hzx.
  - left. by apply float_is_zero_eq.
  - right. exists row. split; [done|]. unfold price_of. by rewrite Hv, Hx, Hzx.
Qed.

Lemma take_discounted_price_from (member_rows : list Series) (row : Series)
    (dp : pyfloat) :
  row ∈ member_rows →
  (dp = Finite 0 ∨ ∃ row v, row ∈ member_rows ∧ compare_price row = Some v
                            ∧ py_float v = Some dp) →
  take_discounted_price row dp = Finite 0
  ∨ ∃ row' v, row' ∈ member_rows ∧ compare_price row' = Some v
              ∧ py_float v = Some (take_discounted_price row dp).
Proof.
  intros Hrow Hdp. unfold take_discounted_price.
  destruct (float_is_zero dp) eqn:Hz; [|done].
  pose proof (float_is_zero_eq _ Hz) as ->.
  destruct (compare_price row) as [v|] eqn:Hv; [|by left].
  destruct (py_float v) as [x|] eqn:Hx; simpl; [|by left].
  right. by exists row, v.
Qed.

Lemma take_barcode_from (member_rows : list Series) (row : Series) (b : string) :
  row ∈ member_rows →
  (b = "" ∨ ∃ row, row ∈ member_rows ∧ barcode_of row = Some b) →
  take_barcode row b = ""
  ∨ ∃ row', row' ∈ member_rows ∧ barcode_of row' = Some (take_barcode row b).
Proof.
  intros Hrow Hb. unfold take_barcode.
  destruct (nonempty b) eqn:Hne; [done|].
  apply nonempty_false in Hne. subst b.
  assert (Hcase : ∀ t, (barcode_of row = if nonempty t then Some t else None) →
                       t = "" ∨ ∃ row', row' ∈ member_rows ∧ barcode_of row' = Some t).
  { intros t Ht. destruct (nonempty t) eqn:Hnt.
    - right. by exists row.
    - left. by apply nonempty_false. }
  unfold barcode_of in Hcase.
  destruct (present row "Variant Barcode") as [v|]; [by apply Hcase|].
  destruct (present row "Barcode") as [v|]; [by apply Hcase | by left].
Qed.

Lemma take_stock_qty_from (member_rows : list Series) (row : Series) (q q' : Z) :
  row ∈ member_rows →
  (q = 0%Z ∨ ∃ row, row ∈ member_rows ∧ stock_of row = Some q) →
  take_stock_qty row q = Returned q' →
  q' = 0%Z ∨ ∃ row', row' ∈ member_rows ∧ stock_of row' = Some q'.
Proof.
  intros Hrow Hq. unfold take_stock_qty.
  destruct (bool_decide (q = 0%Z)) eqn:Hz; [|by intros [= <-]].
  apply bool_decide_eq_true in Hz. subst q.
  destruct (present row "Variant Inventory Qty") as [v|] eqn:Hv;
    [|intros [= <-]; by left].
  intros (o & Ho & [= <-])%bind_Returned.
  destruct o as [z|]; simpl; [|by left].
  destruct (decide (z = 0%Z)) as [->|Hne]; [by left|].
  right. exists row. split; [done|]. unfold stock_of.
  by rewrite Hv, Ho, bool_decide_eq_false_2.
Qed.

Lemma merge_rest_from (member_rows : list Series) (row : Series) (m m' : Merged)
    (sku : string) :
  row ∈ member_rows → from_rows member_rows m →
  (sku = ""
   ∨ ∃ row v, row ∈ member_rows ∧ present row "Variant SKU" = Some v
              ∧ (sku = py_str v ∨ sku = strip (py_str v))) →
  merge_rest m sku row = Returned m' → from_rows member_rows m'.
Proof.
  intros Hrow (Hp & Hq & Hd & Hb & _) Hsku. unfold merge_rest.
  intros (q & Hq' & [= <-])%bind_Returned.
  repeat split; simpl.
  - by apply take_sale_price_from.
  - by eapply take_stock_qty_from.
  - by apply take_discounted_price_from.
  - by apply take_barcode_from.
  - done.
Qed.

Lemma merge_init_from (member_rows : list Series) : from_rows member_rows merge_init.
Proof. repeat split; by left. Qed.

Lemma simple_merge_from (group_df : list Series) (m : Merged) :
  simple_merge group_df = Returned m → from_rows group_df m.
Proof.
  apply (for_each_invariant (from_rows group_df)); [apply merge_init_from|].
  intros s row s' Hrow Hs. unfold simple_merge_row.
  apply merge_rest_from; [done | done |].
  destruct (negb (nonempty (variant_sku s))); [|by destruct Hs as (_ & _ & _ & _ & ?)].
  destruct (present row "Variant SKU") as [v|] eqn:Hv;
    [|by destruct Hs as (_ & _ & _ & _ & ?)].
  right. exists row, v. split; [done|]. split; [done|]. by left.
Qed.

Lemma variant_merge_from (member_rows : list Series) (m : Merged) :
  variant_merge member_rows = Returned m → from_rows member_rows m.
Proof.
  apply (for_each_invariant (from_rows member_rows)); [apply merge_init_from|].
  intros s row s' Hrow Hs. unfold variant_merge_row.
  destruct (negb (nonempty (variant_sku s)));
    [|apply merge_rest_from; [done | done | by destruct Hs as (_ & _ & _ & _ & ?)]].
  destruct (present row "Variant SKU") as [v|] eqn:Hv;
    [|apply merge_rest_from; [done | done | by destruct Hs as (_ & _ & _ & _ & ?)]].
  destruct (negb (nonempty (strip (py_str v)))) eqn:Hblank.
  - intros [= <-]. destruct Hs as (Hp & Hq & Hd & Hb & _).
    repeat split; simpl; try done.
    left. apply negb_true_iff in Hblank. by apply nonempty_false.
  - apply merge_rest_from; [done | done |].
    right. exists row, v. split; [done|]. split; [done|]. by right.
Qed.

Lemma from_rows_zero (contributing : list Series) (m : Merged) (r : IkasRow) :
  from_rows contributing m →
  Satis_Fiyati r = Float (sale_price m) → Stok_Ana_Depo r = Int (stock_qty m) →
  SKU r = Str (variant_sku m) → Barkod_Listesi r = Str (barcode m) →
  zero_when_absent contributing r.
Proof.
  unfold zero_when_absent. intros (Hp & Hq & _ & Hb & Hs) -> -> -> ->.
  repeat split.
  - intros Hnone. destruct Hp as [->|(row & Hrow & Hprice)]; [done|].
    rewrite (Hnone row Hrow) in Hprice. done.
  - intros Hnone. destruct Hq as [->|(row & Hrow & Hstock)]; [done|].
    rewrite (Hnone row Hrow) in Hstock. done.
  - intros Hnone. destruct Hs as [->|(row & v & Hrow & Hv & _)]; [done|].
    rewrite (Hnone row Hrow) in Hv. done.
  - intros Hnone. destruct Hb as [->|(row & Hrow & Hbar)]; [done|].
    rewrite (Hnone row Hrow) in Hbar. done.
Qed.

(** The one row of a simple product is merged from the whole group. *)
Lemma simple_rows_zero cols handle group_df ys :
  simple_rows cols handle group_df = Returned ys →
  Forall (zero_when_absent group_df) ys.
Proof.
  unfold simple_rows. intros (m & Hm & [= <-])%bind_Returned.
  constructor; [|done].
  by apply (from_rows_zero group_df m); [apply simple_merge_from|..].
Qed.

(** The row of a combination is merged from the rows of its bucket. *)
Lemma variant_row_zero cols handle group_df first_row kd r :
  variant_row cols handle group_df first_row kd = Returned r →
  zero_when_absent (variant_rows kd.2) r.
Proof.
  unfold variant_row. intros (m & Hm & [= <-])%bind_Returned.
  by apply (from_rows_zero (variant_rows kd.2) m); [apply variant_merge_from|..].
Qed.

(** *** C10 *)

(** C10. Every row of the returned table belongs to a handle group, and
    its contributing rows are its own: the whole group for the one row of a
    handle that is classified simple or has no row with a variant key, and
    for a handle with variants, whose rows come in the order in which the
    keys first appear, the rows of the group with the key of that row and no
    others.  A row whose contributing rows hold no variant price that parses
    to a number other than zero has the float 0.0 in the sale-price cell,
    and one whose contributing rows hold no inventory quantity that parses
    to a number other than zero has the integer 0 in the stock cell; an
    absent SKU or barcode is the empty string. *)
Theorem absent_price_and_stock_are_zero (source_df : DataFrame)
    (ikas_rows : list IkasRow) :
  shopify_to_ikas_converter (Loaded source_df) = Returned ikas_rows →
  (∀ r, r ∈ ikas_rows →
        ∃ group_df, (Slug r, group_df) ∈ handle_groups source_df
                    ∧ r ∈ rows_of (Slug r) ikas_rows)
  ∧ ∀ handle group_df,
      (handle, group_df) ∈ handle_groups source_df →
      (classified_simple group_df = true ∨ variant_keys group_df = []
       → Forall (zero_when_absent group_df) (rows_of handle ikas_rows))
      ∧ (classified_simple group_df = false → variant_keys group_df ≠ []
         → Forall2 (λ key r, zero_when_absent (rows_with_key key group_df) r)
                   (variant_keys group_df) (rows_of handle ikas_rows)).
Proof.
  intros Hret. split.
  - intros r Hr.
    destruct (converter_row_origin _ _ _ Hret Hr)
      as (handle & group_df & ys & Hg & Hys & Hin).
    pose proof (handle_rows_slug _ _ _ _ Hys) as Hslug.
    rewrite Forall_forall in Hslug. rewrite (Hslug r Hin).
    exists group_df. split; [done|].
    apply list_elem_of_filter. split; [by apply Hslug | done].
  - intros handle group_df Hgroup.
    pose proof (converter_rows_of _ _ _ _ Hret Hgroup) as Hrows.
    apply handle_rows_cases in Hrows as (first_row & rest & -> & Hcases).
    simpl.
    destruct Hcases as [(Hs & Hys)|[(Hs & Hvc & Hys)|(Hs & Hvc & Hys)]].
    + split; [intros _; by apply simple_rows_zero in Hys | congruence].
    + split; [intros _; by apply simple_rows_zero in Hys|].
      intros _ Hkeys. exfalso. apply Hkeys.
      apply (f_equal length) in Hvc. rewrite variant_combinations_length in Hvc.
      by destruct (variant_keys (first_row :: rest)).
    + split.
      * intros [Hsimple|Hkeys]; [congruence|]. exfalso. apply Hvc.
        rewrite variant_combinations_spec, Hkeys. done.
      * intros _ _.
        rewrite variant_combinations_spec in Hys. apply collect_Returned in Hys.
        apply Forall2_fmap_l in Hys.
        eapply Forall2_impl; [exact Hys|]. intros key r Hr.
        by apply variant_row_zero in Hr.
Qed.

End Provenance.

(** ** C6: handles whose option value is "Default Title" *)

Section SimpleProduct.
Context {B : Builtins}.

Lemma has_default_title_simple (row : Series) :
  has_default_title row ↔ is_simple_product row = true.
Proof.
  unfold is_simple_product, has_default_title. split.
  - intros (v & -> & Hdt). by apply bool_decide_eq_true.
  - destruct (present row "Option1 Value") as [v|]; [|done].
    intros Hdt%bool_decide_eq_true. eauto.
Qed.

(** C6. A handle group in which every row has the primary option value
    "Default Title" (trimmed, in any case) owns exactly one row of the
    returned table, with blank group id and blank variant-axis names and
    values; and the same holds as soon as the first row of the group has
    that option value, whatever the other rows hold. *)
Theorem default_title_handle_is_one_blank_row (source_df : DataFrame)
    (ikas_rows : list IkasRow) (i : nat) (handle : value) (group_df : list Series) :
  shopify_to_ikas_converter (Loaded source_df) = Returned ikas_rows →
  handle_groups source_df !! i = Some (handle, group_df) →
  (Forall has_default_title group_df
   → one_blank_row (rows_of handle ikas_rows))
  ∧ ((∃ first_row, head group_df = Some first_row ∧ has_default_title first_row)
     → one_blank_row (rows_of handle ikas_rows)).
Proof.
  intros Hret Hgroup. apply list_elem_of_lookup_2 in Hgroup.
  pose proof (converter_rows_of _ _ _ _ Hret Hgroup) as Hrows.
  apply handle_rows_cases in Hrows as (first_row & rest & -> & Hcases).
  assert (Hfirst : has_default_title first_row → one_blank_row (rows_of handle ikas_rows)).
  { intros Hs. apply has_default_title_simple in Hs.
    destruct Hcases as [(_ & Hys)|[(Hn & _)|(Hn & _)]]; [|congruence..].
    by apply simple_rows_length in Hys. }
  split.
  - intros Hall. apply Hfirst. by apply Forall_cons_1 in Hall as [? _].
  - intros (fr & [= <-] & Hdt). by apply Hfirst.
Qed.

End SimpleProduct.

(** ** C8: which exceptions leave the converter *)

Section Exceptions.
Context {B : Builtins}.

#[local] Arguments collect : simpl never.

(** Without a Handle column the converter raises its [ValueError] and
    returns nothing. *)
Lemma missing_handle_raises (source_df : DataFrame) :
  "Handle" ∉ columns source_df →
  shopify_to_ikas_converter (Loaded source_df)
  = Raised (ValueError "Handle sütunu bulunamadı. Lütfen geçerli bir Shopify export dosyası yükleyin.").
Proof.
  intros Hno. simpl. unfold convert_frame.
  by rewrite bool_decide_eq_false_2.
Qed.

Lemma take_stock_qty_outcome (row : Series) (q : Z) :
  returns_or_overflows (take_stock_qty row q).
Proof.
  unfold take_stock_qty, returns_or_overflows.
  destruct (bool_decide (q = 0%Z)); [|left; eauto].
  destruct (present row "Variant Inventory Qty") as [v|]; [|left; eauto].
  destruct v as [|s|z|[q'|negative|]|b]; simpl; eauto.
Qed.

Lemma present_finite_stock (row : Series) (v : value) :
  finite_stock row → present row "Variant Inventory Qty" = Some v →
  ∀ negative, v ≠ Float (Infinity negative).
Proof.
  unfold finite_stock, present. intros Hfin Hv negative ->.
  destruct (row !! "Variant Inventory Qty") as [v|] eqn:E; [|done].
  destruct (notna v); [|done]. injection Hv as ->. by apply (Hfin negative).
Qed.

Lemma take_stock_qty_returns (row : Series) (q : Z) :
  finite_stock row → ∃ q', take_stock_qty row q = Returned q'.
Proof.
  intros Hfin. unfold take_stock_qty.
  destruct (bool_decide (q = 0%Z)); [|eauto].
  destruct (present row "Variant Inventory Qty") as [v|] eqn:Hv; [|eauto].
  pose proof (present_finite_stock row v Hfin Hv) as Hne.
  destruct v as [|s|z|[q'|negative|]|b]; simpl; eauto.
  by destruct (Hne negative).
Qed.

Lemma for_each_outcome {S A : Type} (body : S → A → result S) (l : list A) (s : S) :
  (∀ s x, returns_or_overflows (body s x)) →
  returns_or_overflows (for_each body s l).
Proof.
  intros Hbody. revert s. induction l as [|x l IH]; intros s; simpl.
  - left. eauto.
  - destruct (Hbody s x) as [[s' ->]| ->]; simpl; [apply IH | by right].
Qed.

Lemma for_each_returns {S A : Type} (body : S → A → result S) (l : list A) (s : S) :
  (∀ s x, x ∈ l → ∃ s', body s x = Returned s') →
  ∃ s', for_each body s l = Returned s'.
Proof.
  revert s. induction l as [|x l IH]; intros s Hbody; simpl; [eauto|].
  destruct (Hbody s x) as [s' ->]; [by left|]. simpl.
  apply IH. intros s0 y Hy. apply Hbody. by right.
Qed.

Lemma merge_rest_outcome (m : Merged) (sku : string) (row : Series) :
  returns_or_overflows (merge_rest m sku row).
Proof.
  unfold merge_rest.
  destruct (take_stock_qty_outcome row (stock_qty m)) as [[q ->]| ->]; simpl.
  - left. eauto.
  - by right.
Qed.

Lemma merge_rest_returns (m : Merged) (sku : string) (row : Series) :
  finite_stock row → ∃ m', merge_rest m sku row = Returned m'.
Proof.
  intros Hfin. unfold merge_rest.
  destruct (take_stock_qty_returns row (stock_qty m) Hfin) as [q ->]. simpl. eauto.
Qed.

Lemma simple_merge_outcome (group_df : list Series) :
  returns_or_overflows (simple_merge group_df).
Proof. apply for_each_outcome. intros s x. apply merge_rest_outcome. Qed.

Lemma variant_merge_outcome (member_rows : list Series) :
  returns_or_overflows (variant_merge member_rows).
Proof.
  apply for_each_outcome. intros s row. unfold variant_merge_row.
  destruct (negb (nonempty (variant_sku s))); [|apply merge_rest_outcome].
  destruct (present row "Variant SKU"); [|apply merge_rest_outcome].
  destruct (negb (nonempty _)); [left; eauto | apply merge_rest_outcome].
Qed.

Lemma simple_merge_returns (group_df : list Series) :
  Forall finite_stock group_df → ∃ m, simple_merge group_df = Returned m.
Proof.
  intros Hfin. rewrite Forall_forall in Hfin. apply for_each_returns.
  intros s row Hrow. apply merge_rest_returns. by apply Hfin.
Qed.

Lemma variant_merge_returns (member_rows : list Series) :
  Forall finite_stock member_rows → ∃ m, variant_merge member_rows = Returned m.
Proof.
  intros Hfin. rewrite Forall_forall in Hfin. apply for_each_returns.
  intros s row Hrow. unfold variant_merge_row. specialize (Hfin row Hrow).
  destruct (negb (nonempty (variant_sku s))); [|by apply merge_rest_returns].
  destruct (present row "Variant SKU"); [|by apply merge_rest_returns].
  destruct (negb (nonempty _)); [eauto | by apply merge_rest_returns].
Qed.

Lemma collect_outcome {A R : Type} (f : A → result R) (l : list A) :
  (∀ x, x ∈ l → returns_or_overflows (f x)) →
  returns_or_overflows (collect f l).
Proof.
  induction l as [|x l IH]; intros Hf; [left; by eexists|].
  unfold collect; fold (collect f l).
  destruct (Hf x) as [[y ->]| ->]; [by left | | by right]. simpl.
  destruct IH as [[ys ->]| ->]; [intros; apply Hf; by right | |]; simpl.
  - left. eauto.
  - by right.
Qed.

Lemma collect_returns {A R : Type} (f : A → result R) (l : list A) :
  (∀ x, x ∈ l → ∃ y, f x = Returned y) → ∃ ys, collect f l = Returned ys.
Proof.
  induction l as [|x l IH]; intros Hf; [by eexists|].
  unfold collect; fold (collect f l).
  destruct (Hf x) as [y ->]; [by left|]. simpl.
  destruct IH as [ys ->]; [intros; apply Hf; by right|]. simpl. eauto.
Qed.

Lemma handle_rows_outcome cols handle group_df :
  group_df ≠ [] → returns_or_overflows (handle_rows cols (handle, group_df)).
Proof.
  intros Hne. unfold handle_rows. destruct group_df as [|first_row rest]; [done|].
  assert (Hsimple : returns_or_overflows (simple_rows cols handle (first_row :: rest))).
  { unfold simple_rows.
    destruct (simple_merge_outcome (first_row :: rest)) as [[m ->]| ->]; simpl.
    - left. eauto.
    - by right. }
  destruct (is_simple_product first_row); [done|].
  destruct (variant_combinations (first_row :: rest)) as [|kd vc]; [done|].
  apply collect_outcome. intros [key d] _. unfold variant_row. simpl.
  destruct (variant_merge_outcome (variant_rows d)) as [[m ->]| ->]; simpl.
  - left. eauto.
  - by right.
Qed.

Lemma handle_rows_returns cols handle group_df :
  group_df ≠ [] → Forall finite_stock group_df →
  ∃ ys, handle_rows cols (handle, group_df) = Returned ys.
Proof.
  intros Hne Hfin. unfold handle_rows.
  destruct group_df as [|first_row rest]; [done|].
  assert (Hsimple : ∃ ys, simple_rows cols handle (first_row :: rest) = Returned ys).
  { unfold simple_rows.
    destruct (simple_merge_returns _ Hfin) as [m ->]. simpl. eauto. }
  destruct (is_simple_product first_row); [done|].
  destruct (variant_combinations (first_row :: rest)) as [|kd vc] eqn:Hvc; [done|].
  apply collect_returns. intros [key d] Hkd. unfold variant_row. simpl.
  rewrite <- Hvc in Hkd. apply elem_of_variant_combinations in Hkd as [_ ->].
  destruct (variant_merge_returns (variant_rows (bucket_for key (first_row :: rest))))
    as [m ->]; [|simpl; eauto].
  apply Forall_forall. intros row [_ Hrow]%elem_of_bucket_rows.
  rewrite Forall_forall in Hfin. by apply Hfin.
Qed.

(** With a Handle column the converter returns a whole table or raises
    [OverflowError]; it never raises the missing-column error, a
    [KeyError] or an [IndexError]. *)
Lemma handle_present_outcome (source_df : DataFrame) :
  "Handle" ∈ columns source_df →
  returns_or_overflows (shopify_to_ikas_converter (Loaded source_df)).
Proof.
  intros Hin. simpl. rewrite convert_frame_unfold, bool_decide_eq_true_2 by done.
  destruct (collect_outcome (handle_rows (columns source_df)) (handle_groups source_df))
    as [[yss ->]| ->]; simpl.
  - intros [h g] Hg. apply handle_rows_outcome. by eapply groupby_nonempty.
  - left. eauto.
  - by right.
Qed.

Lemma fill_handles_other (rs : list Series) (row : Series) (col : string) :
  col ≠ "Handle" → row ∈ fill_handles rs → ∃ row0, row0 ∈ rs ∧ row !! col = row0 !! col.
Proof.
  intros Hcol. unfold fill_handles.
  generalize (ffill None ((λ r, cell r "Handle") <$> rs)). intros vs.
  revert vs. induction rs as [|r rs IH]; intros [|v vs] Hin; simpl in Hin;
    try by apply elem_of_nil in Hin.
  apply elem_of_cons in Hin as [->|Hin].
  - exists r. split; [by left|]. by rewrite lookup_insert_ne.
  - destruct (IH vs Hin) as (row0 & Hrow0 & Heq). exists row0. split; [by right | done].
Qed.

(** With a Handle column and no infinite stock cell the converter returns
    a table. *)
Lemma finite_stock_returns (source_df : DataFrame) :
  "Handle" ∈ columns source_df →
  Forall finite_stock (rows source_df) →
  ∃ ikas_rows, shopify_to_ikas_converter (Loaded source_df) = Returned ikas_rows.
Proof.
  intros Hin Hfin. simpl. rewrite convert_frame_unfold, bool_decide_eq_true_2 by done.
  destruct (collect_returns (handle_rows (columns source_df)) (handle_groups source_df))
    as [yss ->]; [|simpl; eauto].
  intros [h g] Hg. apply handle_rows_returns; [by eapply groupby_nonempty|].
  apply elem_of_groupby in Hg as (-> & _).
  apply Forall_forall. intros row [_ Hrow]%list_elem_of_filter.
  destruct (fill_handles_other _ row "Variant Inventory Qty" ltac:(done) Hrow)
    as (row0 & Hrow0 & Heq).
  rewrite Forall_forall in Hfin. specialize (Hfin row0 Hrow0).
  unfold finite_stock in *. by rewrite Heq.
Qed.

End Exceptions.

(** ** C5: the shared attributes of a handle *)

Section CommonAttributes.
Context {B : Builtins}.

Lemma head_filter_notna (vs : list value) :
  match head (filter (λ v, notna v = true) vs) with
  | Some v => ∃ i, vs !! i = Some v ∧ notna v = true
                   ∧ ∀ j v', (j < i)%nat → vs !! j = Some v' → notna v' = false
  | None => ∀ v, v ∈ vs → notna v = false
  end.
Proof.
  induction vs as [|v vs IH]; simpl.
  - intros v Hv. by apply elem_of_nil in Hv.
  - rewrite filter_cons. destruct (decide (notna v = true)) as [Hv|Hv]; simpl.
    + exists 0%nat. split; [done|]. split; [done|]. intros j v' Hj. lia.
    + apply not_true_is_false in Hv.
      destruct (head (filter (λ v, notna v = true) vs)) as [w|].
      * destruct IH as (i & Hi & Hw & Hbefore). exists (S i).
        split; [done|]. split; [done|].
        intros [|j] v' Hj Hv'; simpl in Hv'; [congruence|].
        apply (Hbefore j); [lia | done].
      * intros v' [->|Hv']%elem_of_cons; [done | by apply IH].
Qed.

Lemma first_valid_Some cols group_df col v :
  first_valid cols group_df col = Some v →
  has_data cols group_df col ∧ first_non_missing group_df col v.
Proof.
  unfold first_valid, dropna. case_bool_decide as Hcol; [|done].
  pose proof (head_filter_notna ((λ row, cell row col) <$> group_df)) as Hhead.
  intros Hv. rewrite Hv in Hhead. destruct Hhead as (i & Hi & Hna & Hbefore).
  rewrite list_lookup_fmap in Hi.
  destruct (group_df !! i) as [row|] eqn:Hrow; [|done]. injection Hi as <-.
  split.
  - split; [done|]. exists row. split; [by eapply list_elem_of_lookup_2 | done].
  - exists i, row. repeat split; [done..|].
    intros j row' Hj Hrow'. apply (Hbefore j); [done|].
    by rewrite list_lookup_fmap, Hrow'.
Qed.

Lemma first_valid_None cols group_df col :
  first_valid cols group_df col = None → ¬ has_data cols group_df col.
Proof.
  unfold first_valid, dropna. intros Hnone (Hcol & row & Hrow & Hna).
  rewrite bool_decide_eq_true_2 in Hnone by done.
  pose proof (head_filter_notna ((λ row, cell row col) <$> group_df)) as Hhead.
  rewrite Hnone in Hhead.
  rewrite (Hhead (cell row col)) in Hna; [done|].
  by apply (list_elem_of_fmap_2 (λ row, cell row col)).
Qed.

Lemma first_or_blank_resolved cols group_df col :
  resolved_from cols group_df col (first_or_blank cols group_df col).
Proof.
  unfold first_or_blank, resolved_from.
  destruct (first_valid cols group_df col) as [v|] eqn:Hv; simpl.
  - left. by apply first_valid_Some.
  - right. split; [by apply first_valid_None | done].
Qed.

(** C5 (amended). Each shared attribute of a handle group is the cell of the
    first row, in row order, whose cell in the attribute's column is not
    missing (NaN or None), and the empty string when the column is absent or
    all its cells are missing; a missing cell is never chosen when another
    row holds a value, while an empty or white-space-only text counts as a
    value.  The category is read from "Product Category" when that column
    holds a value for the group and from "Type" otherwise; the Google
    category from "Google Shopping / Google Product Category" when it holds
    a value and from "Google Product Category" otherwise. *)
Theorem common_info_first_non_missing (cols : list string) (group_df : list Series) :
  let c := group_common_info cols group_df in
  resolved_from cols group_df "Title" (Title c)
  ∧ resolved_from cols group_df "Body (HTML)" (Body_HTML c)
  ∧ resolved_from cols group_df "Vendor" (Vendor c)
  ∧ resolved_from cols group_df "Tags" (Tags c)
  ∧ resolved_from cols group_df "SEO Title" (SEO_Title c)
  ∧ resolved_from cols group_df "SEO Description" (SEO_Description c)
  ∧ resolved_from cols group_df "Type" (Type_ c)
  ∧ resolved_from cols group_df "Created At" (Created_At c)
  ∧ (has_data cols group_df "Product Category"
     → first_non_missing group_df "Product Category" (Category c))
  ∧ (¬ has_data cols group_df "Product Category"
     → resolved_from cols group_df "Type" (Category c))
  ∧ (has_data cols group_df "Google Shopping / Google Product Category"
     → first_non_missing group_df "Google Shopping / Google Product Category"
                         (Google_Category c))
  ∧ (¬ has_data cols group_df "Google Shopping / Google Product Category"
     → resolved_from cols group_df "Google Product Category" (Google_Category c)).
Proof.
  cbv zeta. unfold group_common_info. simpl.
  repeat (split; [apply first_or_blank_resolved|]).
  unfold category_col, google_category.
  destruct (first_valid cols group_df "Product Category") as [pc|] eqn:Hpc;
    destruct (first_valid cols group_df "Google Shopping / Google Product Category")
      as [gc|] eqn:Hgc; simpl.
  - repeat split.
    + intros _. unfold first_or_blank. rewrite Hpc. by apply first_valid_Some in Hpc as [_ ?].
    + intros Hno. by apply first_valid_Some in Hpc as [? _].
    + intros _. by apply first_valid_Some in Hgc as [_ ?].
    + intros Hno. by apply first_valid_Some in Hgc as [? _].
  - repeat split.
    + intros _. unfold first_or_blank. rewrite Hpc. by apply first_valid_Some in Hpc as [_ ?].
    + intros Hno. by apply first_valid_Some in Hpc as [? _].
    + intros Hyes. by apply first_valid_None in Hgc.
    + intros _. apply first_or_blank_resolved.
  - repeat split.
    + intros Hyes. by apply first_valid_None in Hpc.
    + intros _. destruct (first_valid cols group_df "Type") as [t|] eqn:Ht; simpl.
      * pose proof (first_or_blank_resolved cols group_df "Type") as Hr.
        unfold first_or_blank in *. by rewrite Ht in *.
      * right. split; [by apply first_valid_None | done].
    + intros _. by apply first_valid_Some in Hgc as [_ ?].
    + intros Hno. by apply first_valid_Some in Hgc as [? _].
  - repeat split.
    + intros Hyes. by apply first_valid_None in Hpc.
    + intros _. destruct (first_valid cols group_df "Type") as [t|] eqn:Ht; simpl.
      * pose proof (first_or_blank_resolved cols group_df "Type") as Hr.
        unfold first_or_blank in *. by rewrite Ht in *.
      * right. split; [by apply first_valid_None | done].
    + intros Hyes. by apply first_valid_None in Hgc.
    + intros _. apply first_or_blank_resolved.
Qed.

End CommonAttributes.

(** ** C7: the option values a bucket keeps *)

Section Retained.
Context {B : Builtins} {L : BuiltinLaws B}.

#[local] Arguments collect : simpl never.

Lemma Forall2_impl_elem_of {A R : Type} (P Q : A → R → Prop) (l : list A) (k : list R) :
  Forall2 P l k → (∀ x y, x ∈ l → P x y → Q x y) → Forall2 Q l k.
Proof.
  induction 1 as [|x y l k Hxy _ IH]; intros Himpl; constructor.
  - apply Himpl; [by left | done].
  - apply IH. intros x' y' Hx'. apply Himpl. by right.
Qed.

Lemma option_value_retained (row : Series) (col : string) :
  blank_default_title (cleaned row col) = retained_option (row !! col).
Proof.
  unfold blank_default_title, retained_option. rewrite cleaned_spec.
  destruct (row !! col) as [v|]; [|done].
  destruct (notna v); [|done].
  rewrite strip_upper_strip.
  destruct (nonempty (strip (py_str v))) eqn:Ht; simpl; [done|].
  apply nonempty_false in Ht. rewrite Ht. by destruct (bool_decide _).
Qed.

Lemma variant_deger_retained (c : option value) :
  variant_deger (retained_option c) = retained_option c.
Proof.
  unfold variant_deger, retained_option.
  destruct c as [v|]; [|done]. destruct (notna v); [|done].
  destruct (bool_decide (upper (strip (py_str v)) = "DEFAULT TITLE")) eqn:Hdt; [done|].
  rewrite Hdt. simpl. rewrite andb_true_r.
  destruct (nonempty (strip (py_str v))) eqn:Ht; [done|].
  by apply nonempty_false in Ht.
Qed.

(** C7 (amended). For a variant-bearing handle the table holds one row per
    key, in order of first appearance of the keys, and the two variant-axis
    value cells of that row are the option values of the first row of the
    group with that key, as text with the white space at both ends removed
    and the casing kept, blank when the cell is missing or reads
    "DEFAULT TITLE" in any case. *)
Theorem retained_option_values (source_df : DataFrame) (ikas_rows : list IkasRow)
    (i : nat) (handle : value) (group_df : list Series) :
  shopify_to_ikas_converter (Loaded source_df) = Returned ikas_rows →
  handle_groups source_df !! i = Some (handle, group_df) →
  classified_simple group_df = false →
  variant_combinations group_df ≠ [] →
  Forall2 (λ key r,
             ∃ first_row, head (rows_with_key key group_df) = Some first_row
               ∧ Varyant_Deger_1 r
                 = Str (retained_option (first_row !! "Option1 Value"))
               ∧ Varyant_Deger_2 r
                 = Str (retained_option (first_row !! "Option2 Value")))
          (variant_keys group_df) (rows_of handle ikas_rows).
Proof.
  intros Hret Hgroup Hsimple Hvc. apply list_elem_of_lookup_2 in Hgroup.
  pose proof (converter_rows_of _ _ _ _ Hret Hgroup) as Hrows.
  apply handle_rows_cases in Hrows as (first_row & rest & -> & Hcases).
  simpl in Hsimple.
  destruct Hcases as [(Hs & _)|[(_ & Hnil & _)|(_ & _ & Hys)]]; [congruence | done |].
  rewrite variant_combinations_spec in Hys. apply collect_Returned in Hys.
  apply Forall2_fmap_l in Hys.
  eapply Forall2_impl_elem_of; [exact Hys|].
  clear Hys. intros key r Hkey Hr. simpl in Hr.
  unfold variant_row in Hr. apply bind_Returned in Hr as (m & _ & [= <-]).
  apply elem_of_variant_keys in Hkey as (row & Hrow & Hk).
  destruct (rows_with_key_cons key (first_row :: rest)) as (fr & frs & Hfr).
  { apply list_elem_of_omap. eauto. }
  exists fr. unfold bucket_for. simpl. rewrite Hfr. simpl.
  unfold option1_value, option2_value.
  by rewrite !option_value_retained, !variant_deger_retained.
Qed.

End Retained.

(** ** C9: the third option axis *)

Section Option3.
Context {B : Builtins}.

#[local] Arguments collect : simpl never.
#[local] Arguments handle_rows : simpl never.

Lemma lookup_without_option3 (row : Series) (col : string) :
  col ≠ "Option3 Name" → col ≠ "Option3 Value" →
  without_option3 row !! col = row !! col.
Proof.
  intros H1 H2. unfold without_option3. by rewrite !lookup_delete_ne.
Qed.

Lemma same_but_option3_erase (row1 row2 : Series) :
  same_but_option3 row1 row2 ↔ without_option3 row1 = without_option3 row2.
Proof.
  split.
  - intros Hsame. apply map_eq. intros col. unfold without_option3.
    destruct (decide (col = "Option3 Name")) as [->|H1];
      [by rewrite !lookup_delete_eq|].
    destruct (decide (col = "Option3 Value")) as [->|H2].
    + by rewrite !(lookup_delete_ne _ "Option3 Name"), !lookup_delete_eq.
    + rewrite !lookup_delete_ne by done. by apply Hsame.
  - intros Heq col H1 H2.
    by rewrite <- (lookup_without_option3 row1), <- (lookup_without_option3 row2), Heq.
Qed.

Lemma cell_without_option3 (row : Series) (col : string) :
  col ≠ "Option3 Name" → col ≠ "Option3 Value" →
  cell (without_option3 row) col = cell row col.
Proof. intros H1 H2. unfold cell. by rewrite lookup_without_option3. Qed.

Lemma present_without_option3 (row : Series) (col : string) :
  col ≠ "Option3 Name" → col ≠ "Option3 Value" →
  present (without_option3 row) col = present row col.
Proof. intros H1 H2. unfold present. by rewrite lookup_without_option3. Qed.

Lemma cleaned_without_option3 (row : Series) (col : string) :
  col ≠ "Option3 Name" → col ≠ "Option3 Value" →
  cleaned (without_option3 row) col = cleaned row col.
Proof. intros H1 H2. unfold cleaned. by rewrite lookup_without_option3. Qed.

Lemma fill_handles_without_option3 (rs : list Series) :
  fill_handles (without_option3 <$> rs) = without_option3 <$> fill_handles rs.
Proof.
  unfold fill_handles. rewrite <- list_fmap_compose.
  rewrite (list_fmap_ext (_ ∘ _) (λ row, cell row "Handle") rs)
    by (intros; simpl; by apply cell_without_option3).
  generalize (ffill None ((λ row, cell row "Handle") <$> rs)). intros vs.
  revert vs. induction rs as [|row rs IH]; intros [|v vs]; simpl; try done.
  f_equal; [|apply IH].
  unfold without_option3. by rewrite !delete_insert_ne.
Qed.

Lemma filter_fmap_without_option3 (P : Series → Prop) `{∀ row, Decision (P row)}
    (rs : list Series) :
  (∀ row, P (without_option3 row) ↔ P row) →
  filter P (without_option3 <$> rs) = without_option3 <$> filter P rs.
Proof.
  intros HP. induction rs as [|row rs IH]; [done|].
  rewrite fmap_cons, !filter_cons, IH.
  destruct (decide (P (without_option3 row))) as [Hp|Hp],
           (decide (P row)) as [Hq|Hq]; try done.
  - exfalso. by apply Hq, HP.
  - exfalso. by apply Hp, HP.
Qed.

Lemma groupby_without_option3 (rs : list Series) :
  groupby (without_option3 <$> rs)
  = (λ hg : value * list Series, (hg.1, without_option3 <$> hg.2)) <$> groupby rs.
Proof.
  unfold groupby. rewrite <- !list_fmap_compose.
  rewrite (list_fmap_ext ((λ row, cell row "Handle") ∘ without_option3)
             (λ row, cell row "Handle") rs)
    by (intros; simpl; by apply cell_without_option3).
  apply list_fmap_ext. intros _ h _. simpl. f_equal.
  apply (filter_fmap_without_option3 (λ row, cell row "Handle" = h)).
  intros row. by rewrite cell_without_option3.
Qed.

Lemma dropna_without_option3 (group_df : list Series) (col : string) :
  col ≠ "Option3 Name" → col ≠ "Option3 Value" →
  dropna (without_option3 <$> group_df) col = dropna group_df col.
Proof.
  intros H1 H2. unfold dropna. rewrite <- list_fmap_compose. f_equal.
  apply list_fmap_ext. intros; simpl. by apply cell_without_option3.
Qed.

Lemma first_valid_without_option3 cols (group_df : list Series) (col : string) :
  col ≠ "Option3 Name" → col ≠ "Option3 Value" →
  first_valid cols (without_option3 <$> group_df) col = first_valid cols group_df col.
Proof. intros H1 H2. unfold first_valid. by rewrite dropna_without_option3. Qed.

Lemma common_info_without_option3 cols (group_df : list Series) :
  group_common_info cols (without_option3 <$> group_df)
  = group_common_info cols group_df.
Proof.
  unfold group_common_info, category_col, google_category, first_or_blank.
  rewrite !first_valid_without_option3 by done.
  destruct (first_valid cols group_df "Product Category");
    destruct (first_valid cols group_df "Type"); simpl;
    by rewrite ?first_valid_without_option3 by done.
Qed.

Lemma handle_status_without_option3 cols (group_df : list Series) :
  group_handle_status cols (without_option3 <$> group_df)
  = group_handle_status cols group_df.
Proof.
  unfold group_handle_status, status_value.
  by rewrite !first_valid_without_option3 by done.
Qed.

Lemma image_urls_without_option3 cols (group_df : list Series) :
  group_image_urls cols (without_option3 <$> group_df) = group_image_urls cols group_df.
Proof.
  unfold group_image_urls, image_column.
  by rewrite !dropna_without_option3 by done.
Qed.

Lemma for_each_fmap {S A A' : Type} (body : S → A' → result S) (f : A → A')
    (l : list A) (s : S) :
  for_each body s (f <$> l) = for_each (λ s x, body s (f x)) s l.
Proof.
  revert s. induction l as [|x l IH]; intros s; simpl; [done|].
  destruct (body s (f x)); simpl; [apply IH | done].
Qed.

Lemma for_each_ext {S A : Type} (body body' : S → A → result S) (l : list A) (s : S) :
  (∀ s x, body s x = body' s x) → for_each body s l = for_each body' s l.
Proof.
  intros Hext. revert s. induction l as [|x l IH]; intros s; simpl; [done|].
  rewrite Hext. destruct (body' s x); simpl; [apply IH | done].
Qed.

Lemma merge_rest_without_option3 (m : Merged) (sku : string) (row : Series) :
  merge_rest m sku (without_option3 row) = merge_rest m sku row.
Proof.
  unfold merge_rest, take_barcode, take_sale_price, take_discounted_price,
    compare_price, take_stock_qty.
  by rewrite !present_without_option3 by done.
Qed.

Lemma simple_merge_without_option3 (group_df : list Series) :
  simple_merge (without_option3 <$> group_df) = simple_merge group_df.
Proof.
  unfold simple_merge. rewrite for_each_fmap. apply for_each_ext.
  intros m row. unfold simple_merge_row.
  by rewrite merge_rest_without_option3, present_without_option3.
Qed.

Lemma variant_merge_without_option3 (member_rows : list Series) :
  variant_merge (without_option3 <$> member_rows) = variant_merge member_rows.
Proof.
  unfold variant_merge. rewrite for_each_fmap. apply for_each_ext.
  intros m row. unfold variant_merge_row.
  rewrite present_without_option3 by done.
  destruct (present row "Variant SKU") as [v|];
    by rewrite !merge_rest_without_option3.
Qed.

Lemma option_values_without_option3 (row : Series) :
  option1_value (without_option3 row) = option1_value row
  ∧ option2_value (without_option3 row) = option2_value row
  ∧ variant_key (without_option3 row) = variant_key row.
Proof.
  unfold variant_key, option1_value, option2_value, row_sku.
  by rewrite !cleaned_without_option3 by done.
Qed.

Lemma bucket_for_without_option3 (key : VariantKey) (group_df : list Series) :
  bucket_for key (without_option3 <$> group_df)
  = mkVariantData (Option1_Value (bucket_for key group_df))
                  (Option2_Value (bucket_for key group_df))
                  (without_option3 <$> variant_rows (bucket_for key group_df)).
Proof.
  unfold bucket_for, rows_with_key. simpl.
  rewrite (filter_fmap_without_option3 (λ row, variant_key row = Some key))
    by (intros row; by rewrite (proj2 (proj2 (option_values_without_option3 row)))).
  destruct (filter (λ row, variant_key row = Some key) group_df) as [|fr frs]; [done|].
  simpl. f_equal; apply option_values_without_option3.
Qed.

Lemma variant_keys_without_option3 (group_df : list Series) :
  variant_keys (without_option3 <$> group_df) = variant_keys group_df.
Proof.
  unfold variant_keys. f_equal.
  induction group_df as [|row g IH]; [done|].
  rewrite fmap_cons. cbn [omap list_omap].
  rewrite (proj2 (proj2 (option_values_without_option3 row))).
  fold (omap variant_key (without_option3 <$> g)). fold (omap variant_key g).
  by rewrite IH.
Qed.

Lemma collect_fmap_ext {A A1 A2 R : Type} (f1 : A1 → result R) (f2 : A2 → result R)
    (h1 : A → A1) (h2 : A → A2) (l : list A) :
  (∀ x, f1 (h1 x) = f2 (h2 x)) → collect f1 (h1 <$> l) = collect f2 (h2 <$> l).
Proof.
  intros Hext. induction l as [|x l IH]; [done|].
  rewrite !fmap_cons.
  unfold collect; fold (collect f1 (h1 <$> l)); fold (collect f2 (h2 <$> l)).
  by rewrite Hext, IH.
Qed.

Lemma variant_type_without_option3 (first_row : Series) (col : string) :
  col ≠ "Option3 Name" → col ≠ "Option3 Value" →
  variant_type (without_option3 first_row) col = variant_type first_row col.
Proof. intros H1 H2. unfold variant_type. by rewrite present_without_option3. Qed.

Lemma handle_rows_without_option3 cols handle (group_df : list Series) :
  handle_rows cols (handle, without_option3 <$> group_df)
  = handle_rows cols (handle, group_df).
Proof.
  unfold handle_rows. destruct group_df as [|first_row rest]; [done|].
  rewrite fmap_cons. rewrite <- (fmap_cons without_option3 first_row rest).
  assert (Hsimple : simple_rows cols handle (without_option3 <$> first_row :: rest)
                    = simple_rows cols handle (first_row :: rest)).
  { unfold simple_rows.
    by rewrite simple_merge_without_option3, common_info_without_option3,
      image_urls_without_option3, handle_status_without_option3. }
  unfold is_simple_product. rewrite present_without_option3 by done.
  fold (is_simple_product first_row).
  destruct (is_simple_product first_row); [done|].
  rewrite !variant_combinations_spec, variant_keys_without_option3.
  destruct (variant_keys (first_row :: rest)) as [|key keys] eqn:Hkeys; [done|].
  change (collect (variant_row cols handle (without_option3 <$> first_row :: rest)
                     (without_option3 first_row))
            ((λ key0, (key0, bucket_for key0 (without_option3 <$> first_row :: rest)))
               <$> key :: keys)
          = collect (variant_row cols handle (first_row :: rest) first_row)
              ((λ key0, (key0, bucket_for key0 (first_row :: rest))) <$> key :: keys)).
  apply collect_fmap_ext. intros k. unfold variant_row. cbn [snd].
  rewrite bucket_for_without_option3. cbn [variant_rows Option1_Value Option2_Value].
  by rewrite variant_merge_without_option3, common_info_without_option3,
    image_urls_without_option3, handle_status_without_option3,
    !variant_type_without_option3.
Qed.

Lemma handle_groups_without_option3 (source_df : DataFrame) :
  handle_groups (mkDataFrame (columns source_df) (without_option3 <$> rows source_df))
  = (λ hg : value * list Series, (hg.1, without_option3 <$> hg.2))
      <$> handle_groups source_df.
Proof.
  unfold handle_groups. simpl.
  by rewrite fill_handles_without_option3, groupby_without_option3.
Qed.

Lemma convert_frame_without_option3 (source_df : DataFrame) :
  convert_frame (mkDataFrame (columns source_df) (without_option3 <$> rows source_df))
  = convert_frame source_df.
Proof.
  rewrite !convert_frame_unfold. cbn [columns].
  destruct (bool_decide ("Handle" ∈ columns source_df)); [|done].
  rewrite handle_groups_without_option3.
  rewrite (collect_fmap_ext _ (handle_rows (columns source_df)) _ id
             (handle_groups source_df)).
  - by rewrite list_fmap_id.
  - intros [h g]. apply handle_rows_without_option3.
Qed.

Lemma Forall2_same_but_option3 (rs1 rs2 : list Series) :
  Forall2 same_but_option3 rs1 rs2
  ↔ without_option3 <$> rs1 = without_option3 <$> rs2.
Proof.
  split.
  - induction 1 as [|r1 r2 rs1 rs2 Hsame _ IH]; [done|].
    rewrite !fmap_cons, IH. f_equal. by apply same_but_option3_erase.
  - revert rs2. induction rs1 as [|r1 rs1 IH]; intros [|r2 rs2] Heq; try done.
    rewrite !fmap_cons in Heq. injection Heq as Hr Hrs.
    constructor; [by apply same_but_option3_erase | by apply IH].
Qed.

(** *** C9 *)

(** C9. Two frames with the same columns whose rows agree, row by row, on
    every column other than "Option3 Name" and "Option3 Value" are converted
    to the same result: the same table, or the same exception. *)
Theorem option3_never_matters (df1 df2 : DataFrame) :
  columns df1 = columns df2 →
  Forall2 same_but_option3 (rows df1) (rows df2) →
  shopify_to_ikas_converter (Loaded df1) = shopify_to_ikas_converter (Loaded df2).
Proof.
  intros Hcols Hrows. simpl.
  rewrite <- (convert_frame_without_option3 df1), <- (convert_frame_without_option3 df2).
  rewrite Hcols. do 2 f_equal. by apply Forall2_same_but_option3.
Qed.

End Option3.

(** * Further properties of the converter *)

(** ** The rows of the table, handle by handle *)

Section Table.
Context {B : Builtins}.

#[local] Arguments collect : simpl never.
#[local] Arguments handle_rows : simpl never.

Lemma simple_rows_fields cols handle group_df ys :
  simple_rows cols handle group_df = Returned ys →
  Forall (λ r, placeholders_blank r ∧ carries_common cols handle group_df r) ys.
Proof.
  unfold simple_rows. intros (m & _ & [= <-])%bind_Returned.
  constructor; [|constructor].
  unfold placeholders_blank, carries_common, satis_kanali_of. simpl.
  by repeat split.
Qed.

Lemma variant_rows_fields cols handle group_df first_row l ys :
  collect (variant_row cols handle group_df first_row) l = Returned ys →
  Forall (λ r, placeholders_blank r ∧ carries_common cols handle group_df r
               ∧ Urun_Grup_ID r = handle
               ∧ Varyant_Tip_1 r = Str (variant_type first_row "Option1 Name")
               ∧ Varyant_Tip_2 r = Str (variant_type first_row "Option2 Name")) ys.
Proof.
  intros Hys%collect_Returned.
  induction Hys as [|kd y l ys Hy _ IH]; constructor; [|done].
  unfold variant_row in Hy. apply bind_Returned in Hy as (m & _ & [= <-]).
  unfold placeholders_blank, carries_common, satis_kanali_of. simpl.
  by repeat split.
Qed.

(** Every row a handle contributes has blank placeholders and carries the
    shared attributes of its group. *)
Lemma handle_rows_fields cols handle group_df ys :
  handle_rows cols (handle, group_df) = Returned ys →
  Forall (λ r, placeholders_blank r ∧ carries_common cols handle group_df r) ys.
Proof.
  intros (first_row & rest & -> & Hcases)%handle_rows_cases.
  destruct Hcases as [(_ & Hys)|[(_ & _ & Hys)|(_ & _ & Hys)]];
    [by apply simple_rows_fields.. |].
  apply variant_rows_fields in Hys.
  eapply Forall_impl; [exact Hys|]. by intros r (? & ? & _).
Qed.

(** X1. No row of a returned table has anything but the empty string in
    the thirteen placeholder columns (variant id, purchase price, deletion
    flag, desi, HS code, the four unit columns, the restock flag, the two
    cart limits, the variant-activity flag). *)
Theorem placeholders_always_blank (source_df : DataFrame)
    (ikas_rows : list IkasRow) (j : nat) (r : IkasRow) :
  shopify_to_ikas_converter (Loaded source_df) = Returned ikas_rows →
  ikas_rows !! j = Some r →
  placeholders_blank r.
Proof.
  intros Hret Hr. apply list_elem_of_lookup_2 in Hr.
  destruct (converter_row_origin _ _ _ Hret Hr) as (h & g & ys & _ & Hys & Hin).
  apply handle_rows_fields in Hys. rewrite Forall_forall in Hys.
  by apply Hys.
Qed.

(** X2. Every row of the table that belongs to a handle carries the shared
    attributes of the handle's group: the handle as slug, the group's title,
    description, vendor (as brand and as supplier), category, tags, SEO
    fields, type, Google category and creation date, the group's image list,
    and "VISIBLE" or the empty string by the group's status.  Hence all rows
    of one handle agree on these columns. *)
Theorem rows_carry_common_info (source_df : DataFrame) (ikas_rows : list IkasRow)
    (i : nat) (handle : value) (group_df : list Series) :
  shopify_to_ikas_converter (Loaded source_df) = Returned ikas_rows →
  handle_groups source_df !! i = Some (handle, group_df) →
  Forall (carries_common (columns source_df) handle group_df)
         (rows_of handle ikas_rows).
Proof.
  intros Hret Hgroup. apply list_elem_of_lookup_2 in Hgroup.
  pose proof (converter_rows_of _ _ _ _ Hret Hgroup) as Hrows.
  apply handle_rows_fields in Hrows.
  eapply Forall_impl; [exact Hrows|]. by intros r [_ ?].
Qed.

(** X3. The outcome of a handle, case by case: a group that is classified
    simple or has no row with a variant key owns one row with blank group id
    and blank variant-axis cells; any other group owns one row per distinct
    variant key, each with the handle as group id and with the option names
    of the group's first row as axis names. *)
Theorem handle_outcome (source_df : DataFrame) (ikas_rows : list IkasRow)
    (i : nat) (handle : value) (group_df : list Series) :
  shopify_to_ikas_converter (Loaded source_df) = Returned ikas_rows →
  handle_groups source_df !! i = Some (handle, group_df) →
  (classified_simple group_df = true ∨ variant_keys group_df = []
   → one_blank_row (rows_of handle ikas_rows))
  ∧ (classified_simple group_df = false → variant_keys group_df ≠ []
     → length (rows_of handle ikas_rows) = length (variant_keys group_df)
       ∧ Forall (variant_shape handle group_df) (rows_of handle ikas_rows)).
Proof.
  intros Hret Hgroup. apply list_elem_of_lookup_2 in Hgroup.
  pose proof (converter_rows_of _ _ _ _ Hret Hgroup) as Hrows.
  apply handle_rows_cases in Hrows as (first_row & rest & -> & Hcases).
  rewrite <- variant_combinations_length. simpl.
  destruct Hcases as [(Hs & Hys)|[(Hs & Hvc & Hys)|(Hs & Hvc & Hys)]].
  - split; [intros _; by apply simple_rows_length in Hys | congruence].
  - split; [intros _; by apply simple_rows_length in Hys|].
    intros _ Hkeys. exfalso. apply Hkeys.
    apply (f_equal length) in Hvc. rewrite variant_combinations_length in Hvc.
    by destruct (variant_keys (first_row :: rest)).
  - split.
    + intros [Hsimple|Hkeys]; [congruence|]. exfalso. apply Hvc.
      rewrite variant_combinations_spec, Hkeys. done.
    + intros _ _. split; [by eapply collect_length|].
      apply variant_rows_fields in Hys.
      eapply Forall_impl; [exact Hys|]. by intros r (_ & _ & ? & ? & ?).
Qed.

End Table.

(** ** Forward fill and grouping *)

Section FillAndGroup.
Context {B : Builtins}.

#[local] Arguments collect : simpl never.
#[local] Arguments handle_rows : simpl never.

Lemma ffill_length (last : option value) (vs : list value) :
  length (ffill last vs) = length vs.
Proof.
  revert last. induction vs as [|v vs IH]; intros last; simpl; [done|].
  destruct (notna v); simpl; by rewrite IH.
Qed.

Lemma ffill_lookup (last : option value) (vs : list value) (i : nat) (h : value) :
  ffill last vs !! i = Some h →
  (∃ j, (j ≤ i)%nat ∧ vs !! j = Some h ∧ notna h = true
        ∧ ∀ k v', (j < k ≤ i)%nat → vs !! k = Some v' → notna v' = false)
  ∨ ((∀ k v', (k ≤ i)%nat → vs !! k = Some v' → notna v' = false)
     ∧ ∃ v, vs !! i = Some v ∧ h = default v last).
Proof.
  revert last i. induction vs as [|v vs IH]; intros last i; simpl; [done|].
  destruct (notna v) eqn:Hv.
  - destruct i as [|i]; simpl.
    + intros [= <-]. left. exists 0%nat. repeat split; [done..|]. intros k v' Hk. lia.
    + intros Hi. destruct (IH _ _ Hi) as [(j & Hj & Hvj & Hna & Hbetween)
                                         |(Hall & w & Hw & ->)].
      * left. exists (S j). repeat split; [lia | done | done |].
        intros [|k] v' Hk Hv'; [lia|]. apply (Hbetween k); [lia | done].
      * left. exists 0%nat. simpl. repeat split; [lia | done |].
        intros [|k] v' Hk Hv'; [lia|]. simpl in Hv'. apply (Hall k); [lia | done].
  - destruct i as [|i]; simpl.
    + intros [= <-]. right. split.
      * intros [|k] v' Hk Hv'; [|lia]. simpl in Hv'. congruence.
      * by exists v.
    + intros Hi. destruct (IH _ _ Hi) as [(j & Hj & Hvj & Hna & Hbetween)
                                         |(Hall & w & Hw & ->)].
      * left. exists (S j). repeat split; [lia | done | done |].
        intros [|k] v' Hk Hv'; [lia|]. apply (Hbetween k); [lia | done].
      * right. split; [|by exists w].
        intros [|k] v' Hk Hv'; simpl in Hv'; [congruence|].
        apply (Hall k); [lia | done].
Qed.

Lemma fill_handles_length (rs : list Series) :
  length (fill_handles rs) = length rs.
Proof.
  unfold fill_handles. rewrite length_zip_with, ffill_length, length_fmap. lia.
Qed.

Lemma fill_handles_lookup (rs : list Series) (i : nat) (row' : Series) :
  fill_handles rs !! i = Some row' →
  ∃ row h, rs !! i = Some row
           ∧ ffill None ((λ r, cell r "Handle") <$> rs) !! i = Some h
           ∧ row' = <["Handle" := h]> row.
Proof.
  unfold fill_handles. rewrite lookup_zip_with.
  destruct (ffill None ((λ r, cell r "Handle") <$> rs) !! i) as [h|]; [|done].
  simpl. destruct (rs !! i) as [row|]; [|done]. simpl.
  intros [= <-]. eauto.
Qed.

(** X4. The forward fill (line 135) keeps the number of rows and every cell
    outside the Handle column, and gives each row the handle of the nearest
    row at or above it whose handle is not missing; a row with no such row
    above it keeps a missing handle. *)
Theorem forward_fill_nearest (rs : list Series) (i : nat) (row' : Series) :
  fill_handles rs !! i = Some row' →
  length (fill_handles rs) = length rs
  ∧ ∃ row, rs !! i = Some row
           ∧ nearest_handle rs i (cell row' "Handle")
           ∧ ∀ col, col ≠ "Handle" → row' !! col = row !! col.
Proof.
  intros Hi. split; [apply fill_handles_length|].
  apply fill_handles_lookup in Hi as (row & h & Hrow & Hh & ->).
  exists row. split; [done|]. split; [|by intros col Hcol; rewrite lookup_insert_ne].
  unfold cell at 1. rewrite lookup_insert_eq. simpl.
  apply ffill_lookup in Hh as [(j & Hj & Hvj & Hna & Hbetween)|(Hall & v & Hv & ->)].
  - left. rewrite list_lookup_fmap in Hvj.
    destruct (rs !! j) as [rowj|] eqn:Hrowj; [|done]. injection Hvj as <-.
    exists j, rowj. repeat split; [done..|].
    intros k rowk Hk Hrowk. apply (Hbetween k); [done|].
    by rewrite list_lookup_fmap, Hrowk.
  - right. simpl. split.
    + apply (Hall i); [lia|done].
    + intros k rowk Hk Hrowk. apply (Hall k); [done|].
      by rewrite list_lookup_fmap, Hrowk.
Qed.

(** X5. Grouping (line 139) puts every row whose filled handle is not
    missing into exactly one group, the group of its handle, and leaves the
    rows whose handle is still missing (those above the first handle of the
    file) out of every group; a group holds the rows of its handle in file
    order. *)
Theorem rows_are_grouped_by_handle (source_df : DataFrame) (row : Series) :
  ((∃ handle group_df, (handle, group_df) ∈ handle_groups source_df ∧ row ∈ group_df)
   ↔ row ∈ fill_handles (rows source_df) ∧ notna (cell row "Handle") = true)
  ∧ (∀ handle group_df,
       (handle, group_df) ∈ handle_groups source_df →
       group_df = filter (λ r, cell r "Handle" = handle)
                         (fill_handles (rows source_df))
       ∧ (row ∈ group_df → cell row "Handle" = handle))
  ∧ NoDup (handle_groups source_df).*1.
Proof.
  unfold handle_groups. split; [|split].
  - split.
    + intros (h & g & Hg & Hrow).
      apply elem_of_groupby in Hg as (-> & Hna & _).
      apply list_elem_of_filter in Hrow as [<- Hrow]. done.
    + intros [Hrow Hna].
      exists (cell row "Handle"),
             (filter (λ r, cell r "Handle" = cell row "Handle")
                     (fill_handles (rows source_df))).
      split.
      * apply elem_of_groupby. split; [reflexivity|]. split; [done|]. eauto.
      * by apply list_elem_of_filter.
  - intros h g Hg. split.
    + by apply elem_of_groupby in Hg as (-> & _).
    + intros Hrow. by eapply groupby_handle.
  - apply NoDup_groupby.
Qed.

Lemma filter_all {A : Type} (P : A → Prop) `{∀ x, Decision (P x)} (l : list A) :
  Forall P l → filter P l = l.
Proof.
  induction 1 as [|x l Hx _ IH]; [done|]. by rewrite filter_cons_True, IH.
Qed.

Lemma first_occurrences_repeat {A : Type} `{EqDecision A} (x : A) (l l' : list A) :
  Forall (λ y, y = x) l → x ∉ l' →
  first_occurrences (x :: l ++ l') = x :: first_occurrences l'.
Proof.
  intros Hall Hx. induction Hall as [|y l -> _ IH].
  - simpl. f_equal. apply filter_all, Forall_forall.
    intros y Hy Heq. apply Hx. rewrite <- Heq.
    by rewrite elem_of_first_occurrences in Hy.
  - change (first_occurrences (x :: (x :: l) ++ l'))
      with (x :: filter (λ y, y ≠ x) (first_occurrences (x :: l ++ l'))).
    rewrite IH. rewrite filter_cons_False by (intros Hne; by apply Hne).
    f_equal. apply filter_all, Forall_forall.
    intros y Hy Heq. apply Hx. rewrite <- Heq.
    by rewrite elem_of_first_occurrences in Hy.
Qed.

Lemma slugs_of_concat cols (groups : list (value * list Series)) yss :
  NoDup groups.*1 →
  Forall2 (λ hg ys, handle_rows cols hg = Returned ys) groups yss →
  first_occurrences (Slug <$> concat yss) = groups.*1.
Proof.
  intros Hnd Hall. revert Hnd.
  induction Hall as [|[h g] ys groups yss Hys Hall IH]; intros Hnd; [done|].
  rewrite fmap_cons in Hnd. apply NoDup_cons in Hnd as [Hnotin Hnd].
  simpl. rewrite fmap_app.
  pose proof (handle_rows_slug _ _ _ _ Hys) as Hslug.
  destruct (handle_rows_count _ _ _ _ Hys) as (Hlen & _).
  destruct ys as [|r ys]; [simpl in Hlen; lia|].
  apply Forall_cons_1 in Hslug as [Hr Hslug].
  rewrite fmap_cons, Hr, <- app_comm_cons.
  rewrite first_occurrences_repeat.
  - by rewrite IH.
  - by apply Forall_fmap.
  - intros Hin. apply Hnotin. rewrite <- IH by done.
    by apply elem_of_first_occurrences.
Qed.

(** X6. The table lists the handles in the order in which they first
    appear in the file: the slugs of the returned rows, read top to bottom
    with repetitions dropped, are the handles of the groups in order. *)
Theorem handles_keep_file_order (source_df : DataFrame) (ikas_rows : list IkasRow) :
  shopify_to_ikas_converter (Loaded source_df) = Returned ikas_rows →
  first_occurrences (Slug <$> ikas_rows)
  = first_occurrences
      (filter (λ v, notna v = true)
              ((λ row, cell row "Handle") <$> fill_handles (rows source_df))).
Proof.
  simpl. rewrite convert_frame_unfold. destruct (bool_decide _); [|done].
  intros (yss & Hyss & [= <-])%bind_Returned.
  apply collect_Returned in Hyss.
  rewrite (slugs_of_concat _ _ _ (NoDup_groupby _) Hyss).
  apply groupby_keys.
Qed.

Lemma length_first_occurrences_le {A : Type} `{EqDecision A} (l : list A) :
  (length (first_occurrences l) ≤ length l)%nat.
Proof.
  induction l as [|x l IH]; simpl; [done|].
  pose proof (length_filter (λ y, y ≠ x) (first_occurrences l)). lia.
Qed.

Lemma length_omap_le {A R : Type} (f : A → option R) (l : list A) :
  (length (omap f l) ≤ length l)%nat.
Proof.
  induction l as [|x l IH]; [done|].
  change (omap f (x :: l))
    with (match f x with Some y => y :: omap f l | None => omap f l end).
  destruct (f x); simpl; lia.
Qed.

Lemma handle_rows_bound cols handle group_df ys :
  handle_rows cols (handle, group_df) = Returned ys →
  (length ys ≤ length group_df)%nat.
Proof.
  intros (first_row & rest & -> & Hcases)%handle_rows_cases.
  destruct Hcases as [(_ & Hys)|[(_ & _ & Hys)|(_ & _ & Hys)]].
  - apply simple_rows_length in Hys as (r & -> & _). simpl. lia.
  - apply simple_rows_length in Hys as (r & -> & _). simpl. lia.
  - apply collect_length in Hys. rewrite Hys, variant_combinations_length.
    unfold variant_keys.
    pose proof (length_first_occurrences_le (omap variant_key (first_row :: rest))).
    pose proof (length_omap_le variant_key (first_row :: rest)). lia.
Qed.

Lemma groups_total_length (rs : list Series) (hs : list value) :
  NoDup hs →
  (length (concat ((λ h, filter (λ row, cell row "Handle" = h) rs) <$> hs))
   ≤ length rs)%nat.
Proof.
  intros Hnd. induction rs as [|row rs IH]; simpl.
  - induction hs as [|h hs IHh]; simpl; [done|].
    apply NoDup_cons in Hnd as [_ Hnd]. by apply IHh.
  - assert (Hstep : ∀ hs', NoDup hs' →
      (length (concat ((λ h, filter (λ r, cell r "Handle" = h) (row :: rs)) <$> hs'))
       ≤ (if decide (cell row "Handle" ∈ hs') then 1 else 0)
         + length (concat ((λ h, filter (λ r, cell r "Handle" = h) rs) <$> hs')))%nat).
    { clear. intros hs' Hnd'. induction hs' as [|h hs' IHh]; [simpl; lia|].
      apply NoDup_cons in Hnd' as [Hh Hnd']. specialize (IHh Hnd').
      rewrite !fmap_cons. cbn [concat].
      rewrite !length_app, filter_cons.
      destruct (decide (cell row "Handle" = h)) as [Heq|Hne]; simpl.
      - rewrite decide_True by (rewrite Heq; by left).
        rewrite decide_False in IHh by (by rewrite Heq). lia.
      - destruct (decide (cell row "Handle" ∈ hs')) as [Hin|Hn].
        + rewrite decide_True by (by right). lia.
        + rewrite decide_False by (intros [?|?]%elem_of_cons; done). lia. }
    specialize (Hstep hs Hnd). destruct (decide _); lia.
Qed.

Lemma concat_bound cols (rs : list Series) (groups : list (value * list Series)) yss :
  Forall (λ hg : value * list Series,
            hg.2 = filter (λ row, cell row "Handle" = hg.1) rs) groups →
  Forall2 (λ hg ys, handle_rows cols hg = Returned ys) groups yss →
  (length (concat yss)
   ≤ length (concat ((λ h, filter (λ row, cell row "Handle" = h) rs) <$> groups.*1)))%nat.
Proof.
  intros Hgroups Hyss. revert Hgroups.
  induction Hyss as [|[h g] ys groups yss Hys _ IH]; intros Hgroups; [done|].
  apply Forall_cons_1 in Hgroups as [Hg Hgroups]. simpl in Hg.
  rewrite !fmap_cons. cbn [concat fst]. rewrite !length_app.
  specialize (IH Hgroups). apply handle_rows_bound in Hys. subst g. lia.
Qed.

(** X7. The converter never adds rows: the table has at most as many rows
    as the file, and each handle at most as many as its group. *)
Theorem never_more_rows_than_input (source_df : DataFrame) (ikas_rows : list IkasRow) :
  shopify_to_ikas_converter (Loaded source_df) = Returned ikas_rows →
  (length ikas_rows ≤ length (rows source_df))%nat
  ∧ ∀ handle group_df, (handle, group_df) ∈ handle_groups source_df →
      (length (rows_of handle ikas_rows) ≤ length group_df)%nat.
Proof.
  intros Hret. split.
  - revert Hret. simpl. rewrite convert_frame_unfold. destruct (bool_decide _); [|done].
    intros (yss & Hyss & [= <-])%bind_Returned.
    apply collect_Returned in Hyss.
    rewrite <- (fill_handles_length (rows source_df)).
    etrans; [|apply (groups_total_length (fill_handles (rows source_df))
                       (handle_groups source_df).*1), NoDup_groupby].
    eapply concat_bound; [|exact Hyss].
    apply Forall_forall. intros [h g] Hg. simpl.
    by apply elem_of_groupby in Hg as (-> & _).
  - intros handle group_df Hg.
    by apply (handle_rows_bound (columns source_df) handle), converter_rows_of.
Qed.

Lemma ffill_all_missing (vs : list value) :
  Forall (λ v, notna v = false) vs → ffill None vs = vs.
Proof.
  induction 1 as [|v vs Hv _ IH]; simpl; [done|]. by rewrite Hv, IH.
Qed.

(** X8. A frame with a Handle column in which no row has a handle (in
    particular a frame without rows) is converted to the empty table. *)
Theorem no_handles_no_rows (source_df : DataFrame) :
  "Handle" ∈ columns source_df →
  Forall (λ row, notna (cell row "Handle") = false) (rows source_df) →
  shopify_to_ikas_converter (Loaded source_df) = Returned [].
Proof.
  intros Hcol Hmissing. simpl. rewrite convert_frame_unfold.
  rewrite bool_decide_eq_true_2 by done.
  assert (Hnone : handle_groups source_df = []).
  { unfold handle_groups, groupby.
    assert (Hvs : filter (λ v, notna v = true)
                    ((λ row, cell row "Handle") <$> fill_handles (rows source_df)) = []).
    { unfold fill_handles. rewrite ffill_all_missing by (by apply Forall_fmap).
      induction Hmissing as [|row rs Hrow _ IH]; [done|].
      simpl. rewrite filter_cons_False; [done|].
      unfold cell at 1. rewrite lookup_insert_eq. simpl. by rewrite Hrow. }
    by rewrite Hvs. }
  by rewrite Hnone.
Qed.

End FillAndGroup.

(** ** The merge loops, field by field *)

Section Fieldwise.
Context {B : Builtins}.

Lemma foldl_settled {A : Type} (unset : A → bool) (step : A → Series → A)
    (rs : list Series) (a : A) :
  (∀ a row, unset a = false → step a row = a) →
  unset a = false → foldl step a rs = a.
Proof.
  intros Hkeep Ha. induction rs as [|row rs IH]; simpl; [done|].
  by rewrite Hkeep.
Qed.

(** A loop that keeps a value once it is set and otherwise takes what the
    row offers ends with the first value offered. *)
Lemma foldl_first_of {A : Type} (unset : A → bool) (absent : A)
    (pick : Series → option A) (step : A → Series → A) (rs : list Series) :
  unset absent = true →
  (∀ a row, unset a = false → step a row = a) →
  (∀ row, step absent row = default absent (pick row)) →
  (∀ row x, pick row = Some x → unset x = false) →
  foldl step absent rs = first_of pick absent rs.
Proof.
  intros Habsent Hkeep Htake Hset. unfold first_of.
  induction rs as [|row rs IH]; [done|].
  change (omap pick (row :: rs))
    with (match pick row with Some y => y :: omap pick rs | None => omap pick rs end).
  simpl. rewrite Htake. destruct (pick row) as [x|] eqn:Hx; simpl; [|done].
  apply (foldl_settled unset); [done|]. by eapply Hset.
Qed.

Lemma merge_rest_fields (m m' : Merged) (sku : string) (row : Series) :
  merge_rest m sku row = Returned m' →
  variant_sku m' = sku
  ∧ barcode m' = take_barcode row (barcode m)
  ∧ sale_price m' = take_sale_price row (sale_price m)
  ∧ discounted_price m' = take_discounted_price row (discounted_price m)
  ∧ stock_qty m' = stock_step (stock_qty m) row.
Proof.
  unfold merge_rest, stock_step. intros (q & Hq & [= <-])%bind_Returned.
  by rewrite Hq.
Qed.

(** Each local of a loop whose body is [merge_rest] after the SKU evolves
    on its own. *)
Lemma merge_loop_fields (text : string → string)
    (body : Merged → Series → result Merged) (rs : list Series) (m m' : Merged) :
  (∀ m row, row ∈ rs →
            body m row = merge_rest m (sku_step text (variant_sku m) row) row) →
  for_each body m rs = Returned m' →
  variant_sku m' = foldl (sku_step text) (variant_sku m) rs
  ∧ barcode m' = foldl (λ b row, take_barcode row b) (barcode m) rs
  ∧ sale_price m' = foldl (λ p row, take_sale_price row p) (sale_price m) rs
  ∧ discounted_price m'
    = foldl (λ p row, take_discounted_price row p) (discounted_price m) rs
  ∧ stock_qty m' = foldl stock_step (stock_qty m) rs.
Proof.
  revert m. induction rs as [|row rs IH]; intros m Hbody; simpl.
  - by intros [= <-].
  - intros (m1 & Hm1 & Hrest)%bind_Returned.
    rewrite Hbody in Hm1 by left.
    apply merge_rest_fields in Hm1 as (<- & <- & <- & <- & <-).
    apply IH; [|done]. intros m2 row2 Hrow2. apply Hbody. by right.
Qed.

Lemma fields_first_of (text : string → string) (rs : list Series) :
  foldl (sku_step text) "" rs
  = first_of (λ row, match present row "Variant SKU" with
                     | Some v => if nonempty (text (py_str v))
                                 then Some (text (py_str v)) else None
                     | None => None
                     end) "" rs
  ∧ foldl (λ b row, take_barcode row b) "" rs = first_of barcode_of "" rs
  ∧ foldl (λ p row, take_sale_price row p) (Finite 0) rs
    = first_of price_of (Finite 0) rs
  ∧ foldl (λ p row, take_discounted_price row p) (Finite 0) rs
    = first_of discounted_of (Finite 0) rs
  ∧ foldl stock_step 0%Z rs = first_of stock_of 0%Z rs.
Proof.
  split; [|split; [|split; [|split]]].
  - apply (foldl_first_of (λ s, negb (nonempty s))); [done | | |].
    + intros a row Ha. unfold sku_step. by rewrite Ha.
    + intros row. unfold sku_step. simpl.
      destruct (present row "Variant SKU") as [v|]; [|done].
      destruct (nonempty (text (py_str v))) eqn:Hv; [done|].
      by apply nonempty_false in Hv.
    + intros row x. destruct (present row "Variant SKU") as [v|]; [|done].
      destruct (nonempty (text (py_str v))) eqn:Hv; [|done].
      intros [= <-]. by rewrite Hv.
  - apply (foldl_first_of (λ s, negb (nonempty s))); [done | | |].
    + intros a row Ha. unfold take_barcode.
      apply negb_false_iff in Ha. by rewrite Ha.
    + intros row. unfold take_barcode, barcode_of. simpl.
      destruct (present row "Variant Barcode") as [v|].
      * destruct (nonempty (py_str v)) eqn:Hv; [done|]. by apply nonempty_false in Hv.
      * destruct (present row "Barcode") as [v|]; [|done].
        destruct (nonempty (py_str v)) eqn:Hv; [done|]. by apply nonempty_false in Hv.
    + intros row x. unfold barcode_of.
      destruct (nonempty _) eqn:Hv; [|done]. intros [= <-]. by rewrite Hv.
  - apply (foldl_first_of float_is_zero); [done | | |].
    + intros a row Ha. unfold take_sale_price. by rewrite Ha.
    + intros row. unfold take_sale_price, price_of.
      change (float_is_zero (Finite 0)) with true. cbv iota.
      destruct (present row "Variant Price") as [v|]; [|done].
      destruct (py_float v) as [x|]; [|done]. simpl.
      destruct (float_is_zero x) eqn:Hx; [by apply float_is_zero_eq | done].
    + intros row x. unfold price_of.
      destruct (present row "Variant Price") as [v|]; [|done].
      destruct (py_float v) as [y|]; [|done].
      destruct (float_is_zero y) eqn:Hy; [done|]. by intros [= <-].
  - apply (foldl_first_of float_is_zero); [done | | |].
    + intros a row Ha. unfold take_discounted_price. by rewrite Ha.
    + intros row. unfold take_discounted_price, discounted_of.
      change (float_is_zero (Finite 0)) with true. cbv iota.
      destruct (compare_price row) as [v|]; [|done].
      destruct (py_float v) as [x|]; [|done]. simpl.
      destruct (float_is_zero x) eqn:Hx; [by apply float_is_zero_eq | done].
    + intros row x. unfold discounted_of.
      destruct (compare_price row) as [v|]; [|done].
      destruct (py_float v) as [y|]; [|done].
      destruct (float_is_zero y) eqn:Hy; [done|]. by intros [= <-].
  - apply (foldl_first_of (λ q, bool_decide (q = 0%Z))); [done | | |].
    + intros a row Ha. unfold stock_step, take_stock_qty. by rewrite Ha.
    + intros row. unfold stock_step, take_stock_qty, stock_of. simpl.
      destruct (present row "Variant Inventory Qty") as [v|]; [|done].
      destruct (py_int v) as [[z|]|e]; simpl; try done.
      case_bool_decide; [by subst | done].
    + intros row x. unfold stock_of.
      destruct (present row "Variant Inventory Qty") as [v|]; [|done].
      destruct (py_int v) as [[z|]|e]; try done.
      case_bool_decide as Hz; [done|]. intros [= <-].
      by apply bool_decide_eq_false.
Qed.

(** X9. When the loop of a simple product (lines 252-284, and its copy at
    lines 451-479) returns, each of its five results is resolved on its own
    as the first value over the rows of the group, in order: the first SKU
    cell with non-empty text, the first non-empty barcode (variant barcode
    before legacy barcode within a row), the first variant price, the first
    compare-at price and the first stock quantity that parse to a number
    other than zero; an absent text is "" and an absent number is zero. *)
Theorem simple_merge_fieldwise (group_df : list Series) (m : Merged) :
  simple_merge group_df = Returned m →
  merged_fieldwise sku_of group_df m.
Proof.
  intros Hm. apply (merge_loop_fields (λ s, s)) in Hm; [|done].
  destruct (fields_first_of (λ s, s) group_df) as (H1 & H2 & H3 & H4 & H5).
  unfold merged_fieldwise.
  destruct Hm as (-> & -> & -> & -> & ->). simpl.
  by rewrite H1, H2, H3, H4, H5.
Qed.

(** X10. The loop of a variant bucket (lines 539-578) resolves its five
    results in the same way, the SKU as trimmed text, provided no member row
    has a SKU cell whose text strips to nothing. *)
Theorem variant_merge_fieldwise (member_rows : list Series) (m : Merged) :
  Forall (λ row, ¬ blank_sku_cell row) member_rows →
  variant_merge member_rows = Returned m →
  merged_fieldwise stripped_sku_of member_rows m.
Proof.
  intros Hblank Hm. rewrite Forall_forall in Hblank.
  apply (merge_loop_fields strip) in Hm.
  - destruct (fields_first_of strip member_rows) as (H1 & H2 & H3 & H4 & H5).
    unfold merged_fieldwise.
    destruct Hm as (-> & -> & -> & -> & ->). simpl.
    by rewrite H1, H2, H3, H4, H5.
  - intros s row Hrow. unfold variant_merge_row, sku_step.
    destruct (negb (nonempty (variant_sku s))); [|done].
    destruct (present row "Variant SKU") as [v|] eqn:Hv; [|done].
    destruct (nonempty (strip (py_str v))) eqn:Hne; [done|].
    exfalso. apply (Hblank row Hrow). exists v. split; [done|].
    by apply nonempty_false.
Qed.

End Fieldwise.

(** ** The merged cells of the table *)

Section TableCells.
Context {B : Builtins}.

#[local] Arguments collect : simpl never.

Lemma simple_rows_cells cols handle group_df ys :
  simple_rows cols handle group_df = Returned ys →
  Forall (cells_resolved sku_of group_df) ys.
Proof.
  unfold simple_rows. intros (m & Hm & [= <-])%bind_Returned.
  apply (merge_loop_fields (λ s, s)) in Hm; [|done].
  destruct (fields_first_of (λ s, s) group_df) as (H1 & H2 & H3 & H4 & H5).
  destruct Hm as (Hm1 & Hm2 & Hm3 & Hm4 & Hm5). simpl in *.
  constructor; [|done]. unfold cells_resolved. simpl.
  by rewrite Hm1, Hm2, Hm3, Hm4, Hm5, H1, H2, H3, H4, H5.
Qed.

Lemma variant_row_cells cols handle group_df first_row kd r :
  Forall (λ row, ¬ blank_sku_cell row) (variant_rows kd.2) →
  variant_row cols handle group_df first_row kd = Returned r →
  cells_resolved stripped_sku_of (variant_rows kd.2) r.
Proof.
  intros Hblank. rewrite Forall_forall in Hblank.
  unfold variant_row. intros (m & Hm & [= <-])%bind_Returned.
  apply (merge_loop_fields strip) in Hm.
  - destruct (fields_first_of strip (variant_rows kd.2)) as (H1 & H2 & H3 & H4 & H5).
    destruct Hm as (Hm1 & Hm2 & Hm3 & Hm4 & Hm5). simpl in *.
    unfold cells_resolved. simpl.
    by rewrite Hm1, Hm2, Hm3, Hm4, Hm5, H1, H2, H3, H4, H5.
  - intros s row Hrow. unfold variant_merge_row, sku_step.
    destruct (negb (nonempty (variant_sku s))); [|done].
    destruct (present row "Variant SKU") as [v|] eqn:Hv; [|done].
    destruct (nonempty (strip (py_str v))) eqn:Hne; [done|].
    exfalso. apply (Hblank row Hrow). exists v. split; [done|].
    by apply nonempty_false.
Qed.

(** X11. The SKU, barcode, price, discounted-price and stock cells of the
    table.  The one row of a handle that is classified simple, or has no row
    with a variant key, shows in each of them the first value of its kind
    over all rows of the group.  A handle with variants has its rows in the
    order in which the keys first appear, and the row of a key shows in each
    of the five cells the first value of its kind over the rows of the group
    with that key alone, provided no row of the group has a SKU cell whose
    text strips to nothing. *)
Theorem table_cells_resolved (source_df : DataFrame) (ikas_rows : list IkasRow)
    (i : nat) (handle : value) (group_df : list Series) :
  shopify_to_ikas_converter (Loaded source_df) = Returned ikas_rows →
  handle_groups source_df !! i = Some (handle, group_df) →
  (classified_simple group_df = true ∨ variant_keys group_df = []
   → Forall (cells_resolved sku_of group_df) (rows_of handle ikas_rows))
  ∧ (classified_simple group_df = false → variant_keys group_df ≠ []
     → Forall (λ row, ¬ blank_sku_cell row) group_df
     → Forall2 (λ key r,
                  cells_resolved stripped_sku_of (rows_with_key key group_df) r)
               (variant_keys group_df) (rows_of handle ikas_rows)).
Proof.
  intros Hret Hgroup. apply list_elem_of_lookup_2 in Hgroup.
  pose proof (converter_rows_of _ _ _ _ Hret Hgroup) as Hrows.
  apply handle_rows_cases in Hrows as (first_row & rest & -> & Hcases).
  simpl.
  destruct Hcases as [(Hs & Hys)|[(Hs & Hvc & Hys)|(Hs & Hvc & Hys)]].
  - split; [intros _; by apply simple_rows_cells in Hys | congruence].
  - split; [intros _; by apply simple_rows_cells in Hys|].
    intros _ Hkeys. exfalso. apply Hkeys.
    apply (f_equal length) in Hvc. rewrite variant_combinations_length in Hvc.
    by destruct (variant_keys (first_row :: rest)).
  - split.
    + intros [Hsimple|Hkeys]; [congruence|]. exfalso. apply Hvc.
      rewrite variant_combinations_spec, Hkeys. done.
    + intros _ _ Hblank. rewrite Forall_forall in Hblank.
      rewrite variant_combinations_spec in Hys. apply collect_Returned in Hys.
      apply Forall2_fmap_l in Hys.
      eapply Forall2_impl; [exact Hys|]. intros key r Hr. simpl in Hr.
      apply variant_row_cells in Hr; [done|].
      apply Forall_forall. intros row [_ Hrow]%list_elem_of_filter.
      by apply Hblank.
Qed.

End TableCells.

(** ** Visibility, images and buckets *)

Section Aggregates.
Context {B : Builtins}.

Lemma first_non_missing_unique (group_df : list Series) (col : string) (v w : value) :
  first_non_missing group_df col v → first_non_missing group_df col w → v = w.
Proof.
  intros (i & ri & Hi & <- & Hvi & Hbi) (j & rj & Hj & <- & Hvj & Hbj).
  destruct (lt_eq_lt_dec i j) as [[Hlt| ->]|Hlt].
  - rewrite (Hbj i ri Hlt Hi) in Hvi. done.
  - congruence.
  - rewrite (Hbi j rj Hlt Hj) in Hvj. done.
Qed.

Lemma first_valid_has_data cols (group_df : list Series) (col : string) (v : value) :
  has_data cols group_df col → first_non_missing group_df col v →
  first_valid cols group_df col = Some v.
Proof.
  intros Hdata Hfirst.
  destruct (first_valid cols group_df col) as [w|] eqn:Hw.
  - apply first_valid_Some in Hw as [_ Hw].
    f_equal. by eapply first_non_missing_unique.
  - by apply first_valid_None in Hw.
Qed.

Lemma handle_status_in_words cols (group_df : list Series) :
  group_handle_status cols group_df = true ↔ visible_in_words cols group_df.
Proof.
  unfold group_handle_status, status_value, visible_in_words. split.
  - destruct (first_valid cols group_df "Status") as [v|] eqn:Hs.
    + apply first_valid_Some in Hs as [Hdata Hfirst].
      destruct (nonempty _); [|done]. intros Hactive%bool_decide_eq_true.
      left. by exists v.
    + apply first_valid_None in Hs.
      destruct (first_valid cols group_df "Published") as [v|] eqn:Hp; [|done].
      apply first_valid_Some in Hp as [Hdata Hfirst].
      case_bool_decide as Hin; [|done]. intros _. right. split; [done|].
      by exists v.
  - intros [(v & Hdata & Hfirst & Hactive)|(Hno & v & Hdata & Hfirst & Hin)].
    + rewrite (first_valid_has_data _ _ _ _ Hdata Hfirst), Hactive. done.
    + destruct (first_valid cols group_df "Status") as [w|] eqn:Hs.
      * by apply first_valid_Some in Hs as [? _].
      * rewrite (first_valid_has_data _ _ _ _ Hdata Hfirst).
        by rewrite bool_decide_eq_true_2.
Qed.

(** X12. Every row of the table that belongs to a handle has "VISIBLE" in
    the sales-channel column when the handle is visible and the empty string
    otherwise, where a handle is visible when the first status cell of its
    group that is not missing reads "ACTIVE", or when the group has no
    status cell and its first published cell reads TRUE, 1 or YES.  A status
    cell, whatever it says, takes precedence over the published flag. *)
Theorem sales_channel_follows_status (source_df : DataFrame)
    (ikas_rows : list IkasRow) (i : nat) (handle : value) (group_df : list Series) :
  shopify_to_ikas_converter (Loaded source_df) = Returned ikas_rows →
  handle_groups source_df !! i = Some (handle, group_df) →
  (visible_in_words (columns source_df) group_df
   → Forall (λ r, Satis_Kanali_belix r = Str "VISIBLE") (rows_of handle ikas_rows))
  ∧ (¬ visible_in_words (columns source_df) group_df
     → Forall (λ r, Satis_Kanali_belix r = Str "") (rows_of handle ikas_rows)).
Proof.
  intros Hret Hgroup. apply list_elem_of_lookup_2 in Hgroup.
  pose proof (converter_rows_of _ _ _ _ Hret Hgroup) as Hrows.
  apply handle_rows_fields in Hrows.
  rewrite <- handle_status_in_words.
  split; intros Hvisible; (eapply Forall_impl; [exact Hrows|]);
    intros r [_ Hcommon]; unfold carries_common in Hcommon;
    destruct Hcommon as (_ & _ & _ & _ & _ & _ & _ & _ & _ & _ & _ & _ & _ & ->).
  - by rewrite Hvisible.
  - by apply not_true_is_false in Hvisible as ->.
Qed.

(** X13. The image cell of a handle (lines 207-218) is the [;]-joined list
    of its image addresses in increasing order and without repetition: the
    non-empty texts of the cells of "Image Src" and of "Variant Image" that
    are not missing, over all rows of the group. *)
Theorem image_list_sorted_distinct (cols : list string) (group_df : list Series) :
  ∃ urls, group_image_urls cols group_df = String.concat ";" urls
          ∧ Sorted str_le urls ∧ NoDup urls
          ∧ ∀ s, s ∈ urls ↔ image_texts cols group_df "Image Src" s
                             ∨ image_texts cols group_df "Variant Image" s.
Proof.
  unfold group_image_urls. eexists. split; [reflexivity|].
  split; [apply Sorted_merge_sort, _|]. split.
  - rewrite merge_sort_Permutation. apply NoDup_elements.
  - intros s. rewrite merge_sort_Permutation, elem_of_elements, elem_of_union.
    rewrite !elem_of_list_to_set.
    assert (Hcol : ∀ col, s ∈ image_column cols group_df col
                          ↔ image_texts cols group_df col s).
    { intros col. unfold image_column, image_texts, dropna.
      case_bool_decide as Hin.
      - rewrite list_elem_of_filter, list_elem_of_fmap.
        setoid_rewrite list_elem_of_filter. setoid_rewrite list_elem_of_fmap.
        split.
        + intros (Hne & v & -> & Hna & row & -> & Hrow). eauto 10.
        + intros (_ & Hne & row & Hrow & Hna & ->). eauto 10.
      - split; [by intros ?%elem_of_nil | by intros (? & _)]. }
    by rewrite !Hcol.
Qed.

(** X14. The bucketing loop (lines 354-435) groups the rows of a handle by
    key: the keys of the dictionary are distinct and in order of first
    appearance, every bucket holds exactly the rows of the group with its
    key, in file order, and is never empty, and a row for which the loop
    computes no key is in no bucket. *)
Theorem buckets_partition_rows (group_df : list Series) :
  (variant_combinations group_df).*1 = first_occurrences (omap variant_key group_df)
  ∧ NoDup (variant_combinations group_df).*1
  ∧ ∀ key d, (key, d) ∈ variant_combinations group_df →
      variant_rows d = filter (λ row, variant_key row = Some key) group_df
      ∧ variant_rows d ≠ []
      ∧ ∀ row, variant_key row = None → row ∉ variant_rows d.
Proof.
  split; [|split].
  - rewrite variant_combinations_spec, <- list_fmap_compose.
    rewrite (list_fmap_ext _ id (variant_keys group_df)) by done.
    by rewrite list_fmap_id.
  - apply NoDup_bucket_keys.
  - intros key d [Hkey ->]%elem_of_variant_combinations. split; [done|]. split.
    + apply elem_of_variant_keys in Hkey as (row & Hrow & Hk).
      destruct (rows_with_key_cons key group_df) as (fr & frs & Hfr).
      { apply list_elem_of_omap. eauto. }
      unfold bucket_for. simpl. by rewrite Hfr.
    + intros row Hnone [Hk _]%elem_of_bucket_rows. congruence.
Qed.

(** X15. Rows for which the loop computes no key (no option value but
    "Default Title", no SKU) take no part in the variants: the buckets of a
    group are those of the group without these rows. *)
Theorem keyless_rows_are_ignored (group_df : list Series) :
  variant_combinations group_df
  = variant_combinations (filter (λ row, is_Some (variant_key row)) group_df).
Proof.
  rewrite !variant_combinations_spec. unfold variant_keys.
  assert (Hkeys : omap variant_key (filter (λ row, is_Some (variant_key row)) group_df)
                  = omap variant_key group_df).
  { induction group_df as [|row g IH]; [done|].
    rewrite filter_cons.
    change (omap variant_key (row :: g))
      with (match variant_key row with
            | Some y => y :: omap variant_key g
            | None => omap variant_key g
            end).
    destruct (decide (is_Some (variant_key row))) as [[k Hk]|Hn].
    - change (omap variant_key
                (row :: filter (λ row, is_Some (variant_key row)) g))
        with (match variant_key row with
              | Some y => y :: omap variant_key
                                 (filter (λ row, is_Some (variant_key row)) g)
              | None => omap variant_key
                          (filter (λ row, is_Some (variant_key row)) g)
              end).
      by rewrite Hk, IH.
    - destruct (variant_key row) as [k|] eqn:Hk; [|done].
      exfalso. apply Hn. eauto. }
  rewrite Hkeys. apply list_fmap_ext. intros _ key _. f_equal.
  assert (Hrows : rows_with_key key (filter (λ row, is_Some (variant_key row)) group_df)
                  = rows_with_key key group_df).
  { unfold rows_with_key. rewrite list_filter_filter. apply list_filter_iff.
    intros row. split; [by intros [? _] | intros Hk; split; [done|]].
    rewrite Hk. eauto. }
  unfold bucket_for. by rewrite Hrows.
Qed.

End Aggregates.

(** ** Outcomes of the converter on a loaded file *)

Section Outcomes.
Context {B : Builtins}.

Lemma ffill_idemp (last : option value) (vs : list value) :
  ffill last (ffill last vs) = ffill last vs.
Proof.
  revert last. induction vs as [|v vs IH]; intros last; [done|].
  cbn [ffill]. destruct (notna v) eqn:Hv.
  - cbn [ffill]. by rewrite Hv, IH.
  - cbn [ffill]. destruct last as [u|]; simpl.
    + destruct (notna u) eqn:Hu; by rewrite IH.
    + by rewrite Hv, IH.
Qed.

Lemma fill_handles_handles (rs : list Series) :
  (λ row, cell row "Handle") <$> fill_handles rs
  = ffill None ((λ row, cell row "Handle") <$> rs).
Proof.
  unfold fill_handles.
  assert (Hlen : length (ffill None ((λ row, cell row "Handle") <$> rs)) = length rs)
    by by rewrite ffill_length, length_fmap.
  revert Hlen. generalize (ffill None ((λ row, cell row "Handle") <$> rs)).
  induction rs as [|r rs IH]; intros [|v vs] Hlen; try done.
  simpl in Hlen. cbn [zip_with]. rewrite fmap_cons. f_equal.
  - unfold cell. by rewrite lookup_insert_eq.
  - apply IH. lia.
Qed.

Lemma fill_handles_idemp (rs : list Series) :
  fill_handles (fill_handles rs) = fill_handles rs.
Proof.
  unfold fill_handles at 1. rewrite fill_handles_handles, ffill_idemp.
  unfold fill_handles.
  generalize (ffill None ((λ row, cell row "Handle") <$> rs)).
  induction rs as [|r rs IH]; intros [|v vs]; try done.
  cbn [zip_with]. by rewrite insert_insert_eq, IH.
Qed.

(** X16. What the converter does with a loaded file, exhaustively: it
    returns a table only when the file has a Handle column; the only
    exceptions that leave it are the [ValueError] for the missing Handle
    column, raised exactly when the column is missing, and [OverflowError],
    raised only when the Handle column is there and some row has an infinite
    stock cell.  It never raises [KeyError], [IndexError] or [TypeError]. *)
Theorem outcome_of_a_loaded_file (source_df : DataFrame) :
  match shopify_to_ikas_converter (Loaded source_df) with
  | Returned _ => "Handle" ∈ columns source_df
  | Raised e =>
      (e = ValueError "Handle sütunu bulunamadı. Lütfen geçerli bir Shopify export dosyası yükleyin."
       ∧ "Handle" ∉ columns source_df)
      ∨ (e = OverflowError ∧ "Handle" ∈ columns source_df
         ∧ Exists (λ row, ¬ finite_stock row) (rows source_df))
  end.
Proof.
  destruct (decide ("Handle" ∈ columns source_df)) as [Hin|Hno].
  - destruct (handle_present_outcome source_df Hin) as [[ikas_rows ->]|Hraised]; [done|].
    rewrite Hraised. right. split; [done|]. split; [done|].
    apply (not_Forall_Exists _). intros Hfin.
    destruct (finite_stock_returns source_df Hin Hfin) as [ikas_rows Hret].
    congruence.
  - rewrite (missing_handle_raises source_df Hno). by left.
Qed.

(** X17. The forward fill is idempotent, and the converter reads the
    handles only after it: a file in which the handle is already repeated on
    every row of a product converts to the same result as the file that
    names the handle on the first row of each product only. *)
Theorem filled_handles_convert_alike (source_df : DataFrame) :
  fill_handles (fill_handles (rows source_df)) = fill_handles (rows source_df)
  ∧ shopify_to_ikas_converter (Loaded (prefilled source_df))
    = shopify_to_ikas_converter (Loaded source_df).
Proof.
  split; [apply fill_handles_idemp|].
  simpl. rewrite !convert_frame_unfold. unfold handle_groups, prefilled. simpl.
  by rewrite fill_handles_idemp.
Qed.

End Outcomes.

(** * Worked examples *)

(** The shirt of [two_sizes] owns at least one row of the table. *)
Lemma every_handle_emits_witness :
  (1 ≤ length (rows_of (cell two_sizes_row0 "Handle") two_sizes_rows))%nat.
Proof.
  refine (proj1 (every_handle_emits (B := AsciiText.builtins)
                   two_sizes two_sizes_rows 0 two_sizes_row0 _ _ _)).
  - vm_compute. reflexivity.
  - apply (bool_decide_unpack _). vm_compute. exact I.
  - vm_compute. reflexivity.
Defined.

(** The shirt of [two_sizes] has three rows in two sizes and yields two
    rows, both with the handle as group id. *)
Lemma variant_handle_emits_K_rows_witness :
  length (rows_of (Str "shirt") two_sizes_rows)
  = distinct_option_pairs (B := AsciiText.builtins) two_sizes_group
  ∧ Forall (λ r, Urun_Grup_ID r = Str "shirt") (rows_of (Str "shirt") two_sizes_rows).
Proof.
  apply (variant_handle_emits_K_rows (B := AsciiText.builtins) (L := ascii_laws)
           two_sizes two_sizes_rows 0 (Str "shirt") two_sizes_group).
  - vm_compute. reflexivity.
  - apply (bool_decide_unpack _). vm_compute. exact I.
  - vm_compute. reflexivity.
  - apply (bool_decide_unpack _). vm_compute. exact I.
  - vm_compute. lia.
Defined.

(** C2 as stated fails: the group of [mixed_default_title] spans two
    distinct non-blank option pairs, yet the table holds one row for the
    handle, with a blank group id. *)
Lemma default_title_first_row_hides_variants :
  run mixed_default_title = Returned mixed_default_title_rows
  ∧ handle_groups mixed_default_title !! 0%nat
    = Some (Str "mug", mixed_default_title_group)
  ∧ distinct_option_pairs (B := AsciiText.builtins) mixed_default_title_group = 2%nat
  ∧ length (rows_of (Str "mug") mixed_default_title_rows) = 1%nat
  ∧ Forall (λ r, Urun_Grup_ID r = Str "") (rows_of (Str "mug") mixed_default_title_rows).
Proof.
  repeat split; try (vm_compute; reflexivity).
  vm_compute. repeat constructor.
Qed.

(** C3, at the failing input. The first row of the cap has the non-blank
    option pair ("SKU_ONLY", "A1"), the second has no option values and the
    SKU "A1": the specification gives them keys of different kinds, yet the
    code writes both keys as the pair ("SKU_ONLY", "A1"), puts both rows into
    one bucket, and the table holds one row for the two variants. *)
Theorem sentinel_collides_with_option_pair :
  spec_variant_key (B := AsciiText.builtins) sentinel_collision_row1
  = Some (ByOptions "SKU_ONLY" "A1")
  ∧ spec_variant_key (B := AsciiText.builtins) sentinel_collision_row2
    = Some (BySkuOnly "A1")
  ∧ variant_combinations (B := AsciiText.builtins)
      [sentinel_collision_row1; sentinel_collision_row2]
    = [(("SKU_ONLY", "A1"),
        mkVariantData "sku_only" "A1"
          [sentinel_collision_row1; sentinel_collision_row2])]
  ∧ length (returned (run sentinel_collision)) = 1%nat.
Proof. repeat split; vm_compute; reflexivity. Qed.

(** C4, at the failing input. The bucket of size S has two member rows; the
    first has the barcode "111", the price 10 and the stock 5, and a SKU cell
    that is one space.  Resolved field by field, barcode, price and stock are
    those of the first row, and the loop of the simple product (lines
    252-284) finds them; the loop of the variant bucket (lines 539-578)
    leaves the first row at [continue] and takes all three from the second
    row. *)
Theorem blank_sku_skips_other_fields :
  variant_combinations (B := AsciiText.builtins) blank_sku_bucket
  = [(("S", ""), mkVariantData "S" "" blank_sku_bucket)]
  ∧ first_of (barcode_of (B := AsciiText.builtins)) "" blank_sku_bucket = "111"
  ∧ first_of (price_of (B := AsciiText.builtins)) (Finite 0) blank_sku_bucket
    = Finite (Qc_of_Z 10)
  ∧ first_of (stock_of (B := AsciiText.builtins)) 0%Z blank_sku_bucket = 5%Z
  ∧ simple_merge (B := AsciiText.builtins) blank_sku_bucket
    = Returned (mkMerged " " "111" (Finite (Qc_of_Z 10)) (Finite 0) 5)
  ∧ variant_merge (B := AsciiText.builtins) blank_sku_bucket
    = Returned (mkMerged "A-1" "222" (Finite (Qc_of_Z 20)) (Finite 0) 7)
  ∧ (λ r, (Barkod_Listesi r, Satis_Fiyati r, Stok_Ana_Depo r))
      <$> returned (run blank_sku_row)
    = [(Str "222", Float (Finite (Qc_of_Z 20)), Int 7)].
Proof. repeat split; vm_compute; reflexivity. Qed.

(** Both rows of [plain_mug] say "Default Title": the mug owns one row with
    blank group id and blank variant-axis fields. *)
Lemma default_title_handle_is_one_blank_row_witness :
  one_blank_row (rows_of (Str "mug") plain_mug_rows).
Proof.
  refine (proj1 (default_title_handle_is_one_blank_row (B := AsciiText.builtins)
                   plain_mug plain_mug_rows 0 (Str "mug") plain_mug_group _ _) _).
  - vm_compute. reflexivity.
  - apply (bool_decide_unpack _). vm_compute. exact I.
  - apply (Forall_impl (λ row, is_simple_product (B := AsciiText.builtins) row = true)).
    + apply (bool_decide_unpack _). vm_compute. exact I.
    + intros row Hrow. by apply has_default_title_simple.
Defined.

(** The shirt of [priced_small_only]: the row of size S is merged from
    the S row alone and the row of size M from the M row alone, which has
    neither price nor stock, so that the M row of the table shows 0.0 and 0
    and not the price of size S. *)
Lemma absent_price_and_stock_are_zero_witness :
  Forall2 (λ key r,
             zero_when_absent (B := AsciiText.builtins)
               (rows_with_key (B := AsciiText.builtins) key priced_small_only_group) r)
          (variant_keys (B := AsciiText.builtins) priced_small_only_group)
          (rows_of (Str "shirt") priced_small_only_rows).
Proof.
  refine (proj2 (proj2 (absent_price_and_stock_are_zero (B := AsciiText.builtins)
                          priced_small_only priced_small_only_rows _)
                   (Str "shirt") priced_small_only_group _) _ _).
  - vm_compute. reflexivity.
  - apply (bool_decide_unpack _). vm_compute. exact I.
  - vm_compute. reflexivity.
  - vm_compute. discriminate.
Defined.

(** C8, at the failing input. The frame has a Handle column and one row
    whose stock cell is the float infinity: [int] raises [OverflowError],
    the handler of lines 283 and 577 catches only [ValueError] and
    [TypeError], and the converter returns no table. *)
Theorem infinite_stock_escapes_the_handler :
  "Handle" ∈ columns infinite_stock
  ∧ run infinite_stock = Raised OverflowError.
Proof. split; [apply (bool_decide_unpack _) | ]; vm_compute; done. Qed.

(** C5 as stated fails: the first title cell of the shirt is one space, the
    second row holds the title "Shirt", and the blank cell is chosen. *)
Lemma blank_title_is_chosen :
  Title (group_common_info (columns blank_title) (fill_handles (rows blank_title)))
  = Str " "
  ∧ blank (B := AsciiText.builtins) (Str " ") = true
  ∧ (λ row, cell row "Title") <$> fill_handles (rows blank_title)
    = [Str " "; Str "Shirt"]
  ∧ blank (B := AsciiText.builtins) (Str "Shirt") = false
  ∧ Isim <$> returned (run blank_title) = [Str " "].
Proof. repeat split; vm_compute; reflexivity. Qed.

(** The two sizes of [two_sizes]: the cells "S" and "M" of the rows that
    opened the two buckets. *)
Lemma retained_option_values_witness :
  Forall2 (λ key r,
             ∃ first_row,
               head (rows_with_key (B := AsciiText.builtins) key two_sizes_group)
               = Some first_row
               ∧ Varyant_Deger_1 r
                 = Str (retained_option (B := AsciiText.builtins)
                          (first_row !! "Option1 Value"))
               ∧ Varyant_Deger_2 r
                 = Str (retained_option (B := AsciiText.builtins)
                          (first_row !! "Option2 Value")))
          (variant_keys (B := AsciiText.builtins) two_sizes_group)
          (rows_of (Str "shirt") two_sizes_rows).
Proof.
  apply (retained_option_values (B := AsciiText.builtins) (L := ascii_laws)
           two_sizes two_sizes_rows 0 (Str "shirt") two_sizes_group).
  - vm_compute. reflexivity.
  - apply (bool_decide_unpack _). vm_compute. exact I.
  - vm_compute. reflexivity.
  - vm_compute. discriminate.
Defined.

(** C7 as stated fails: the option cell of the cap is " S ", the bucket
    keeps "S" and the table shows "S": the surrounding white space of the
    first row is not preserved. *)
Lemma padded_option_value_is_trimmed :
  py_str (B := AsciiText.builtins) (cell padded_size_row "Option1 Value") = " S "
  ∧ variant_combinations (B := AsciiText.builtins) [padded_size_row]
    = [(("S", ""), mkVariantData "S" "" [padded_size_row])]
  ∧ Varyant_Deger_1 <$> returned (run padded_size) = [Str "S"].
Proof. repeat split; vm_compute; reflexivity. Qed.

(** The shirt with the third option "Material: Cotton" and the shirt with
    the third option left empty convert to the same result. *)
Lemma option3_never_matters_witness :
  run (with_option3 (Str "Material") (Str "Cotton"))
  = run (with_option3 (Float NaN) (Float NaN)).
Proof.
  apply (option3_never_matters (B := AsciiText.builtins)).
  - reflexivity.
  - apply Forall2_same_but_option3. apply (bool_decide_unpack _).
    vm_compute. exact I.
Defined.

(** The first row of the table of [small_catalog]. *)
Lemma placeholders_always_blank_witness : placeholders_blank small_catalog_row0.
Proof.
  apply (placeholders_always_blank (B := AsciiText.builtins)
           small_catalog small_catalog_rows 0 small_catalog_row0);
    vm_compute; reflexivity.
Defined.

(** The two rows of the cap of [small_catalog]. *)
Lemma rows_carry_common_info_witness :
  Forall (carries_common (B := AsciiText.builtins)
            (columns small_catalog) (Str "cap") small_catalog_cap)
         (rows_of (Str "cap") small_catalog_rows).
Proof.
  apply (rows_carry_common_info (B := AsciiText.builtins)
           small_catalog small_catalog_rows 0 (Str "cap") small_catalog_cap).
  - vm_compute. reflexivity.
  - apply (bool_decide_unpack _). vm_compute. exact I.
Defined.

(** The cap of [small_catalog] has three rows with the keys of two colours
    and owns two rows. *)
Lemma handle_outcome_witness :
  length (rows_of (Str "cap") small_catalog_rows)
  = length (variant_keys (B := AsciiText.builtins) small_catalog_cap)
  ∧ Forall (variant_shape (B := AsciiText.builtins) (Str "cap") small_catalog_cap)
           (rows_of (Str "cap") small_catalog_rows).
Proof.
  refine (proj2 (handle_outcome (B := AsciiText.builtins)
                   small_catalog small_catalog_rows 0 (Str "cap") small_catalog_cap
                   _ _) _ _).
  - vm_compute. reflexivity.
  - apply (bool_decide_unpack _). vm_compute. exact I.
  - vm_compute. reflexivity.
  - vm_compute. discriminate.
Defined.

(** The picture row of [small_catalog], which has no handle of its own. *)
Lemma forward_fill_nearest_witness :
  length (fill_handles (rows small_catalog)) = length (rows small_catalog)
  ∧ ∃ row, rows small_catalog !! 1%nat = Some row
           ∧ nearest_handle (rows small_catalog) 1 (cell small_catalog_filled1 "Handle")
           ∧ ∀ col, col ≠ "Handle" → small_catalog_filled1 !! col = row !! col.
Proof.
  apply (forward_fill_nearest (rows small_catalog) 1 small_catalog_filled1).
  apply (bool_decide_unpack _). vm_compute. exact I.
Defined.

(** The table of [small_catalog] lists the cap before the mug. *)
Lemma handles_keep_file_order_witness :
  first_occurrences (Slug <$> small_catalog_rows)
  = first_occurrences
      (filter (λ v, notna v = true)
              ((λ row, cell row "Handle") <$> fill_handles (rows small_catalog))).
Proof.
  apply (handles_keep_file_order (B := AsciiText.builtins)
           small_catalog small_catalog_rows).
  vm_compute. reflexivity.
Defined.

(** The four rows of [small_catalog] give at most four rows. *)
Lemma never_more_rows_than_input_witness :
  (length small_catalog_rows ≤ length (rows small_catalog))%nat
  ∧ ∀ handle group_df, (handle, group_df) ∈ handle_groups small_catalog →
      (length (rows_of handle small_catalog_rows) ≤ length group_df)%nat.
Proof.
  apply (never_more_rows_than_input (B := AsciiText.builtins)
           small_catalog small_catalog_rows).
  vm_compute. reflexivity.
Defined.

(** Two rows without a handle give the empty table. *)
Lemma no_handles_no_rows_witness : run no_handles = Returned [].
Proof.
  apply (no_handles_no_rows (B := AsciiText.builtins) no_handles);
    apply (bool_decide_unpack _); vm_compute; exact I.
Defined.

(** The two rows of [blank_sku_bucket], merged as a simple product. *)
Lemma simple_merge_fieldwise_witness :
  merged_fieldwise (B := AsciiText.builtins) (sku_of (B := AsciiText.builtins))
    blank_sku_bucket blank_sku_simple_merged.
Proof.
  apply (simple_merge_fieldwise (B := AsciiText.builtins)
           blank_sku_bucket blank_sku_simple_merged).
  vm_compute. reflexivity.
Defined.

(** The rows of the shirt of [two_sizes], which has no SKU column. *)
Lemma variant_merge_fieldwise_witness :
  merged_fieldwise (B := AsciiText.builtins) (stripped_sku_of (B := AsciiText.builtins))
    two_sizes_group two_sizes_merged.
Proof.
  apply (variant_merge_fieldwise (B := AsciiText.builtins)
           two_sizes_group two_sizes_merged).
  - apply (bool_decide_unpack _). vm_compute. exact I.
  - vm_compute. reflexivity.
Defined.

(** The cap of [small_catalog] has the status "draft" and the published
    flag set: its rows are not visible. *)
Lemma sales_channel_follows_status_witness :
  (visible_in_words (B := AsciiText.builtins) (columns small_catalog) small_catalog_cap
   → Forall (λ r, Satis_Kanali_belix r = Str "VISIBLE")
            (rows_of (Str "cap") small_catalog_rows))
  ∧ (¬ visible_in_words (B := AsciiText.builtins) (columns small_catalog) small_catalog_cap
     → Forall (λ r, Satis_Kanali_belix r = Str "")
              (rows_of (Str "cap") small_catalog_rows)).
Proof.
  apply (sales_channel_follows_status (B := AsciiText.builtins)
           small_catalog small_catalog_rows 0 (Str "cap") small_catalog_cap).
  - vm_compute. reflexivity.
  - apply (bool_decide_unpack _). vm_compute. exact I.
Defined.

(** The small and the medium shirt of [two_sizes] have different keys and
    different buckets. *)
Lemma same_bucket_iff_spec_key_witness :
  same_bucket (B := AsciiText.builtins) two_sizes_group two_sizes_small two_sizes_medium
  ↔ ByOptions "S" "" = ByOptions "M" "".
Proof.
  apply (same_bucket_iff_spec_key (B := AsciiText.builtins) (L := ascii_laws)
           two_sizes_group two_sizes_small two_sizes_medium).
  - apply (bool_decide_unpack _). vm_compute. exact I.
  - apply (bool_decide_unpack _). vm_compute. exact I.
  - vm_compute. reflexivity.
  - vm_compute. reflexivity.
  - vm_compute. discriminate.
  - vm_compute. discriminate.
Defined.

(** The two colours of the cap of [small_catalog]: no SKU cell is blank,
    and each row shows the SKU and the price of its colour. *)
Lemma table_cells_resolved_witness :
  Forall2 (λ key r,
             cells_resolved (B := AsciiText.builtins)
               (stripped_sku_of (B := AsciiText.builtins))
               (rows_with_key (B := AsciiText.builtins) key small_catalog_cap) r)
          (variant_keys (B := AsciiText.builtins) small_catalog_cap)
          (rows_of (Str "cap") small_catalog_rows).
Proof.
  refine (proj2 (table_cells_resolved (B := AsciiText.builtins)
                   small_catalog small_catalog_rows 0 (Str "cap") small_catalog_cap
                   _ _) _ _ _).
  - vm_compute. reflexivity.
  - apply (bool_decide_unpack _). vm_compute. exact I.
  - vm_compute. reflexivity.
  - vm_compute. discriminate.
  - apply (bool_decide_unpack _). vm_compute. exact I.
Defined.
